(** * OT change validation: correlation engine and validation processor

    A shallow embedding of
    - [engine/correlator.py]  (class [CorrelationEngine]),
    - [engine/validator.py]   (class [ValidationProcessor]),
    - [database/db.py]        (the [connection] context manager and the two
      writes the engine performs),
    - [connectors/servicenow_pseg.py] ([extract_chg_numbers_from_comment])
      and [connectors/id_parser.py] (the CHG numbers of [_parse_row]),
    together with the parts of Python's [re] and [difflib] that these call;
    and, for the second part of the properties, of
    - [engine/correlator.py]  (class [WSUSAutoValidator]),
    - [engine/validator.py]   ([process_batch]),
    - [connectors/servicenow_pseg.py] (approval status, asset names),
    - [connectors/id_parser.py] ([detect_exception_type], the KB numbers of a
      row, class [IDExceptionCorrelator]),
    - [connectors/wsus_importer.py] and [database/db.py] (the approved list),
    - [connectors/servicenow.py], [connectors/mantis.py] and
      [connectors/id_listener.py] (one table each).

    Conventions.
    - Text is [string] over 8-bit characters; case mapping and digit tests
      are the ASCII ones.
    - A [datetime] is the number of microseconds since the epoch ([Z]); a
      [timedelta] is a number of microseconds.
    - Python floats are kept abstract behind the class [Arith], which has two
      instances: [binary64] (IEEE 754 doubles, the arithmetic the interpreter
      runs) and [exact] (rationals).  Every definition below is written once,
      for any instance. *)

From Stdlib Require Import ZArith QArith Qminmax Lqa Lia Floats Uint63.
From Stdlib Require Import Ascii String List Permutation Bool.
From stdpp Require Import base gmap sets list strings.

Local Open Scope Z_scope.

(** ** Arithmetic of scores *)

Class Arith (F : Type) := {
  of_Z : Z -> F;
  fadd : F -> F -> F;
  fsub : F -> F -> F;
  fmul : F -> F -> F;
  fdiv : F -> F -> F;
  fleb : F -> F -> bool;
  fltb : F -> F -> bool
}.

Declare Scope py_scope.
Delimit Scope py_scope with py.
Infix "+" := fadd : py_scope.
Infix "-" := fsub : py_scope.
Infix "*" := fmul : py_scope.
Infix "/" := fdiv : py_scope.
Infix "<=?" := fleb : py_scope.
Infix "<?" := fltb : py_scope.

(** A decimal literal [n/d] of the source, e.g. [0.40] is [lit 40 100]. *)
Definition lit `{Arith F} (n d : Z) : F := (of_Z n / of_Z d)%py.

(** [max(x, y)] of Python: [y] when [y > x], otherwise [x]. *)
Definition pymax `{Arith F} (x y : F) : F := if (x <? y)%py then y else x.

Definition Z2float (z : Z) : float :=
  if z <? 0 then PrimFloat.opp (PrimFloat.of_uint63 (Uint63.of_Z (- z)))
  else PrimFloat.of_uint63 (Uint63.of_Z z).

#[export] Instance binary64 : Arith float := {|
  of_Z := Z2float;
  fadd := PrimFloat.add;
  fsub := PrimFloat.sub;
  fmul := PrimFloat.mul;
  fdiv := PrimFloat.div;
  fleb := PrimFloat.leb;
  fltb := PrimFloat.ltb
|}.

#[export] Instance exact : Arith Q := {|
  of_Z := inject_Z;
  fadd := Qplus;
  fsub := Qminus;
  fmul := Qmult;
  fdiv := Qdiv;
  fleb := Qle_bool;
  fltb := fun x y => negb (Qle_bool y x)
|}.

(** ** Python strings *)

Module PyStr.

Definition code (c : ascii) : nat := nat_of_ascii c.

Definition is_digit (c : ascii) : bool :=
  (48 <=? code c)%nat && (code c <=? 57)%nat.

Definition is_lower (c : ascii) : bool :=
  (97 <=? code c)%nat && (code c <=? 122)%nat.

Definition is_upper (c : ascii) : bool :=
  (65 <=? code c)%nat && (code c <=? 90)%nat.

(** Whitespace of [str.split()]: tab, LF, VT, FF, CR, FS..US and space. *)
Definition is_space (c : ascii) : bool :=
  ((9 <=? code c)%nat && (code c <=? 13)%nat)
  || ((28 <=? code c)%nat && (code c <=? 32)%nat).

Definition upper_char (c : ascii) : ascii :=
  if is_lower c then ascii_of_nat (code c - 32) else c.

Definition lower_char (c : ascii) : ascii :=
  if is_upper c then ascii_of_nat (code c + 32) else c.

Fixpoint map_chars (f : ascii -> ascii) (s : string) : string :=
  match s with
  | EmptyString => EmptyString
  | String c s' => String (f c) (map_chars f s')
  end.

(** [s.upper()], [s.lower()] *)
Definition upper : string -> string := map_chars upper_char.
Definition lower : string -> string := map_chars lower_char.

(** [s.replace(old, new)] for one-character [old] and [new] *)
Definition replace_char (old new : ascii) : string -> string :=
  map_chars (fun c => if Ascii.eqb c old then new else c).

(** [s.replace(old, new)] for a one-character [old] *)
Fixpoint replace_char_by (old : ascii) (new : string) (s : string) : string :=
  match s with
  | EmptyString => EmptyString
  | String c s' =>
      if Ascii.eqb c old then String.append new (replace_char_by old new s')
      else String c (replace_char_by old new s')
  end.

(** [not s] *)
Definition is_empty (s : string) : bool :=
  match s with EmptyString => true | _ => false end.

(** [s[:n]] *)
Fixpoint take (n : nat) (s : string) : string :=
  match n, s with
  | S k, String c s' => String c (take k s')
  | _, _ => EmptyString
  end.

(** [s[n:]] *)
Fixpoint drop (n : nat) (s : string) : string :=
  match n, s with
  | S k, String _ s' => drop k s'
  | _, _ => s
  end.

(** [needle in hay] *)
Fixpoint contains (needle hay : string) : bool :=
  String.prefix needle hay
  || match hay with
     | EmptyString => false
     | String _ hay' => contains needle hay'
     end.

(** [s.split()]: maximal runs of non-whitespace, in order. [cur] is the run
    being read. *)
Fixpoint split_from (cur : string) (s : string) : list string :=
  match s with
  | EmptyString => if is_empty cur then [] else [cur]
  | String c s' =>
      if is_space c
      then (if is_empty cur then split_from EmptyString s'
            else cur :: split_from EmptyString s')
      else split_from (String.append cur (String c EmptyString)) s'
  end.

Definition split : string -> list string := split_from EmptyString.

Fixpoint all_chars (p : ascii -> bool) (s : string) : bool :=
  match s with
  | EmptyString => true
  | String c s' => p c && all_chars p s'
  end.

Fixpoint join (sep : string) (l : list string) : string :=
  match l with
  | [] => EmptyString
  | [x] => x
  | x :: l' => String.append x (String.append sep (join sep l'))
  end.

(** [str(l)] of a list of strings that need no escaping:
    [['A', 'B']]. *)
Definition repr_list (l : list string) : string :=
  String.append "["
    (String.append
       (join ", " (map (fun s => String.append "'" (String.append s "'")) l))
       "]").

End PyStr.

(** ** The regular expressions of the source *)

Module Re.
Import PyStr.

(** [re.findall] for a pattern that never matches the empty string:
    [m s] tells whether the pattern matches at the start of [s], and then
    gives the length of the match and the value [findall] reports.  The
    scan goes left to right and resumes after each match. [skip] counts
    the characters of the last match still to pass. *)
Fixpoint findall_from {R} (m : string -> option (nat * R)) (skip : nat)
    (s : string) : list R :=
  match s with
  | EmptyString => []
  | String _ s' =>
      match skip with
      | S k => findall_from m k s'
      | O =>
          match m s with
          | Some (len, r) => r :: findall_from m (len - 1) s'
          | None => findall_from m 0 s'
          end
      end
  end.

Definition findall {R} (m : string -> option (nat * R)) : string -> list R :=
  findall_from m 0.

(** [re.search(...).group()]: the first match, if any. *)
Definition search {R} (m : string -> option (nat * R)) (s : string) : option R :=
  head (findall m s).

(** A literal matched under [re.IGNORECASE]. *)
Definition starts_with_nocase (p s : string) : bool :=
  String.eqb (upper (take (String.length p) s)) (upper p).

(** [\d{n}] at the start of [s] *)
Definition digits_at (n : nat) (s : string) : bool :=
  (String.length (take n s) =? n)%nat && all_chars is_digit (take n s).

(** [r'CHG\d{10}'] with [re.IGNORECASE]; reports the whole match. *)
Definition chg_pattern (s : string) : option (nat * string) :=
  if starts_with_nocase "CHG" s && digits_at 10 (drop 3 s)
  then Some (13%nat, take 13 s) else None.

(** [\d{6,7}] is greedy: seven digits when there are seven. *)
Definition digits_6_7 (s : string) : option nat :=
  if digits_at 7 s then Some 7%nat
  else if digits_at 6 s then Some 6%nat
  else None.

(** [r'KB\d{6,7}'] with [re.IGNORECASE]; reports the whole match. *)
Definition kb_pattern (s : string) : option (nat * string) :=
  if starts_with_nocase "KB" s then
    match digits_6_7 (drop 2 s) with
    | Some n => Some ((2 + n)%nat, take (2 + n) s)
    | None => None
    end
  else None.

Definition is_sep (c : ascii) : bool :=
  Ascii.eqb c "-" || Ascii.eqb c " ".

(** [r'KB[- ]?(\d{6,7})'] with [re.IGNORECASE]; reports group 1. *)
Definition kb_group_pattern (s : string) : option (nat * string) :=
  if starts_with_nocase "KB" s then
    match drop 2 s with
    | String c rest =>
        if is_sep c then
          match digits_6_7 rest with
          | Some n => Some ((3 + n)%nat, take n rest)
          | None => None
          end
        else
          match digits_6_7 (String c rest) with
          | Some n => Some ((2 + n)%nat, take n (String c rest))
          | None => None
          end
    | EmptyString => None
    end
  else None.

(** [re.sub(r'^KB[- ]?', '', kb)] (case-sensitive). *)
Definition strip_kb_prefix (kb : string) : string :=
  if String.prefix "KB" kb then
    match drop 2 kb with
    | String c rest => if is_sep c then rest else String c rest
    | EmptyString => EmptyString
    end
  else kb.

End Re.

(** ** [difflib.SequenceMatcher(None, a, b)] *)

Module Difflib.

(** A match [(i, j, k)]: [a[i:i+k] == b[j:j+k]]. *)
Definition Match : Type := nat * nat * nat.

Definition size_of (m : Match) : nat := snd m.

Fixpoint indices_from (c : ascii) (b : list ascii) (j : nat) : list nat :=
  match b with
  | [] => []
  | x :: b' =>
      if Ascii.eqb x c then j :: indices_from c b' (S j)
      else indices_from c b' (S j)
  end.

(** [b2j.get(c, [])] after [__chain_b]: the indices of [c] in [b], in
    increasing order.  No element is junk ([isjunk] is [None]); with
    [autojunk] and [len(b) >= 200] an element that occurs more than
    [len(b) // 100 + 1] times is popular and has been deleted. *)
Definition b2j (b : list ascii) (c : ascii) : list nat :=
  let idxs := indices_from c b 0 in
  let n := length b in
  if (200 <=? n)%nat && (n / 100 + 1 <? length idxs)%nat then [] else idxs.

(** [j2len.get(j-1, 0)] *)
Definition j2len_get (j2len : gmap nat nat) (j : nat) : nat :=
  match j with
  | O => 0%nat
  | S j' => default 0%nat (j2len !! j')
  end.

(** The loop [for j in b2j.get(a[i], nothing)] of [find_longest_match]. *)
Fixpoint inner_loop (i blo bhi : nat) (j2len : gmap nat nat)
    (idxs : list nat) (newj2len : gmap nat nat) (best : Match)
    : gmap nat nat * Match :=
  match idxs with
  | [] => (newj2len, best)
  | j :: rest =>
      if (j <? blo)%nat then inner_loop i blo bhi j2len rest newj2len best
      else if (bhi <=? j)%nat then (newj2len, best)
      else
        let k := (j2len_get j2len j + 1)%nat in
        let best' :=
          if (size_of best <? k)%nat then ((i + 1 - k)%nat, (j + 1 - k)%nat, k)
          else best in
        inner_loop i blo bhi j2len rest (<[j := k]> newj2len) best'
  end.

(** The loop [for i in range(alo, ahi)]; [n] rows are left, the next is
    row [i]. *)
Fixpoint outer_loop (a b : list ascii) (blo bhi : nat) (n i : nat)
    (j2len : gmap nat nat) (best : Match) : Match :=
  match n with
  | O => best
  | S n' =>
      match a !! i with
      | Some c =>
          let '(newj2len, best') :=
            inner_loop i blo bhi j2len (b2j b c) ∅ best in
          outer_loop a b blo bhi n' (S i) newj2len best'
      | None => best
      end
  end.

Definition same_elt (x y : option ascii) : bool :=
  match x, y with
  | Some c, Some d => Ascii.eqb c d
  | _, _ => false
  end.

(** [while besti > alo and bestj > blo and not isbjunk(b[bestj-1]) and
    a[besti-1] == b[bestj-1]]; [bjunk] is empty. *)
Fixpoint extend_left (a b : list ascii) (alo blo : nat) (fuel : nat)
    (best : Match) : Match :=
  match fuel with
  | O => best
  | S fuel' =>
      let '(besti, bestj, bestsize) := best in
      if (alo <? besti)%nat && (blo <? bestj)%nat
         && same_elt (a !! (besti - 1)%nat) (b !! (bestj - 1)%nat)
      then extend_left a b alo blo fuel'
             ((besti - 1)%nat, (bestj - 1)%nat, (bestsize + 1)%nat)
      else best
  end.

(** [while besti+bestsize < ahi and bestj+bestsize < bhi and not
    isbjunk(b[bestj+bestsize]) and a[besti+bestsize] == b[bestj+bestsize]] *)
Fixpoint extend_right (a b : list ascii) (ahi bhi : nat) (fuel : nat)
    (best : Match) : Match :=
  match fuel with
  | O => best
  | S fuel' =>
      let '(besti, bestj, bestsize) := best in
      if (besti + bestsize <? ahi)%nat && (bestj + bestsize <? bhi)%nat
         && same_elt (a !! (besti + bestsize)%nat) (b !! (bestj + bestsize)%nat)
      then extend_right a b ahi bhi fuel' (besti, bestj, (bestsize + 1)%nat)
      else best
  end.

(** [find_longest_match(alo, ahi, blo, bhi)].  The two closing loops of the
    source extend over junk only and never run here.  The left extension
    runs at most [besti] times and the right one at most [ahi] times. *)
Definition find_longest_match (a b : list ascii) (alo ahi blo bhi : nat)
    : Match :=
  let best := outer_loop a b blo bhi (ahi - alo) alo ∅ (alo, blo, 0%nat) in
  let best := extend_left a b alo blo (fst (fst best)) best in
  extend_right a b ahi bhi ahi best.

(** The [while queue] loop of [get_matching_blocks].  The head of [queue]
    is the end of the Python list, where [pop] and [append] work. *)
Fixpoint blocks_loop (a b : list ascii) (fuel : nat)
    (queue : list (nat * nat * nat * nat)) (acc : list Match) : list Match :=
  match fuel with
  | O => acc
  | S fuel' =>
      match queue with
      | [] => acc
      | (alo, ahi, blo, bhi) :: rest =>
          let '(i, j, k) := find_longest_match a b alo ahi blo bhi in
          if (k =? 0)%nat then blocks_loop a b fuel' rest acc
          else
            let q1 :=
              if (alo <? i)%nat && (blo <? j)%nat
              then (alo, i, blo, j) :: rest else rest in
            let q2 :=
              if (i + k <? ahi)%nat && (j + k <? bhi)%nat
              then ((i + k)%nat, ahi, (j + k)%nat, bhi) :: q1 else q1 in
            blocks_loop a b fuel' q2 (acc ++ [(i, j, k)])
      end
  end.

(** Tuple order of [list.sort()]. *)
Definition match_leb (x y : Match) : bool :=
  let '(i1, j1, k1) := x in
  let '(i2, j2, k2) := y in
  (i1 <? i2)%nat
  || ((i1 =? i2)%nat && ((j1 <? j2)%nat || ((j1 =? j2)%nat && (k1 <=? k2)%nat))).

Fixpoint insert_sorted (x : Match) (l : list Match) : list Match :=
  match l with
  | [] => [x]
  | y :: l' => if match_leb x y then x :: l else y :: insert_sorted x l'
  end.

Definition sort_blocks (l : list Match) : list Match :=
  foldr insert_sorted [] l.

(** The loop that merges adjacent blocks; [cur] is [(i1, j1, k1)]. *)
Fixpoint collapse (cur : Match) (l : list Match) : list Match :=
  let '(i1, j1, k1) := cur in
  match l with
  | [] => if (k1 =? 0)%nat then [] else [cur]
  | (i2, j2, k2) :: l' =>
      if ((i1 + k1 =? i2) && (j1 + k1 =? j2))%nat
      then collapse (i1, j1, (k1 + k2)%nat) l'
      else if (k1 =? 0)%nat then collapse (i2, j2, k2) l'
      else cur :: collapse (i2, j2, k2) l'
  end.

(** Every pass of the loop pops one block and pushes at most two, each
    push after a match of at least one element of [a]: [2 * len(a) + 1]
    passes empty the queue. *)
Definition get_matching_blocks (a b : list ascii) : list Match :=
  let la := length a in
  let lb := length b in
  let found := blocks_loop a b (2 * la + 1) [(0, la, 0, lb)%nat] [] in
  collapse (0, 0, 0)%nat (sort_blocks found) ++ [(la, lb, 0%nat)].

Definition sum_sizes (l : list Match) : nat :=
  foldr (fun m acc => (size_of m + acc)%nat) 0%nat l.

(** [_calculate_ratio(matches, length)] *)
Definition calculate_ratio `{Arith F} (matches length : nat) : F :=
  if (length =? 0)%nat then lit 10 10
  else (lit 20 10 * of_Z (Z.of_nat matches) / of_Z (Z.of_nat length))%py.

(** [SequenceMatcher(None, a, b).ratio()] *)
Definition ratio `{Arith F} (a b : string) : F :=
  let a' := list_ascii_of_string a in
  let b' := list_ascii_of_string b in
  calculate_ratio (sum_sizes (get_matching_blocks a' b'))
                  (length a' + length b').

End Difflib.

(** ** Values and records of the engine *)

(** What a record may hold where a date is expected. *)
Inductive pyval :=
| PyDatetime (t : Z)
| PyStr (s : string)
| PyNone.

(** What the code takes from the interpreter and its libraries:
    [datetime.fromisoformat] ([None] for [ValueError]), [datetime.now()], and
    the order in which [set(l)] is iterated, which is some enumeration
    without repetition of the elements of [l]. *)
Record Runtime := {
  fromisoformat : string -> option Z;
  now : Z;
  set_iter : list string -> list string;
  set_iter_NoDup : forall l, NoDup (set_iter l);
  set_iter_elem : forall l x, x ∈ set_iter l <-> x ∈ l
}.

Module Alert.
Record t := {
  asset_name : string;
  asset_name_normalized : string;
  change_category : string;
  change_detail : string;
  detected_at : pyval
}.
End Alert.

Module Change.
(** A row of table [changes].  [kb_articles] is [json.loads] of the stored
    text: [Some l] for an array of strings, [None] when decoding raises. *)
Record t := {
  id : Z;
  ticket_id : string;
  asset_name_normalized : string;
  change_type : string;
  scheduled_start : pyval;
  scheduled_end : pyval;
  kb_articles : option (list string);
  approval_status : string
}.
End Change.

Module Factors.
Record t (F : Type) := {
  asset : F;
  time : F;
  type_ : F;
  kb : F
}.
Arguments asset {F}.
Arguments time {F}.
Arguments type_ {F}.
Arguments kb {F}.
End Factors.

Module CorrelationResult.
Record t (F : Type) := {
  change_id : Z;
  ticket_id : string;
  score : F;
  factors : Factors.t F;
  is_auto_validated : bool;
  validation_rule : option string
}.
Arguments change_id {F}.
Arguments ticket_id {F}.
Arguments score {F}.
Arguments factors {F}.
Arguments is_auto_validated {F}.
Arguments validation_rule {F}.
End CorrelationResult.

Module Validation.
(** The dictionary handed to [create_validation]. *)
Record t (F : Type) := {
  alert_id : Z;
  change_id : option Z;
  correlation_score : F;
  correlation_factors : option (Factors.t F);
  validation_status : string;
  validated_by : option string;
  validated_at : option Z;
  notes : option string;
  auto_validation_rule : option string
}.
Arguments alert_id {F}.
Arguments change_id {F}.
Arguments correlation_score {F}.
Arguments correlation_factors {F}.
Arguments validation_status {F}.
Arguments validated_by {F}.
Arguments validated_at {F}.
Arguments notes {F}.
Arguments auto_validation_rule {F}.
End Validation.

(** ** The store ([database/db.py]) *)

Module Db.

(** The tables the engine reads and writes.  [changes_in_window] is the
    [SELECT] of [get_changes_in_window]; [alerts] maps a row id to its
    [validation_status]. *)
Record t (F : Type) := {
  changes_in_window : Z -> Z -> option string -> list Change.t;
  wsus_patches : gset string;
  alerts : gmap Z string;
  validations : list (Validation.t F);
  audit_log : list (Z * string * string)
}.
Arguments changes_in_window {F}.
Arguments wsus_patches {F}.
Arguments alerts {F}.
Arguments validations {F}.
Arguments audit_log {F}.

Inductive outcome (A : Type) :=
| Returned (a : A)
| Raised.
Arguments Returned {A}.
Arguments Raised {A}.

(** A statement that raises when [fault] is set and applies [f] otherwise. *)
Definition execute {F} (fault : bool) (f : t F -> t F) (db : t F)
    : outcome unit * t F :=
  if fault then (Raised, db) else (Returned tt, f db).

(** [with self.connection() as conn: body]: commit when the body returns,
    roll back and raise again when it raises. *)
Definition connection {F A} (body : t F -> outcome A * t F) (db : t F)
    : outcome A * t F :=
  match body db with
  | (Returned a, db') => (Returned a, db')
  | (Raised, _) => (Raised, db)
  end.

Definition is_kb_approved {F} (db : t F) (kb_number : string) : bool :=
  bool_decide (kb_number ∈ wsus_patches db).

Definition get_changes_in_window {F} (db : t F) (start end_ : Z)
    (asset_name : option string) : list Change.t :=
  changes_in_window db start end_ asset_name.

(** The three statements of the write path, as changes of the tables. *)
Definition insert_validation {F} (validation : Validation.t F) (db : t F) : t F :=
  {| changes_in_window := changes_in_window db;
     wsus_patches := wsus_patches db;
     alerts := alerts db;
     validations := validations db ++ [validation];
     audit_log := audit_log db |}.

(** [UPDATE alerts SET validation_status = ? WHERE id = ?]: a row that is
    not there is not created. *)
Definition set_alert_status {F} (alert_id : Z) (status : string) (db : t F) : t F :=
  {| changes_in_window := changes_in_window db;
     wsus_patches := wsus_patches db;
     alerts := alter (fun _ => status) alert_id (alerts db);
     validations := validations db;
     audit_log := audit_log db |}.

Definition insert_audit {F} (entry : Z * string * string) (db : t F) : t F :=
  {| changes_in_window := changes_in_window db;
     wsus_patches := wsus_patches db;
     alerts := alerts db;
     validations := validations db;
     audit_log := audit_log db ++ [entry] |}.

(** [create_validation]: one [INSERT INTO validations] on a connection of
    its own. *)
Definition create_validation {F} (fault : bool) (validation : Validation.t F)
    : t F -> outcome unit * t F :=
  connection (execute fault (insert_validation validation)).

(** [update_alert_status]: the [UPDATE], then the [INSERT INTO audit_log],
    on a connection of its own. *)
Definition update_alert_status {F} (fault_update fault_audit : bool)
    (alert_id : Z) (status validated_by : string)
    : t F -> outcome unit * t F :=
  connection (fun db =>
    match execute fault_update (set_alert_status alert_id status) db with
    | (Returned _, db1) =>
        execute fault_audit (insert_audit (alert_id, validated_by, status)) db1
    | (Raised, db1) => (Raised, db1)
    end).

End Db.

(** ** [class CorrelationEngine] ([engine/correlator.py]) *)

Module CorrelationEngine.
Import PyStr.

Section Engine.
Context {F : Type} `{Arith F}.
Variable rt : Runtime.

(** Correlation factor weights *)
Definition WEIGHTS : Factors.t F :=
  {| Factors.asset := lit 40 100;
     Factors.time := lit 30 100;
     Factors.type_ := lit 20 100;
     Factors.kb := lit 10 100 |}.

(** Thresholds *)
Definition AUTO_VALIDATE_THRESHOLD : F := lit 95 100.
Definition MINIMUM_MATCH_THRESHOLD : F := lit 50 100.
Definition TIME_BUFFER_HOURS : Z := 24.

Definition CHANGE_TYPE_MAPPINGS : gmap string (list string) :=
  list_to_map
    [("software", ["patch"; "software"; "install"; "update"]);
     ("service", ["config"; "software"; "service"]);
     ("user", ["user"; "access"; "account"]);
     ("config", ["config"; "setting"; "parameter"]);
     ("file", ["config"; "software"; "patch"]);
     ("registry", ["config"; "software"]);
     ("firewall", ["config"; "network"; "firewall"]);
     ("patch", ["patch"; "update"; "hotfix"])]%string.

(** [timedelta(hours=h)], in microseconds *)
Definition hours (h : Z) : Z := h * 3600000000.

(** [td.total_seconds()]: the microseconds divided by [10**6]. *)
Definition total_seconds (td : Z) : F := (of_Z td / of_Z 1000000)%py.

(** [parse_dt] of [_time_score] *)
Definition parse_dt (dt : pyval) : option Z :=
  match dt with
  | PyDatetime t => Some t
  | PyStr s => fromisoformat rt (replace_char_by "Z" "+00:00" s)
  | PyNone => None
  end.

Definition nonempty (s : gset string) : bool := negb (size s =? 0)%nat.

Definition asset_tokens (name : string) : gset string :=
  list_to_set (split (replace_char "_" " " (replace_char "-" " " name))).

Definition _asset_similarity (alert_asset change_asset : string) : F :=
  if is_empty alert_asset || is_empty change_asset then of_Z 0
  else if String.eqb alert_asset change_asset then of_Z 1
  else if contains alert_asset change_asset
          || contains change_asset alert_asset then lit 9 10
  else
    let ratio : F := Difflib.ratio alert_asset change_asset in
    let alert_tokens := asset_tokens alert_asset in
    let change_tokens := asset_tokens change_asset in
    if nonempty alert_tokens && nonempty change_tokens then
      let token_overlap :=
        (of_Z (Z.of_nat (size (alert_tokens ∩ change_tokens)))
         / of_Z (Z.of_nat (size (alert_tokens ∪ change_tokens))))%py in
      pymax ratio token_overlap
    else ratio.

Definition _time_score (detected_at scheduled_start scheduled_end : pyval)
    : F :=
  match parse_dt detected_at, parse_dt scheduled_start with
  | Some detected, Some start =>
      let end_ :=
        match parse_dt scheduled_end with
        | Some e => e
        | None => start + hours 24
        end in
      let buffer := hours TIME_BUFFER_HOURS in
      let window_start := start - buffer in
      let window_end := end_ + buffer in
      if (start <=? detected) && (detected <=? end_) then of_Z 1
      else if (window_start <=? detected) && (detected <=? window_end) then
        let hours_outside :=
          if detected <? start
          then (total_seconds (start - detected) / of_Z 3600)%py
          else (total_seconds (detected - end_) / of_Z 3600)%py in
        pymax (of_Z 0)
          (of_Z 1 - (hours_outside / of_Z TIME_BUFFER_HOURS) * lit 5 10)%py
      else of_Z 0
  | _, _ => of_Z 0
  end.

Definition words (s : string) : gset string := list_to_set (split s).

Definition _type_match (alert_category change_type : string) : F :=
  if is_empty alert_category || is_empty change_type then lit 5 10
  else
    let alert_cat := lower alert_category in
    let change_t := lower change_type in
    if String.eqb alert_cat change_t then of_Z 1
    else
      let expected_types := default [] (CHANGE_TYPE_MAPPINGS !! alert_cat) in
      if bool_decide (change_t ∈ expected_types) then of_Z 1
      else if nonempty (words alert_cat ∩ words change_t) then lit 7 10
      else lit 3 10.

Definition _kb_match (db : Db.t F) (alert_detail : string)
    (kb_articles_json : option (list string)) : F :=
  if is_empty alert_detail then lit 5 10
  else
    let alert_kbs : gset string :=
      list_to_set (Re.findall Re.kb_group_pattern alert_detail) in
    if negb (nonempty alert_kbs) then lit 5 10
    else
      let change_kbs : gset string :=
        match kb_articles_json with
        | Some l => list_to_set l
        | None => ∅
        end in
      let change_kbs : gset string :=
        list_to_set (map Re.strip_kb_prefix (elements change_kbs)) in
      if negb (nonempty change_kbs) then
        if existsb (fun kb => Db.is_kb_approved db (String.append "KB" kb))
             (elements alert_kbs)
        then of_Z 1 else lit 5 10
      else if nonempty (alert_kbs ∩ change_kbs) then of_Z 1
      else lit 3 10.

(** [sum(factors[k] * self.WEIGHTS[k] for k in factors)]: the keys come
    in insertion order and [sum] starts from [0]. *)
Definition _calculate_score (db : Db.t F) (alert : Alert.t)
    (change : Change.t) : F * Factors.t F :=
  let factors :=
    {| Factors.asset :=
         _asset_similarity (Alert.asset_name_normalized alert)
                           (Change.asset_name_normalized change);
       Factors.time :=
         _time_score (Alert.detected_at alert)
                     (Change.scheduled_start change)
                     (Change.scheduled_end change);
       Factors.type_ :=
         _type_match (Alert.change_category alert)
                     (Change.change_type change);
       Factors.kb :=
         _kb_match db (Alert.change_detail alert)
                   (Change.kb_articles change) |} in
  let total :=
    (of_Z 0
     + Factors.asset factors * Factors.asset WEIGHTS
     + Factors.time factors * Factors.time WEIGHTS
     + Factors.type_ factors * Factors.type_ WEIGHTS
     + Factors.kb factors * Factors.kb WEIGHTS)%py in
  (total, factors).

Definition _get_validation_rule (score : F) (factors : Factors.t F)
    (change : Change.t) : option string :=
  if (score <? AUTO_VALIDATE_THRESHOLD)%py then None
  else
    let rules :=
      (if (lit 95 100 <=? Factors.asset factors)%py
       then ["exact_asset_match"%string] else [])
      ++ (if (of_Z 1 <=? Factors.time factors)%py
          then ["within_change_window"%string] else [])
      ++ (if (of_Z 1 <=? Factors.kb factors)%py
          then ["kb_article_match"%string] else [])
      ++ (if String.eqb (Change.approval_status change) "approved"
          then ["ticket_approved"%string] else []) in
    match rules with
    | [] => Some "high_confidence_match"%string
    | _ => Some (join "+" rules)
    end.

Definition _get_candidate_changes (db : Db.t F) (alert : Alert.t)
    : list Change.t :=
  let detected_at :=
    match Alert.detected_at alert with
    | PyStr s =>
        match fromisoformat rt (replace_char_by "Z" "+00:00" s) with
        | Some t => t
        | None => now rt
        end
    | PyDatetime t => t
    | PyNone => now rt
    end in
  let search_start := detected_at - hours (TIME_BUFFER_HOURS * 2) in
  let search_end := detected_at + hours TIME_BUFFER_HOURS in
  let asset_name := Alert.asset_name_normalized alert in
  Db.get_changes_in_window db search_start search_end
    (if is_empty asset_name then None else Some (take 3 asset_name)).

(** One pass of [for change in candidates]; the state is
    [(best_match, best_score)]. *)
Definition correlate_step (db : Db.t F) (alert : Alert.t)
    (st : option (CorrelationResult.t F) * F) (change : Change.t)
    : option (CorrelationResult.t F) * F :=
  let '(best_match, best_score) := st in
  let '(score, factors) := _calculate_score db alert change in
  if (best_score <? score)%py && (MINIMUM_MATCH_THRESHOLD <=? score)%py
  then
    (Some {| CorrelationResult.change_id := Change.id change;
             CorrelationResult.ticket_id := Change.ticket_id change;
             CorrelationResult.score := score;
             CorrelationResult.factors := factors;
             CorrelationResult.is_auto_validated :=
               (AUTO_VALIDATE_THRESHOLD <=? score)%py;
             CorrelationResult.validation_rule :=
               _get_validation_rule score factors change |},
     score)
  else st.

Definition correlate_loop (db : Db.t F) (alert : Alert.t)
    (candidates : list Change.t)
    : option (CorrelationResult.t F) * F :=
  fold_left (correlate_step db alert) candidates (None, of_Z 0).

Definition correlate (db : Db.t F) (alert : Alert.t)
    : option (CorrelationResult.t F) :=
  match _get_candidate_changes db alert with
  | [] => None
  | candidates => fst (correlate_loop db alert candidates)
  end.

(** What [correlate_and_validate] returns. *)
Record Report := {
  matched : bool;
  report_ticket_id : option string;
  report_score : F;
  auto_validated : bool;
  report_factors : option (Factors.t F)
}.

(** Which statements of the store raise during one call:
    the [INSERT] of [create_validation], the [UPDATE] and the audit
    [INSERT] of [update_alert_status]. *)
Record Faults := {
  create_validation_raises : bool;
  update_raises : bool;
  audit_raises : bool
}.

Definition correlate_and_validate (faults : Faults) (alert_id : Z)
    (alert : Alert.t) (db : Db.t F) : Db.outcome Report * Db.t F :=
  match correlate db alert with
  | Some result =>
      let auto := CorrelationResult.is_auto_validated result in
      let validation :=
        {| Validation.alert_id := alert_id;
           Validation.change_id := Some (CorrelationResult.change_id result);
           Validation.correlation_score := CorrelationResult.score result;
           Validation.correlation_factors :=
             Some (CorrelationResult.factors result);
           Validation.validation_status :=
             if auto then "auto_validated"%string else "pending_review"%string;
           Validation.validated_by :=
             if auto then Some "SYSTEM"%string else None;
           Validation.validated_at := if auto then Some (now rt) else None;
           Validation.notes := None;
           Validation.auto_validation_rule :=
             CorrelationResult.validation_rule result |} in
      let report :=
        {| matched := true;
           report_ticket_id := Some (CorrelationResult.ticket_id result);
           report_score := CorrelationResult.score result;
           auto_validated := auto;
           report_factors := Some (CorrelationResult.factors result) |} in
      match Db.create_validation (create_validation_raises faults)
              validation db with
      | (Db.Raised, db1) => (Db.Raised, db1)
      | (Db.Returned _, db1) =>
          if auto then
            match Db.update_alert_status (update_raises faults)
                    (audit_raises faults) alert_id "validated" "SYSTEM" db1 with
            | (Db.Raised, db2) => (Db.Raised, db2)
            | (Db.Returned _, db2) => (Db.Returned report, db2)
            end
          else (Db.Returned report, db1)
      end
  | None =>
      let validation :=
        {| Validation.alert_id := alert_id;
           Validation.change_id := None;
           Validation.correlation_score := of_Z 0;
           Validation.correlation_factors := None;
           Validation.validation_status := "pending_review"%string;
           Validation.validated_by := None;
           Validation.validated_at := None;
           Validation.notes := Some "No matching change ticket found"%string;
           Validation.auto_validation_rule := None |} in
      match Db.create_validation (create_validation_raises faults)
              validation db with
      | (Db.Raised, db1) => (Db.Raised, db1)
      | (Db.Returned _, db1) =>
          (Db.Returned
             {| matched := false;
                report_ticket_id := None;
                report_score := of_Z 0;
                auto_validated := false;
                report_factors := None |},
           db1)
      end
  end.

End Engine.

Arguments Report F : clear implicits.

End CorrelationEngine.

(** ** ServiceNow connector ([connectors/servicenow_pseg.py]) *)

Module Snow.
Import PyStr.

(** The two fields of a normalized change that the validator reads. *)
Record Change := {
  approval_status : string;
  state : string
}.

(** [lookup_multiple_chg]: the connector answers with the changes it
    found ([[]] after a [requests.RequestException]) or raises. *)
Definition Connector : Type := list string -> Db.outcome (list Change).

(** [extract_chg_numbers_from_comment]; the state of the loop is
    [(seen, unique)]. *)
Definition dedupe_step (st : gset string * list string) (m : string)
    : gset string * list string :=
  let '(seen, unique) := st in
  let upper_m := upper m in
  if bool_decide (upper_m ∈ seen) then st
  else ({[upper_m]} ∪ seen, unique ++ [upper_m]).

Definition extract_chg_numbers_from_comment (comment : string) : list string :=
  if is_empty comment then []
  else snd (fold_left dedupe_step (Re.findall Re.chg_pattern comment) (∅, [])).

End Snow.

(** ** [IDExceptionParser._parse_row] ([connectors/id_parser.py]) *)

Module IDExceptionParser.
Import PyStr.

(** The [extracted_chg_numbers] of the row: [list(set(chg_numbers))]. *)
Definition extracted_chg_numbers (rt : Runtime) (comment : string)
    : list string :=
  let chg_numbers := Re.findall Re.chg_pattern comment in
  let chg_numbers := map upper chg_numbers in
  set_iter rt chg_numbers.

End IDExceptionParser.

(** ** [class ValidationProcessor] ([engine/validator.py]) *)

Module ValidationProcessor.
Import PyStr.

(** An ID exception, as the parser hands it over. *)
Record Exception_ := {
  exception_type : string;
  detected_at : pyval;
  asset_group : string;
  comment : string;
  kb_numbers : list string;
  patch_id : string
}.

(** A call that leaves the processor. *)
Inductive Call :=
| LookupMultipleChg (chg_numbers : list string)
| IsKbApproved (kb : string)
| Correlate (alert : Alert.t).

Section Processor.
Context {F : Type} `{Arith F}.
Variable rt : Runtime.

Record t := {
  db : Db.t F;
  snow : option Snow.Connector
}.

Record Result := {
  result_exception_type : string;
  result_detected_at : pyval;
  result_asset_group : string;
  correlation_method : option string;
  is_validated : bool;
  confidence : F;
  matched_tickets : list string;
  notes : list string
}.

Definition _extract_chg_numbers (comment : string) : list string :=
  if is_empty comment then []
  else
    let matches := Re.findall Re.chg_pattern comment in
    map upper (set_iter rt matches).

(** The dictionary [_correlate_with_direct_lookup] returns. *)
Record DirectLookup := {
  direct_is_validated : bool;
  direct_confidence : F;
  matched_changes : list Snow.Change;
  rule : string
}.

Definition _correlate_with_direct_lookup (self : t)
    (chg_numbers : list string) : option DirectLookup :=
  match snow self, chg_numbers with
  | None, _ | _, [] => None
  | Some connector, _ =>
      match connector chg_numbers with
      | Db.Returned changes =>
          let approved_changes :=
            List.filter (fun c =>
                           String.eqb (Snow.approval_status c) "approved"
                           && contains "closed" (lower (Snow.state c)))
                        changes in
          match approved_changes with
          | [] => None
          | _ =>
              Some {| direct_is_validated := true;
                      direct_confidence := of_Z 1;
                      matched_changes := approved_changes;
                      rule := "direct_chg_lookup" |}
          end
      | Db.Raised => None
      end
  end.

(** [for kb in kb_numbers: if self.db.is_kb_approved(kb): ...]: the
    first approved number, and the calls made to find it. *)
Fixpoint first_approved (self : t) (kb_numbers : list string)
    : option string * list Call :=
  match kb_numbers with
  | [] => (None, [])
  | kb :: rest =>
      if Db.is_kb_approved (db self) kb then (Some kb, [IsKbApproved kb])
      else
        let '(found, calls) := first_approved self rest in
        (found, IsKbApproved kb :: calls)
  end.

(** [process_exception], with the calls it makes, in order.  ([kb_numbers]
    is the list held by the exception and [append] changes it in place; the
    model gives back the result only.) *)
Definition process_exception (self : t) (exception : Exception_)
    : Result * list Call :=
  let result notes method validated conf tickets :=
    {| result_exception_type := exception_type exception;
       result_detected_at := detected_at exception;
       result_asset_group := asset_group exception;
       correlation_method := method;
       is_validated := validated;
       confidence := conf;
       matched_tickets := tickets;
       notes := notes |} in
  (* Extract CHG numbers from comment *)
  let chg_numbers := _extract_chg_numbers (comment exception) in
  (* Step 1: Try direct CHG lookup (PRIMARY PATH) *)
  let notes1 :=
    match chg_numbers with
    | [] => []
    | _ => [String.append "CHG numbers found: " (repr_list chg_numbers)]
    end in
  let '(correlation, calls1) :=
    match chg_numbers, snow self with
    | _ :: _, Some _ =>
        (_correlate_with_direct_lookup self chg_numbers,
         [LookupMultipleChg chg_numbers])
    | _, _ => (None, [])
    end in
  if match correlation with
     | Some c => direct_is_validated c
     | None => false
     end
  then
    (result (notes1 ++ ["Auto-validated via direct CHG lookup"%string])
       (Some "direct_chg_lookup"%string) true (of_Z 1) chg_numbers,
     calls1)
  else
    (* Step 2: Try WSUS KB match (for patches) *)
    let '(found, calls2) :=
      if String.eqb (exception_type exception) "patches_installed" then
        let kb_numbers :=
          kb_numbers exception
          ++ (if is_empty (patch_id exception) then []
              else match Re.search Re.kb_pattern (patch_id exception) with
                   | Some m => [upper m]
                   | None => []
                   end) in
        first_approved self kb_numbers
      else (None, []) in
    match found with
    | Some kb =>
        (result
           (notes1 ++ [String.append "Auto-validated: "
                         (String.append kb " in WSUS approved list")])
           (Some "wsus_approved"%string) true (of_Z 1) [kb],
         calls1 ++ calls2)
    | None =>
        (* Step 3: Try asset + time window correlation (SECONDARY PATH):
           a comment in the source, no statement. *)
        (* Step 4: No correlation found - flag for manual review *)
        (result
           (notes1 ++ ["No matching change ticket found - manual review required"%string])
           (Some "none"%string) false (of_Z 0) [],
         calls1 ++ calls2)
    end.


End Processor.

Arguments t F : clear implicits.
Arguments Result F : clear implicits.
Arguments DirectLookup F : clear implicits.

End ValidationProcessor.

(** ** Further string operations of the connectors *)

Module PyText.
Import PyStr.

(** [s.lstrip()], [s.rstrip()], [s.strip()]; the whitespace is that of
    [is_space]. *)
Fixpoint lstrip (s : string) : string :=
  match s with
  | EmptyString => EmptyString
  | String c s' => if is_space c then lstrip s' else s
  end.

Fixpoint rstrip (s : string) : string :=
  match s with
  | EmptyString => EmptyString
  | String c s' =>
      let r := rstrip s' in
      if is_empty r && is_space c then EmptyString else String c r
  end.

Definition strip (s : string) : string := rstrip (lstrip s).

(** [s.endswith(suffix)] *)
Definition endswith (suffix s : string) : bool :=
  (String.length suffix <=? String.length s)%nat
  && String.eqb (drop (String.length s - String.length suffix) s) suffix.




End PyText.

(** ** [class ServiceNowPSEGConnector] ([connectors/servicenow_pseg.py]) *)

Module ServiceNowPSEG.
Import PyStr PyText.

(** The [mapping] of [_map_approval_status]. *)
Definition approval_mapping : gmap string string :=
  list_to_map
    [("approved", "approved");
     ("requested", "pending");
     ("not requested", "pending");
     ("rejected", "rejected");
     ("cancelled", "cancelled");
     ("not yet requested", "pending")]%string.

Definition _map_approval_status (snow_approval : string) : string :=
  if is_empty snow_approval then "unknown"%string
  else default "pending"%string (approval_mapping !! lower snow_approval).

(** The two status fields of [normalize_change], from the values
    [get_value('state')] and [get_value('approval')] of the raw record. *)
Definition normalize_change (state approval : string) : Snow.Change :=
  {| Snow.state := state;
     Snow.approval_status := _map_approval_status approval |}.

(** [re.sub(r'\.(local|internal|corp|domain|psegli\.com)$', '', s)]: the
    alternatives, each with its leading dot. *)
Definition domain_suffixes : list string :=
  [".local"; ".internal"; ".corp"; ".domain"; ".psegli.com"]%string.

Fixpoint remove_suffix (suffixes : list string) (s : string) : string :=
  match suffixes with
  | [] => s
  | suffix :: rest =>
      if endswith suffix s
      then take (String.length s - String.length suffix) s
      else remove_suffix rest s
  end.

(** [re.sub(r'^(pcc|bcc|srv|wks|vm|host)[-_]?', '', s)] *)
Definition host_prefixes : list string :=
  ["pcc"; "bcc"; "srv"; "wks"; "vm"; "host"]%string.

Definition is_joiner (c : ascii) : bool :=
  Ascii.eqb c "-" || Ascii.eqb c "_".

Fixpoint remove_prefix (prefixes : list string) (s : string) : string :=
  match prefixes with
  | [] => s
  | p :: rest =>
      if String.prefix p s then
        match drop (String.length p) s with
        | String c s' => if is_joiner c then s' else String c s'
        | EmptyString => EmptyString
        end
      else remove_prefix rest s
  end.

Definition _normalize_asset_name (name : string) : string :=
  if is_empty name then EmptyString
  else
    let normalized := strip (lower name) in
    (* Remove PSEG-specific domain suffixes *)
    let normalized := remove_suffix domain_suffixes normalized in
    (* Remove common PSEG prefixes *)
    remove_prefix host_prefixes normalized.

(** [is_change_approved_and_closed], on what [lookup_chg_by_number]
    answered. *)
Definition is_change_approved_and_closed (change : option Snow.Change) : bool :=
  match change with
  | None => false
  | Some change =>
      String.eqb (Snow.approval_status change) "approved"
      && contains "closed" (lower (Snow.state change))
      && contains "successful" (lower (Snow.state change))
  end.

End ServiceNowPSEG.

(** ** [class ServiceNowConnector] ([connectors/servicenow.py]) *)

Module ServiceNow.
Import PyStr.

(** [_extract_kb_articles] *)
Definition _extract_kb_articles (text : string) : list string :=
  if is_empty text then []
  else map (fun m => String.append "KB" m) (Re.findall Re.kb_group_pattern text).

End ServiceNow.

(** ** [class MantisConnector] ([connectors/mantis.py]) *)

Module Mantis.
Import PyStr.

(** [_map_status], on [status.get('name', '')]. The last test,
    [name in ('rejected')], is a test on a string: its right-hand side is
    not a tuple. *)
Definition _map_status (status_name : string) : string :=
  let name := lower status_name in
  if bool_decide (name ∈ ["resolved"; "closed"; "approved"]%string)
  then "approved"%string
  else if bool_decide (name ∈ ["new"; "assigned"; "confirmed"]%string)
  then "pending"%string
  else if contains name "rejected" then "rejected"%string
  else "pending"%string.

End Mantis.

(** ** [class IDEmailListener] ([connectors/id_listener.py]) *)

Module IDEmailListener.
Import PyStr PyText.



End IDEmailListener.

(** ** [class WSUSAutoValidator] ([engine/correlator.py]) *)

Module WSUSAutoValidator.
Import PyStr.

(** The dictionary [check_wsus_approval] returns. *)
Record Approval := {
  auto_validated : bool;
  validation_rule : string;
  kb_number : string;
  notes : string
}.

Definition check_wsus_approval {F} (db : Db.t F) (alert : Alert.t)
    : option Approval :=
  let detail := Alert.change_detail alert in
  (* Extract KB number *)
  match Re.search Re.kb_group_pattern detail with
  | None => None
  | Some group1 =>
      let kb_number := String.append "KB" group1 in
      (* Check WSUS approval *)
      if Db.is_kb_approved db kb_number then
        Some {| auto_validated := true;
                validation_rule := "wsus_approved_patch";
                kb_number := kb_number;
                notes := String.append "Patch "
                           (String.append kb_number " is in WSUS approved list") |}
      else None
  end.

End WSUSAutoValidator.

(** ** More of [class Database] ([database/db.py]) *)

Module Database.

(** The [CHECK] constraints of the schema on the two status columns. *)
Definition alerts_validation_status : list string :=
  ["pending"; "validated"; "unauthorized"; "investigating"]%string.

Definition validations_validation_status : list string :=
  ["auto_validated"; "manual_validated"; "unauthorized"; "pending_review"]%string.

(** [INSERT INTO wsus_patches ... ON CONFLICT(kb_number) DO UPDATE ...]:
    the table keeps one row per [kb_number]. *)
Definition insert_wsus_patch {F} (kb_number : string) (db : Db.t F) : Db.t F :=
  {| Db.changes_in_window := Db.changes_in_window db;
     Db.wsus_patches := {[kb_number]} ∪ Db.wsus_patches db;
     Db.alerts := Db.alerts db;
     Db.validations := Db.validations db;
     Db.audit_log := Db.audit_log db |}.

(** [upsert_wsus_patch], on the [kb_number] of the patch. *)
Definition upsert_wsus_patch {F} (fault : bool) (kb_number : string)
    : Db.t F -> Db.outcome unit * Db.t F :=
  Db.connection (Db.execute fault (insert_wsus_patch kb_number)).

End Database.

(** ** [class WSUSImporter], [class WSUSSyncer]
    ([connectors/wsus_importer.py]) *)

Module WSUSImporter.
Import PyStr PyText.

Definition _normalize_kb (value : string) : string :=
  if is_empty value then EmptyString
  else
    let value := upper (strip value) in
    (* Ensure KB prefix *)
    if negb (String.prefix "KB" value) then String.append "KB" value
    else value.

(** The [kb_number] of each patch [import_patches] returns, from the
    [KBNumber] column of the rows. *)
Definition import_patches (rows : list string) : list string :=
  List.filter (fun kb_number => negb (is_empty kb_number))
              (map _normalize_kb rows).

(** The loop of [WSUSSyncer.sync]: one [upsert_wsus_patch] per patch, each
    on a connection of its own; [faults] tells which of them raise. *)
Fixpoint sync_loop {F} (faults : list bool) (patches : list string)
    (count : nat) (db : Db.t F) : Db.outcome nat * Db.t F :=
  match patches with
  | [] => (Db.Returned count, db)
  | patch :: rest =>
      match Database.upsert_wsus_patch (hd false faults) patch db with
      | (Db.Raised, db') => (Db.Raised, db')
      | (Db.Returned _, db') => sync_loop (tl faults) rest (S count) db'
      end
  end.

End WSUSImporter.

(** ** More of [connectors/id_parser.py] *)

Module IdParser.
Import PyStr.

Inductive ExceptionType :=
| ASSET_DETAILS
| SOFTWARE_INSTALLED
| PATCHES_INSTALLED
| PORTS_AND_SERVICES
| FIREWALL_RULES
| USER_ACCOUNTS
| DEVICE_INTERFACES.

(** [ExceptionType.value] *)
Definition value (t : ExceptionType) : string :=
  match t with
  | ASSET_DETAILS => "asset_details"
  | SOFTWARE_INSTALLED => "software_installed"
  | PATCHES_INSTALLED => "patches_installed"
  | PORTS_AND_SERVICES => "ports_and_services"
  | FIREWALL_RULES => "firewall_rules"
  | USER_ACCOUNTS => "user_accounts"
  | DEVICE_INTERFACES => "device_interfaces"
  end.

(** The CSV columns of [COMMON_COLUMNS] and [TAB_COLUMNS], in the order of
    the dictionaries. *)
Definition COMMON_COLUMNS : list (string * string) :=
  [("Type", "change_action");
   ("Asset Groups", "asset_group");
   ("Assets", "asset_count");
   ("Comment", "comment");
   ("Exception Detection Date", "detected_at")]%string.

Definition TAB_COLUMNS (t : ExceptionType) : list (string * string) :=
  match t with
  | ASSET_DETAILS =>
      [("Attribute Name", "attribute_name");
       ("Attribute Value", "attribute_value")]
  | SOFTWARE_INSTALLED =>
      [("Software Name", "software_name");
       ("Software Version", "software_version")]
  | PATCHES_INSTALLED =>
      [("Patch ID", "patch_id");
       ("Service Pack In Effect", "service_pack")]
  | PORTS_AND_SERVICES =>
      [("Port", "port");
       ("Protocol", "protocol");
       ("IP Version", "ip_version");
       ("Interface", "interface");
       ("Process", "process_name")]
  | FIREWALL_RULES =>
      [("Policy ID", "policy_id");
       ("Source IF", "source_if");
       ("Destination IF", "dest_if");
       ("Action", "action");
       ("Status", "status");
       ("S...", "source_config");
       ("D...", "dest_config");
       ("A...", "actual_config")]
  | USER_ACCOUNTS =>
      [("User ID", "user_id");
       ("User Type", "user_type");
       ("Domain", "domain");
       ("Member of", "member_of");
       ("Enabled", "enabled")]
  | DEVICE_INTERFACES =>
      [("Interface Name", "interface_name");
       ("IP Address", "ip_address");
       ("Subnet Mask", "subnet_mask");
       ("MAC Address", "mac_address")]
  end%string.

Definition detect_exception_type (headers : list string) : ExceptionType :=
  let headers_lower := map lower headers in
  let has (h : string) := bool_decide (h ∈ headers_lower) in
  if has "patch id" then PATCHES_INSTALLED
  else if has "software name" then SOFTWARE_INSTALLED
  else if has "port" && has "protocol" then PORTS_AND_SERVICES
  else if has "policy id" then FIREWALL_RULES
  else if has "user id" && has "user type" then USER_ACCOUNTS
  else if has "interface name" && has "mac address" then DEVICE_INTERFACES
  else if has "attribute name" then ASSET_DETAILS
  else ASSET_DETAILS.

(** [details['kb_numbers']] of [_parse_type_specific_fields], for a row of
    the Patches Installed tab. *)
Definition kb_numbers (patch_id : string) : list string :=
  map upper (Re.findall Re.kb_pattern patch_id).

End IdParser.

(** ** [class IDExceptionCorrelator] ([connectors/id_parser.py]) *)

Module IDExceptionCorrelator.
Import PyStr.

(** The fields of an [IDException] that [correlate_exception] reads;
    [kb_numbers] is [details.get('kb_numbers')]. *)
Record IDException := {
  exception_type : IdParser.ExceptionType;
  extracted_chg_numbers : list string;
  kb_numbers : option (list string)
}.

Section Correlator.
Context {F : Type} `{Arith F}.

Record Result := {
  result_exception_type : string;
  correlation_method : option string;
  matched_changes : list Snow.Change;
  is_validated : bool;
  confidence : F;
  matched_kb : option string
}.

(** [for kb in kb_numbers: if self.db.is_kb_approved(kb): ...] *)
Definition first_approved_kb (db : Db.t F) (kb_numbers : list string)
    : option string :=
  List.find (Db.is_kb_approved db) kb_numbers.

(** [self.snow.lookup_multiple_chg] is called outside any [try]: when it
    raises, so does [correlate_exception]. *)
Definition correlate_exception (snow : Snow.Connector) (db : Db.t F)
    (exception : IDException) : Db.outcome Result :=
  let result method changes validated conf kb :=
    {| result_exception_type := IdParser.value (exception_type exception);
       correlation_method := method;
       matched_changes := changes;
       is_validated := validated;
       confidence := conf;
       matched_kb := kb |} in
  (* TERTIARY: KB article match for patches, then no correlation *)
  let rest :=
    let found :=
      match exception_type exception with
      | IdParser.PATCHES_INSTALLED =>
          first_approved_kb db (default [] (kb_numbers exception))
      | _ => None
      end in
    match found with
    | Some kb =>
        result (Some "wsus_approved_patch"%string) [] true (of_Z 1) (Some kb)
    | None => result (Some "none"%string) [] false (of_Z 0) None
    end in
  (* PRIMARY: Direct CHG lookup from comment *)
  match extracted_chg_numbers exception with
  | [] => Db.Returned rest
  | chg_numbers =>
      match snow chg_numbers with
      | Db.Raised => Db.Raised
      | Db.Returned changes =>
          let approved_changes :=
            List.filter (fun c => String.eqb (Snow.approval_status c) "approved")
                        changes in
          match approved_changes with
          | [] => Db.Returned rest
          | _ =>
              Db.Returned
                (result (Some "direct_chg_lookup"%string) approved_changes
                        true (of_Z 1) None)
          end
      end
  end.

End Correlator.

Arguments Result F : clear implicits.

End IDExceptionCorrelator.

(** ** [ValidationProcessor.process_batch] ([engine/validator.py]) *)

Module Batch.
Import PyStr ValidationProcessor.

(** An entry of [summary['by_type']]. *)
Record TypeCount := {
  validated : nat;
  pending : nat
}.

Section Batch.
Context {F : Type} `{Arith F}.
Variable rt : Runtime.

Record Summary := {
  total : nat;
  auto_validated : nat;
  pending_review : nat;
  by_type : gmap string TypeCount;
  results : list (Result F)
}.

(** One pass of [for exc in exceptions]. *)
Definition batch_step (self : t F) (summary : Summary) (exc : Exception_)
    : Summary :=
  let result := fst (process_exception rt self exc) in
  let exc_type := exception_type exc in
  let by_type1 :=
    if bool_decide (exc_type ∈ dom (by_type summary)) then by_type summary
    else <[exc_type := {| validated := 0; pending := 0 |}]> (by_type summary) in
  {| total := total summary;
     auto_validated :=
       if is_validated result then S (auto_validated summary)
       else auto_validated summary;
     pending_review :=
       if is_validated result then pending_review summary
       else S (pending_review summary);
     by_type :=
       alter (fun entry =>
                if is_validated result
                then {| validated := S (validated entry); pending := pending entry |}
                else {| validated := validated entry; pending := S (pending entry) |})
             exc_type by_type1;
     results := results summary ++ [result] |}.

(** [process_batch]; the exceptions of a batch are distinct dictionaries. *)
Definition process_batch (self : t F) (exceptions : list Exception_) : Summary :=
  fold_left (batch_step self) exceptions
    {| total := length exceptions;
       auto_validated := 0;
       pending_review := 0;
       by_type := ∅;
       results := [] |}.

(** The exception dictionary after [process_exception] has returned:
    [kb_numbers.append] changed the list it holds, when step 2 was reached
    and [patch_id] names a KB. *)
Definition exception_after (self : t F) (exception : Exception_) : Exception_ :=
  let chg_numbers := _extract_chg_numbers rt (comment exception) in
  let correlation :=
    match chg_numbers, snow self with
    | _ :: _, Some _ => _correlate_with_direct_lookup self chg_numbers
    | _, _ => None
    end in
  if match correlation with
     | Some c => direct_is_validated c
     | None => false
     end
  then exception
  else if String.eqb (exception_type exception) "patches_installed" then
    {| exception_type := exception_type exception;
       detected_at := detected_at exception;
       asset_group := asset_group exception;
       comment := comment exception;
       kb_numbers :=
         kb_numbers exception
         ++ (if is_empty (patch_id exception) then []
             else match Re.search Re.kb_pattern (patch_id exception) with
                  | Some m => [upper m]
                  | None => []
                  end);
       patch_id := patch_id exception |}
  else exception.

End Batch.

Arguments Summary F : clear implicits.

End Batch.

(** ** A runtime, and the scenarios the statements below are tried on *)

Module Scenario.
Import PyStr.

Lemma hash_order_NoDup (l : list string) :
  NoDup (elements (list_to_set l : gset string)).
Proof. apply NoDup_elements. Qed.

Lemma hash_order_elem (l : list string) (x : string) :
  x ∈ elements (list_to_set l : gset string) <-> x ∈ l.
Proof. rewrite elem_of_elements. apply elem_of_list_to_set. Qed.

(** A runtime whose sets are iterated in the order of [gset]. *)
Definition runtime : Runtime := {|
  fromisoformat := fun _ => None;
  now := 0;
  set_iter := fun l => elements (list_to_set l : gset string);
  set_iter_NoDup := hash_order_NoDup;
  set_iter_elem := hash_order_elem
|}.

Definition hour : Z := 3600000000.

(** An alert with no identifier in its text. *)
Definition alert (detected : Z) : Alert.t := {|
  Alert.asset_name := "QASASM1";
  Alert.asset_name_normalized := "qasasm1";
  Alert.change_category := "software_installed";
  Alert.change_detail := "Monthly patching";
  Alert.detected_at := PyDatetime detected
|}.

(** An approved change on the same asset, scheduled from hour 24 to hour 48. *)
Definition change (id : Z) (kbs : list string) : Change.t := {|
  Change.id := id;
  Change.ticket_id := "CHG0000338771";
  Change.asset_name_normalized := "qasasm1";
  Change.change_type := "software_installed";
  Change.scheduled_start := PyDatetime (24 * hour);
  Change.scheduled_end := PyDatetime (48 * hour);
  Change.kb_articles := Some kbs;
  Change.approval_status := "approved"
|}.

Definition store {F} (candidates : list Change.t) : Db.t F := {|
  Db.changes_in_window := fun _ _ _ => candidates;
  Db.wsus_patches := ∅;
  Db.alerts := {[ 1 := "pending"%string ]};
  Db.validations := [];
  Db.audit_log := []
|}.

End Scenario.

(** ** A patch exception, for the statements on the waterfall *)

Module ScenarioPatch.
Import ValidationProcessor.

(** A row of the Patches Installed tab, as the parser hands it over. *)
Definition exc : Exception_ := {|
  exception_type := "patches_installed";
  detected_at := PyDatetime (30 * Scenario.hour);
  asset_group := "All_Windows, Domain Controllers";
  comment := "Activity from DSCADA Monthly Patching: CHG0000338290";
  kb_numbers := ["KB5062070"];
  patch_id := "KB5062070"
|}.

(** A store whose approved list holds the patch of the row. *)
Definition store {F} : Db.t F := {|
  Db.changes_in_window := fun _ _ _ => [];
  Db.wsus_patches := {["KB5062070"%string]};
  Db.alerts := ∅;
  Db.validations := [];
  Db.audit_log := []
|}.

(** A connector whose lookups fail. *)
Definition failing : Snow.Connector := fun _ => Db.Raised.

(** A connector that knows every ticket as approved and closed. *)
Definition approving : Snow.Connector := fun chg_numbers =>
  Db.Returned
    (map (fun _ => {| Snow.approval_status := "approved";
                      Snow.state := "Closed Successful" |}) chg_numbers).

End ScenarioPatch.

(** * Checks of the model against the interpreter *)

(** The decimal literals of the source, as CPython reads them
    ([float.hex]). *)
Lemma binary64_literals :
  lit (F:=float) 40 100 = 0x1.999999999999ap-2%float
  /\ lit (F:=float) 30 100 = 0x1.3333333333333p-2%float
  /\ lit (F:=float) 20 100 = 0x1.999999999999ap-3%float
  /\ lit (F:=float) 10 100 = 0x1.999999999999ap-4%float
  /\ lit (F:=float) 95 100 = 0x1.e666666666666p-1%float
  /\ lit (F:=float) 50 100 = 0x1p-1%float
  /\ lit (F:=float) 9 10 = 0x1.ccccccccccccdp-1%float
  /\ lit (F:=float) 7 10 = 0x1.6666666666666p-1%float
  /\ lit (F:=float) 3 10 = 0x1.3333333333333p-2%float
  /\ lit (F:=float) 5 10 = 0x1p-1%float.
Proof. repeat split; vm_compute; reflexivity. Qed.

(** [re.findall(r'CHG\d{10}', ..., re.IGNORECASE)] *)
Example findall_chg :
  Re.findall Re.chg_pattern "Activity: CHG0000338290 chg0000338289x CHG12"
  = ["CHG0000338290"; "chg0000338289"]%string.
Proof. vm_compute. reflexivity. Qed.

(** [re.findall(r'KB[- ]?(\d{6,7})', ..., re.IGNORECASE)] *)
Example findall_kb :
  Re.findall Re.kb_group_pattern "kb-5062070 installed KB123456 KB 12345"
  = ["5062070"; "123456"]%string.
Proof. vm_compute. reflexivity. Qed.

Example split_whitespace : PyStr.split "  ab cd  e " = ["ab"; "cd"; "e"]%string.
Proof. vm_compute. reflexivity. Qed.

Example repr_of_list : PyStr.repr_list ["A"; "B"]%string = "['A', 'B']"%string.
Proof. vm_compute. reflexivity. Qed.

(** [SequenceMatcher(None, a, b).get_matching_blocks()] *)
Example matching_blocks_tide_diet :
  Difflib.get_matching_blocks (list_ascii_of_string "tide") (list_ascii_of_string "diet")
  = [(0, 3, 1); (4, 4, 0)]%nat.
Proof. vm_compute. reflexivity. Qed.
Example matching_blocks_diet_tide :
  Difflib.get_matching_blocks (list_ascii_of_string "diet") (list_ascii_of_string "tide")
  = [(0, 2, 1); (2, 3, 1); (4, 4, 0)]%nat.
Proof. vm_compute. reflexivity. Qed.
Example matching_blocks_two :
  Difflib.get_matching_blocks (list_ascii_of_string "srv-app-01x") (list_ascii_of_string "app-srv-01")
  = [(0, 4, 4); (8, 8, 2); (11, 10, 0)]%nat.
Proof. vm_compute. reflexivity. Qed.

(** * Properties *)

(** ** Selection of the best candidate ([correlate]) *)

Section Selection.
Context {F : Type} `{Arith F}.
Variable rt : Runtime.
Variable db : Db.t F.
Variable alert : Alert.t.

Import CorrelationEngine.













End Selection.

(** ** Order laws of the two arithmetics *)

(** What the selection needs of the comparisons: a score that is at most
    another is not strictly above it, and a score that clears the minimum
    threshold is above the initial best score [0]. *)
Class ArithOrder (F : Type) `{Arith F} : Prop := {
  fleb_not_fltb : forall x y : F, (x <=? y)%py = true -> (y <? x)%py = false;
  threshold_positive : forall s : F,
    (CorrelationEngine.MINIMUM_MATCH_THRESHOLD <=? s)%py = true ->
    (of_Z 0 <? s)%py = true
}.



#[export] Instance exact_order : ArithOrder Q.
Proof.
  split.
  - intros x y. cbn. intros Hle. rewrite Hle. reflexivity.
  - intros s. cbn. unfold CorrelationEngine.MINIMUM_MATCH_THRESHOLD, lit. cbn.
    intros Hle. apply Qle_bool_iff in Hle.
    destruct (Qle_bool s (inject_Z 0)) eqn:E; [|reflexivity].
    apply Qle_bool_iff in E. exfalso.
    assert (Hhalf : (inject_Z 50 / inject_Z 100 == 1 # 2)%Q) by reflexivity.
    rewrite Hhalf in Hle. change (inject_Z 0) with 0%Q in E. lra.
Qed.

(** ** Thresholds and selection: the statements *)

Section SelectionStatements.
Import CorrelationEngine.












End SelectionStatements.

(** ** The write path of the engine *)

Section WritePath.
Context {F : Type} `{Arith F}.
Import CorrelationEngine.

(** One store call leaves the tables as they were when it raises. *)
Lemma create_validation_atomic (fault : bool) (v : Validation.t F) (db : Db.t F) :
  Db.create_validation fault v db
  = if fault then (Db.Raised, db) else (Db.Returned tt, Db.insert_validation v db).
Proof. destruct fault; reflexivity. Qed.

Lemma update_alert_status_atomic (fu fa : bool) (alert_id : Z)
    (status by_ : string) (db : Db.t F) :
  Db.update_alert_status fu fa alert_id status by_ db
  = if fu || fa then (Db.Raised, db)
    else (Db.Returned tt,
          Db.insert_audit (alert_id, by_, status)
            (Db.set_alert_status alert_id status db)).
Proof. destruct fu, fa; reflexivity. Qed.

(** The validation [correlate_and_validate] hands to the store. *)
Definition validation_for (rt : Runtime) (alert_id : Z) (alert : Alert.t)
    (db : Db.t F) : Validation.t F :=
  match correlate rt db alert with
  | Some result =>
      let auto := CorrelationResult.is_auto_validated result in
      {| Validation.alert_id := alert_id;
         Validation.change_id := Some (CorrelationResult.change_id result);
         Validation.correlation_score := CorrelationResult.score result;
         Validation.correlation_factors := Some (CorrelationResult.factors result);
         Validation.validation_status :=
           if auto then "auto_validated"%string else "pending_review"%string;
         Validation.validated_by := if auto then Some "SYSTEM"%string else None;
         Validation.validated_at := if auto then Some (now rt) else None;
         Validation.notes := None;
         Validation.auto_validation_rule := CorrelationResult.validation_rule result |}
  | None =>
      {| Validation.alert_id := alert_id;
         Validation.change_id := None;
         Validation.correlation_score := of_Z 0;
         Validation.correlation_factors := None;
         Validation.validation_status := "pending_review"%string;
         Validation.validated_by := None;
         Validation.validated_at := None;
         Validation.notes := Some "No matching change ticket found"%string;
         Validation.auto_validation_rule := None |}
  end.

Definition auto_for (rt : Runtime) (alert : Alert.t) (db : Db.t F) : bool :=
  match correlate rt db alert with
  | Some result => CorrelationResult.is_auto_validated result
  | None => false
  end.

Lemma validation_for_alert_id rt alert_id alert db :
  Validation.alert_id (validation_for rt alert_id alert db) = alert_id.
Proof. unfold validation_for. destruct (correlate rt db alert); reflexivity. Qed.

Lemma validation_for_status rt alert_id alert db :
  Validation.validation_status (validation_for rt alert_id alert db)
  = if auto_for rt alert db then "auto_validated"%string else "pending_review"%string.
Proof.
  unfold validation_for, auto_for. destruct (correlate rt db alert); reflexivity.
Qed.

(** The tables after [correlate_and_validate], by the statements that raised. *)
Lemma correlate_and_validate_store rt faults alert_id alert (db : Db.t F) :
  snd (correlate_and_validate rt faults alert_id alert db)
  = if create_validation_raises faults then db
    else if auto_for rt alert db
              && negb (update_raises faults || audit_raises faults)
    then Db.insert_audit (alert_id, "SYSTEM", "validated")%string
           (Db.set_alert_status alert_id "validated"
              (Db.insert_validation (validation_for rt alert_id alert db) db))
    else Db.insert_validation (validation_for rt alert_id alert db) db.
Proof.
  unfold correlate_and_validate, validation_for, auto_for.
  destruct (correlate rt db alert) as [m|];
    rewrite ?create_validation_atomic, ?update_alert_status_atomic;
    destruct (create_validation_raises faults); try reflexivity.
  destruct (CorrelationResult.is_auto_validated m); try reflexivity.
  rewrite update_alert_status_atomic.
  destruct (update_raises faults || audit_raises faults); reflexivity.
Qed.

Lemma correlate_and_validate_raises rt faults alert_id alert (db : Db.t F) :
  fst (correlate_and_validate rt faults alert_id alert db) = Db.Raised
  <-> create_validation_raises faults = true
      \/ (auto_for rt alert db = true
          /\ (update_raises faults || audit_raises faults) = true).
Proof.
  unfold correlate_and_validate, auto_for.
  destruct (correlate rt db alert) as [m|];
    [destruct (CorrelationResult.is_auto_validated m)|];
    destruct faults as [[] [] []]; cbn; intuition congruence.
Qed.

End WritePath.

(** C9 (as the code has it).  Each of the two store calls of the write path
    is atomic on its own, and the Validation row is committed before the
    alert's status is touched.  After [correlate_and_validate], whatever
    raised, either nothing was written, or the Validation row alone, or the
    row, the status [validated] and its audit entry together.  So an alert's
    status never changes without its backing Validation row. *)
Theorem write_path_outcomes (F : Type) (A : Arith F) (rt : Runtime)
    (faults : CorrelationEngine.Faults) (alert_id : Z) (alert : Alert.t)
    (db : Db.t F) :
  let r := CorrelationEngine.correlate_and_validate rt faults alert_id alert db in
  let v := validation_for rt alert_id alert db in
  (forall fault v' db', Db.create_validation (F:=F) fault v' db'
     = if fault then (Db.Raised, db') else (Db.Returned tt, Db.insert_validation v' db'))
  /\ (forall fu fa id status by_ db', Db.update_alert_status (F:=F) fu fa id status by_ db'
       = if fu || fa then (Db.Raised, db')
         else (Db.Returned tt,
               Db.insert_audit (id, by_, status) (Db.set_alert_status id status db')))
  /\ Validation.alert_id v = alert_id
  /\ ((fst r = Db.Raised /\ snd r = db)
      \/ snd r = Db.insert_validation v db
      \/ (fst r <> Db.Raised
          /\ Validation.validation_status v = "auto_validated"%string
          /\ snd r = Db.insert_audit (alert_id, "SYSTEM", "validated")%string
                       (Db.set_alert_status alert_id "validated"
                          (Db.insert_validation v db))))
  /\ (Db.alerts (snd r) <> Db.alerts db ->
      Db.validations (snd r) = Db.validations db ++ [v]).
Proof.
  cbv zeta.
  split; [apply create_validation_atomic|].
  split; [apply update_alert_status_atomic|].
  split; [apply validation_for_alert_id|].
  pose proof (correlate_and_validate_raises rt faults alert_id alert db) as Hr.
  rewrite correlate_and_validate_store, validation_for_status.
  destruct (CorrelationEngine.create_validation_raises faults) eqn:Ec.
  { split; [left; split; [apply Hr; by left | done] | done]. }
  destruct (auto_for rt alert db) eqn:Ea; cbn [andb].
  - destruct (CorrelationEngine.update_raises faults || CorrelationEngine.audit_raises faults) eqn:Eu; cbn [negb].
    + split; [right; by left | done].
    + split; [|done]. right; right. split; [|done].
      intros Hraised. apply Hr in Hraised as [|[_ ?]]; done.
  - split; [right; by left | done].
Qed.

(** The insert commits, the status update raises: the alert keeps its old
    status while its Validation row says [auto_validated]. *)
Lemma write_path_not_atomic :
  let faults :=
    {| CorrelationEngine.create_validation_raises := false;
       CorrelationEngine.update_raises := true;
       CorrelationEngine.audit_raises := false |} in
  let db : Db.t float := Scenario.store [Scenario.change 7 []] in
  let r := CorrelationEngine.correlate_and_validate Scenario.runtime faults 1
             (Scenario.alert (30 * Scenario.hour)) db in
  fst r = Db.Raised
  /\ (exists v, Db.validations (snd r) = [v]
                /\ Validation.alert_id v = 1
                /\ Validation.validation_status v = "auto_validated"%string)
  /\ Db.alerts (snd r) !! 1 = Some "pending"%string
  /\ ~ (snd r = db
        \/ (exists v, v ∈ Db.validations (snd r) /\ Validation.alert_id v = 1)
           /\ Db.alerts (snd r) !! 1 = Some "validated"%string).
Proof.
  cbv zeta. split; [vm_compute; reflexivity|].
  split; [eexists; split; [vm_compute; reflexivity|]; split; vm_compute; reflexivity|].
  split; [vm_compute; reflexivity|].
  intros [Heq|[_ Hst]].
  - apply (f_equal (fun d => length (Db.validations d))) in Heq.
    vm_compute in Heq. discriminate.
  - vm_compute in Hst. discriminate.
Qed.

(** ** The validation processor *)

Section Waterfall.
Context {F : Type} `{Arith F}.
Variable rt : Runtime.
Import ValidationProcessor PyStr.



Lemma first_approved_store (self self' : t F) (kbs : list string) :
  Db.wsus_patches (db self') = Db.wsus_patches (db self) ->
  first_approved self' kbs = first_approved self kbs.
Proof.
  intros Hw. induction kbs as [|kb kbs IH]; cbn; [done|].
  unfold Db.is_kb_approved. by rewrite Hw, IH.
Qed.




End Waterfall.


Module Scenario3.
Import ValidationProcessor.

(** An exception with no identifier in its comment, for the asset and the
    time of [Scenario.alert]. *)
Definition exc : Exception_ := {|
  exception_type := "software_installed";
  detected_at := PyDatetime (30 * Scenario.hour);
  asset_group := "QASASM1";
  comment := "Monthly patching";
  kb_numbers := [];
  patch_id := ""
|}.

Definition processor : t float := {|
  db := Scenario.store [Scenario.change 7 []];
  snow := None
|}.

End Scenario3.



(** ** The direct lookup *)

Section DirectLookup.
Context {F : Type} `{Arith F}.
Variable rt : Runtime.
Import ValidationProcessor PyStr.

Lemma direct_lookup_validated (self : t F) (connector : Snow.Connector)
    (chgs : list string) (changes : list Snow.Change) :
  snow self = Some connector ->
  chgs <> [] ->
  connector chgs = Db.Returned changes ->
  (exists c, c ∈ changes /\ Snow.approval_status c = "approved"%string
             /\ contains "closed" (lower (Snow.state c)) = true) ->
  exists d, _correlate_with_direct_lookup self chgs = Some d
            /\ direct_is_validated d = true
            /\ direct_confidence d = of_Z 1
            /\ rule d = "direct_chg_lookup"%string.
Proof.
  intros Hs Hne Hret (c & Hc & Ha & Hcl).
  unfold _correlate_with_direct_lookup. rewrite Hs.
  destruct chgs as [|chg chgs]; [done|]. rewrite Hret.
  set (ok := fun c : Snow.Change => _).
  assert (Hin : In c (List.filter ok changes)).
  { apply filter_In. split; [by apply list_elem_of_In|].
    subst ok. cbn. rewrite Ha, Hcl. reflexivity. }
  destruct (List.filter ok changes); [done|]. eauto.
Qed.

End DirectLookup.


Module Scenario1.
Import ValidationProcessor.

(** A row whose comment names one ticket, and a connector that knows the
    ticket as approved and closed. *)
Definition exc : Exception_ := {|
  exception_type := "patches_installed";
  detected_at := PyDatetime (30 * Scenario.hour);
  asset_group := "All_Windows";
  comment := "Activity: CHG0000338290";
  kb_numbers := [];
  patch_id := "KB5062070"
|}.

Definition connector : Snow.Connector := fun chg_numbers =>
  Db.Returned
    (if bool_decide ("CHG0000338290"%string ∈ chg_numbers)
     then [{| Snow.approval_status := "approved"; Snow.state := "Closed Successful" |}]
     else []).

Definition processor : t float := {|
  db := Scenario.store [];
  snow := Some connector
|}.

End Scenario1.



(** ** Extraction of CHG numbers *)

Lemma two_element_orders (a b : string) (l : list string) :
  a <> b -> NoDup l -> (forall x, x ∈ l <-> x ∈ [a; b]) ->
  l = [a; b] \/ l = [b; a].
Proof.
  intros Hab Hnd Hel.
  assert (Hp : l ≡ₚ [a; b]).
  { apply NoDup_Permutation; [done| |done].
    apply NoDup_cons. split; [by intros ->%list_elem_of_singleton | apply NoDup_singleton]. }
  symmetry in Hp. apply Permutation_length_2_inv in Hp. destruct Hp; auto.
Qed.

(** C8 at a failing input.  Whatever the iteration order of the set,
    [_extract_chg_numbers] returns the ticket twice when the comment spells
    it in two cases: the set is built before the matches are upper-cased.
    [extract_chg_numbers_from_comment] returns it once. *)
Theorem extract_chg_numbers_repeats (rt : Runtime) :
  ValidationProcessor._extract_chg_numbers rt "CHG0000338290 chg0000338290"
  = ["CHG0000338290"; "CHG0000338290"]%string
  /\ Snow.extract_chg_numbers_from_comment "CHG0000338290 chg0000338290"
     = ["CHG0000338290"]%string.
Proof.
  split; [|vm_compute; reflexivity].
  unfold ValidationProcessor._extract_chg_numbers. cbn [PyStr.is_empty].
  change (Re.findall Re.chg_pattern "CHG0000338290 chg0000338290")
    with ["CHG0000338290"; "chg0000338290"]%string.
  destruct (two_element_orders "CHG0000338290" "chg0000338290"
              (set_iter rt ["CHG0000338290"; "chg0000338290"]%string))
    as [-> | ->]; [discriminate|apply set_iter_NoDup|apply set_iter_elem| |];
    vm_compute; reflexivity.
Qed.

(** ** The time factor *)

Section TimeScore.
Context {F : Type} `{Arith F}.
Variable rt : Runtime.
Import CorrelationEngine.

(** [hours_outside] of the source, for a detection outside the window. *)
Definition hours_outside (detected start end_ : Z) : F :=
  if detected <? start
  then (total_seconds (start - detected) / of_Z 3600)%py
  else (total_seconds (detected - end_) / of_Z 3600)%py.





End TimeScore.




(** ** The time factor in exact arithmetic *)

Section TimeScoreExact.
Variable rt : Runtime.
Import CorrelationEngine.







End TimeScoreExact.





(** ** The asset factor *)

(** C7 (as the code has it).  The asset factor gives the same value for
    [(a, b)] and [(b, a)] whenever [SequenceMatcher]'s ratio does: the tests
    for empty, equal and contained names and the token overlap do not depend
    on the order of the two names. *)
Theorem asset_similarity_symmetric_up_to_ratio (F : Type) (A : Arith F)
    (a b : string) :
  Difflib.ratio (F:=F) a b = Difflib.ratio b a ->
  CorrelationEngine._asset_similarity (F:=F) a b
  = CorrelationEngine._asset_similarity b a.
Proof.
  intros Hr. unfold CorrelationEngine._asset_similarity.
  rewrite (orb_comm (PyStr.is_empty a)), (String.eqb_sym a b),
    (orb_comm (PyStr.contains a b)), Hr,
    (andb_comm (CorrelationEngine.nonempty (CorrelationEngine.asset_tokens a))),
    (comm_L (∩) (CorrelationEngine.asset_tokens a)),
    (comm_L (∪) (CorrelationEngine.asset_tokens a)).
  reflexivity.
Qed.

Lemma asset_similarity_symmetric_up_to_ratio_witness :
  Difflib.ratio (F:=float) "srv-app-01" "app-srv-02"
  = Difflib.ratio "app-srv-02" "srv-app-01"
  /\ CorrelationEngine._asset_similarity (F:=float) "srv-app-01" "app-srv-02"
     = CorrelationEngine._asset_similarity "app-srv-02" "srv-app-01".
Proof.
  split; [vm_compute; reflexivity|].
  apply (asset_similarity_symmetric_up_to_ratio float binary64).
  vm_compute; reflexivity.
Defined.

(** [sim("tide", "diet")] is 0.25 and [sim("diet", "tide")] is 0.5. *)
Lemma asset_similarity_not_symmetric :
  CorrelationEngine._asset_similarity (F:=float) "tide" "diet" = lit 25 100
  /\ CorrelationEngine._asset_similarity (F:=float) "diet" "tide" = lit 50 100
  /\ CorrelationEngine._asset_similarity (F:=float) "tide" "diet"
     <> CorrelationEngine._asset_similarity (F:=float) "diet" "tide"
  /\ ~ (CorrelationEngine._asset_similarity (F:=Q) "tide" "diet"
        == CorrelationEngine._asset_similarity (F:=Q) "diet" "tide")%Q.
Proof.
  split; [vm_compute; reflexivity|]. split; [vm_compute; reflexivity|].
  split; vm_compute; discriminate.
Qed.

(** ** Matching blocks stay inside the two sequences *)

Section MatchingBlocks.
Import Difflib.
Variables a b : list ascii.
Local Open Scope nat_scope.

(** A match lies inside [a[alo:ahi]] and [b[blo:bhi]]. *)
Definition in_range (alo ahi blo bhi : nat) (m : Match) : Prop :=
  let '(i, j, k) := m in
  alo <= i /\ i + k <= ahi /\ blo <= j /\ j + k <= bhi.

(** Every length recorded for the rows before [i] ends inside the ranges. *)
Definition j2len_ok (alo blo i : nat) (j2len : gmap nat nat) : Prop :=
  forall j v, j2len !! j = Some v -> v + alo <= i /\ v + blo <= j + 1.

Lemma j2len_get_bound (alo blo i j : nat) (j2len : gmap nat nat) :
  j2len_ok alo blo i j2len -> alo <= i -> blo <= j ->
  j2len_get j2len j + 1 + alo <= i + 1 /\ j2len_get j2len j + 1 + blo <= j + 1.
Proof.
  intros Hok Hi Hj. unfold j2len_get. destruct j as [|j']; [lia|].
  destruct (j2len !! j') as [v|] eqn:E; cbn; [|lia].
  destruct (Hok _ _ E). lia.
Qed.

Lemma inner_loop_range (alo ahi blo bhi i : nat) (j2len : gmap nat nat)
    (idxs : list nat) (newj2len : gmap nat nat) (best : Match) :
  alo <= i -> i < ahi ->
  j2len_ok alo blo i j2len ->
  j2len_ok alo blo (S i) newj2len ->
  in_range alo ahi blo bhi best ->
  let r := inner_loop i blo bhi j2len idxs newj2len best in
  j2len_ok alo blo (S i) (fst r) /\ in_range alo ahi blo bhi (snd r).
Proof.
  intros Hi Hhi Hok. cbv zeta. revert newj2len best.
  induction idxs as [|j rest IH]; intros newj2len best Hnew Hbest;
    cbn [inner_loop]; [done|].
  destruct (j <? blo) eqn:Ej; [by apply IH|]. apply Nat.ltb_ge in Ej.
  destruct (bhi <=? j) eqn:Eb; [done|]. apply Nat.leb_gt in Eb.
  destruct (j2len_get_bound alo blo i j j2len Hok Hi Ej) as [Hka Hkb].
  apply IH.
  - intros j0 v. rewrite lookup_insert. case_decide as Hj0.
    + intros [= <-]. subst j0. lia.
    + apply Hnew.
  - destruct (size_of best <? j2len_get j2len j + 1); [|done].
    unfold in_range. lia.
Qed.

Lemma outer_loop_range (alo ahi blo bhi n i : nat) (j2len : gmap nat nat)
    (best : Match) :
  alo <= i -> i + n <= ahi ->
  j2len_ok alo blo i j2len ->
  in_range alo ahi blo bhi best ->
  in_range alo ahi blo bhi (outer_loop a b blo bhi n i j2len best).
Proof.
  revert i j2len best.
  induction n as [|n IH]; intros i j2len best Hi Hn Hok Hbest;
    cbn [outer_loop]; [done|].
  destruct (a !! i) as [c|]; [|done].
  pose proof (inner_loop_range alo ahi blo bhi i j2len (b2j b c) ∅ best
                Hi ltac:(lia) Hok) as Hin.
  destruct (inner_loop i blo bhi j2len (b2j b c) ∅ best) as [newj2len best'].
  destruct Hin as [Hok' Hbest']; [by intros ? ? ?%lookup_empty_Some | done |].
  apply IH; [lia | lia | done | done].
Qed.

Lemma extend_left_range (alo ahi blo bhi fuel : nat) (best : Match) :
  in_range alo ahi blo bhi best ->
  in_range alo ahi blo bhi (extend_left a b alo blo fuel best).
Proof.
  revert best. induction fuel as [|fuel IH]; intros [[bi bj] bs] Hbest;
    cbn [extend_left]; [done|].
  destruct ((alo <? bi) && (blo <? bj) && _) eqn:E; [|done].
  apply andb_true_iff in E as [E _].
  apply andb_true_iff in E as [?%Nat.ltb_lt ?%Nat.ltb_lt].
  apply IH. unfold in_range in *. lia.
Qed.

Lemma extend_right_range (alo ahi blo bhi fuel : nat) (best : Match) :
  in_range alo ahi blo bhi best ->
  in_range alo ahi blo bhi (extend_right a b ahi bhi fuel best).
Proof.
  revert best. induction fuel as [|fuel IH]; intros [[bi bj] bs] Hbest;
    cbn [extend_right]; [done|].
  destruct ((bi + bs <? ahi) && (bj + bs <? bhi) && _) eqn:E; [|done].
  apply andb_true_iff in E as [E _].
  apply andb_true_iff in E as [?%Nat.ltb_lt ?%Nat.ltb_lt].
  apply IH. unfold in_range in *. lia.
Qed.

(** The fuel of the two extension loops is enough: more changes nothing. *)
Lemma extend_left_fuel (alo blo fuel extra : nat) (best : Match) :
  fst (fst best) <= fuel ->
  extend_left a b alo blo (fuel + extra) best = extend_left a b alo blo fuel best.
Proof.
  revert best. induction fuel as [|fuel IH]; intros [[bi bj] bs] Hf; cbn [fst] in Hf.
  - destruct extra; [done|]. cbn [Nat.add extend_left].
    replace (alo <? bi) with false by (symmetry; apply Nat.ltb_ge; lia). done.
  - cbn [Nat.add extend_left].
    destruct ((alo <? bi) && (blo <? bj) && _); [|done].
    apply IH. cbn [fst]. lia.
Qed.

Lemma extend_right_fuel (ahi bhi fuel extra : nat) (best : Match) :
  ahi <= fst (fst best) + snd best + fuel ->
  extend_right a b ahi bhi (fuel + extra) best = extend_right a b ahi bhi fuel best.
Proof.
  revert best. induction fuel as [|fuel IH]; intros [[bi bj] bs] Hf; cbn [fst snd] in Hf.
  - destruct extra; [done|]. cbn [Nat.add extend_right].
    replace (bi + bs <? ahi) with false by (symmetry; apply Nat.ltb_ge; lia). done.
  - cbn [Nat.add extend_right].
    destruct ((bi + bs <? ahi) && (bj + bs <? bhi) && _); [|done].
    apply IH. cbn [fst snd]. lia.
Qed.

Lemma find_longest_match_range (alo ahi blo bhi : nat) :
  alo <= ahi -> blo <= bhi ->
  in_range alo ahi blo bhi (find_longest_match a b alo ahi blo bhi).
Proof.
  intros Ha Hb. unfold find_longest_match.
  apply extend_right_range, extend_left_range, outer_loop_range;
    [lia | lia | by intros ? ? ?%lookup_empty_Some | unfold in_range; lia].
Qed.

Definition range_ok (q : nat * nat * nat * nat) : Prop :=
  let '(alo, ahi, blo, bhi) := q in alo <= ahi /\ blo <= bhi.








(** Passes the queue can still take: one for each block, two for each
    element of [a] in it. *)
Definition passes_left (queue : list (nat * nat * nat * nat)) : nat :=
  foldr (fun q acc => let '(alo, ahi, _, _) := q in 2 * (ahi - alo) + 1 + acc) 0 queue.

Lemma passes_left_cons alo ahi blo bhi rest :
  passes_left ((alo, ahi, blo, bhi) :: rest) = 2 * (ahi - alo) + 1 + passes_left rest.
Proof. reflexivity. Qed.

(** With fuel for [passes_left queue] passes the loop ends on an empty
    queue: more fuel gives the same blocks. *)
Lemma blocks_loop_fuel (fuel extra : nat) (queue : list (nat * nat * nat * nat))
    (acc : list Match) :
  Forall range_ok queue ->
  passes_left queue <= fuel ->
  blocks_loop a b (fuel + extra) queue acc = blocks_loop a b fuel queue acc.
Proof.
  revert queue acc. induction fuel as [|fuel IH]; intros queue acc Hq Hfuel.
  - destruct queue as [|[[[alo ahi] blo] bhi] rest];
      [by destruct extra | rewrite passes_left_cons in Hfuel; lia].
  - cbn [Nat.add blocks_loop].
    destruct queue as [|[[[alo ahi] blo] bhi] rest]; [done|].
    apply Forall_cons in Hq as [[Ha Hb] Hrest].
    rewrite passes_left_cons in Hfuel.
    pose proof (find_longest_match_range alo ahi blo bhi Ha Hb) as Hm.
    destruct (find_longest_match a b alo ahi blo bhi) as [[i j] k].
    destruct Hm as (Hi & Hik & Hj & Hjk).
    destruct (k =? 0) eqn:Ek; [apply IH; [done|lia]|].
    apply Nat.eqb_neq in Ek.
    set (q1 := if (alo <? i) && (blo <? j) then _ else _).
    set (q2 := if (i + k <? ahi) && (j + k <? bhi) then _ else _).
    assert (Hq1 : Forall range_ok q1
                  /\ passes_left q1 <= 2 * (i - alo) + 1 + passes_left rest).
    { subst q1. destruct ((alo <? i) && (blo <? j)).
      - rewrite passes_left_cons.
        split; [apply Forall_cons; split; [split; lia | done] | lia].
      - split; [done | lia]. }
    destruct Hq1 as (Hq1 & Hp1).
    assert (Hq2 : Forall range_ok q2
                  /\ passes_left q2 <= 2 * (ahi - (i + k)) + 1 + passes_left q1).
    { subst q2. destruct ((i + k <? ahi) && (j + k <? bhi)).
      - rewrite passes_left_cons.
        split; [apply Forall_cons; split; [split; lia | done] | lia].
      - split; [done | lia]. }
    destruct Hq2 as (Hq2 & Hp2).
    apply IH; [done | lia].
Qed.





End MatchingBlocks.

(** ** The four factors and their weighted sum, in exact arithmetic *)

Section ScoreBounds.
Variable rt : Runtime.
Import CorrelationEngine.
Local Open Scope Q_scope.












End ScoreBounds.


(** * Further properties of the code *)

(** ** Characters and case *)

Section CaseMapping.
Import PyStr.

Lemma upper_char_idem (c : ascii) : upper_char (upper_char c) = upper_char c.
Proof. destruct c as [[] [] [] [] [] [] [] []]; reflexivity. Qed.

Lemma lower_char_idem (c : ascii) : lower_char (lower_char c) = lower_char c.
Proof. destruct c as [[] [] [] [] [] [] [] []]; reflexivity. Qed.

Lemma lower_upper_char (c : ascii) : lower_char (upper_char c) = lower_char c.
Proof. destruct c as [[] [] [] [] [] [] [] []]; reflexivity. Qed.

Lemma upper_lower_char (c : ascii) : upper_char (lower_char c) = upper_char c.
Proof. destruct c as [[] [] [] [] [] [] [] []]; reflexivity. Qed.

Lemma upper_char_digit (c : ascii) : is_digit c = true -> upper_char c = c.
Proof. destruct c as [[] [] [] [] [] [] [] []]; first [reflexivity | discriminate]. Qed.

Lemma upper_char_space (c : ascii) : is_space (upper_char c) = is_space c.
Proof. destruct c as [[] [] [] [] [] [] [] []]; reflexivity. Qed.

Lemma lower_char_not_upper (c : ascii) : is_upper (lower_char c) = false.
Proof. destruct c as [[] [] [] [] [] [] [] []]; reflexivity. Qed.

Lemma map_chars_compose (f g : ascii -> ascii) (s : string) :
  map_chars f (map_chars g s) = map_chars (fun c => f (g c)) s.
Proof. induction s as [|c s IH]; cbn; [done | by rewrite IH]. Qed.

Lemma map_chars_ext (f g : ascii -> ascii) (s : string) :
  (forall c, f c = g c) -> map_chars f s = map_chars g s.
Proof. intros E. induction s as [|c s IH]; cbn; [done | by rewrite E, IH]. Qed.

Lemma upper_idem (s : string) : upper (upper s) = upper s.
Proof.
  unfold upper. rewrite map_chars_compose. apply map_chars_ext, upper_char_idem.
Qed.

Lemma lower_idem (s : string) : lower (lower s) = lower s.
Proof.
  unfold lower. rewrite map_chars_compose. apply map_chars_ext, lower_char_idem.
Qed.

Lemma lower_upper (s : string) : lower (upper s) = lower s.
Proof.
  unfold lower, upper. rewrite map_chars_compose. apply map_chars_ext, lower_upper_char.
Qed.

Lemma map_chars_length (f : ascii -> ascii) (s : string) :
  String.length (map_chars f s) = String.length s.
Proof. induction s as [|c s IH]; cbn; [done | by rewrite IH]. Qed.

Lemma map_chars_is_empty (f : ascii -> ascii) (s : string) :
  is_empty (map_chars f s) = is_empty s.
Proof. by destruct s. Qed.

End CaseMapping.

(** ** The three extractions of CHG numbers *)

Section Extraction.
Import PyStr.

(** A ticket number in normal form: [CHG] and ten digits. *)
Definition is_chg_number (s : string) : bool :=
  String.prefix "CHG" s && Re.digits_at 10 (drop 3 s)
  && (String.length s =? 13)%nat.

(** The elements of a list in the order of their first occurrence. *)
Fixpoint first_occurrences (l : list string) : list string :=
  match l with
  | [] => []
  | x :: l' =>
      x :: List.filter (fun y => negb (String.eqb y x)) (first_occurrences l')
  end.

Lemma findall_from_match {R} (m : string -> option (nat * R)) (skip : nat)
    (s : string) (r : R) :
  r ∈ Re.findall_from m skip s -> exists s' len, m s' = Some (len, r).
Proof.
  revert skip. induction s as [|c s IH]; intros skip; cbn.
  - by intros ?%elem_of_nil.
  - destruct skip as [|k]; [|apply IH].
    destruct (m (String c s)) as [[len r']|] eqn:E; [|apply IH].
    intros [->|Hin]%elem_of_cons; [by exists (String c s), len | by eapply IH].
Qed.

Lemma chg_pattern_upper (s m : string) (len : nat) :
  Re.chg_pattern s = Some (len, m) -> is_chg_number (upper m) = true.
Proof.
  unfold Re.chg_pattern.
  destruct (Re.starts_with_nocase "CHG" s && Re.digits_at 10 (drop 3 s)) eqn:E;
    [|discriminate].
  intros [= <- <-]. apply andb_true_iff in E as [E1 E2].
  destruct s as [|c1 [|c2 [|c3 [|d1 [|d2 [|d3 [|d4 [|d5 [|d6 [|d7 [|d8
    [|d9 [|d10 s]]]]]]]]]]]]]; try discriminate.
  unfold Re.starts_with_nocase, upper in E1.
  cbn [take String.length map_chars] in E1.
  apply String.eqb_eq in E1. injection E1 as E1a E1b E1c.
  unfold Re.digits_at in E2. cbn [take drop String.length all_chars] in E2.
  rewrite Nat.eqb_refl in E2. cbn [andb] in E2.
  pose proof E2 as E3.
  repeat (apply andb_true_iff in E2 as [?%upper_char_digit E2]).
  unfold is_chg_number, upper. cbn [take map_chars].
  rewrite E1a, E1b, E1c.
  repeat match goal with H : upper_char _ = _ |- _ => rewrite H; clear H end.
  unfold Re.digits_at. cbn [String.prefix drop take String.length all_chars].
  rewrite E3. reflexivity.
Qed.

Lemma filter_filter_implied {A} (p q : A -> bool) (l : list A) :
  (forall y, p y = true -> q y = true) ->
  List.filter p (List.filter q l) = List.filter p l.
Proof.
  intros Hpq. induction l as [|y l IH]; cbn; [done|].
  destruct (q y) eqn:Eq; cbn.
  - by rewrite IH.
  - destruct (p y) eqn:Ep; [|done]. apply Hpq in Ep. congruence.
Qed.

Lemma filter_pointwise {A} (p q : A -> bool) (l : list A) :
  (forall y, p y = q y) -> List.filter p l = List.filter q l.
Proof. intros E. induction l as [|y l IH]; cbn; [done|]. by rewrite E, IH. Qed.

Lemma filter_filter_both {A} (p q : A -> bool) (l : list A) :
  List.filter p (List.filter q l) = List.filter (fun y => q y && p y) l.
Proof.
  induction l as [|y l IH]; cbn; [done|].
  destruct (q y); cbn; [|done]. destruct (p y); by rewrite IH.
Qed.

Lemma elem_of_List_filter {A} (p : A -> bool) (l : list A) (x : A) :
  x ∈ List.filter p l <-> x ∈ l /\ p x = true.
Proof. rewrite !list_elem_of_In. apply filter_In. Qed.

Lemma NoDup_List_filter {A} (p : A -> bool) (l : list A) :
  NoDup l -> NoDup (List.filter p l).
Proof.
  induction 1 as [|x l Hx Hl IH]; cbn; [constructor|].
  destruct (p x); [|done]. constructor; [|done].
  rewrite elem_of_List_filter. tauto.
Qed.

Lemma elem_of_first_occurrences (l : list string) (x : string) :
  x ∈ first_occurrences l <-> x ∈ l.
Proof.
  induction l as [|y l IH]; cbn; [done|].
  rewrite !elem_of_cons, elem_of_List_filter, IH.
  destruct (String.eqb_spec x y) as [->|Hne]; cbn; [tauto|]. tauto.
Qed.

Lemma NoDup_first_occurrences (l : list string) : NoDup (first_occurrences l).
Proof.
  induction l as [|y l IH]; cbn; constructor.
  - rewrite elem_of_List_filter, String.eqb_refl. cbn. intros [_ ?]; discriminate.
  - by apply NoDup_List_filter.
Qed.

(** The loop of [extract_chg_numbers_from_comment], from any state in which
    [seen] holds the elements of [unique]. *)
Lemma dedupe_fold (l : list string) (seen : gset string) (unique : list string) :
  (forall x, x ∈ seen <-> x ∈ unique) ->
  snd (fold_left Snow.dedupe_step l (seen, unique))
  = unique ++ List.filter (fun y => negb (bool_decide (y ∈ unique)))
                          (first_occurrences (map upper l)).
Proof.
  revert seen unique. induction l as [|m l IH]; intros seen unique Hseen.
  - cbn. by rewrite app_nil_r.
  - cbn [fold_left map first_occurrences List.filter]. unfold Snow.dedupe_step at 2.
    destruct (bool_decide (upper m ∈ seen)) eqn:E.
    + apply bool_decide_eq_true in E. rewrite (IH _ _ Hseen).
      apply Hseen in E. rewrite (bool_decide_eq_true_2 _ E). cbn [negb].
      f_equal. symmetry. apply filter_filter_implied.
      intros y Hy. apply negb_true_iff, bool_decide_eq_false in Hy.
      apply negb_true_iff. destruct (String.eqb_spec y (upper m)); [congruence | done].
    + apply bool_decide_eq_false in E.
      assert (Hu : upper m ∉ unique) by (by rewrite <- Hseen).
      rewrite (bool_decide_eq_false_2 _ Hu). cbn [negb].
      rewrite IH.
      * rewrite <- app_assoc. cbn [app]. do 2 f_equal.
        rewrite filter_filter_both. apply filter_pointwise. intros y.
        destruct (String.eqb_spec y (upper m)) as [->|Hne]; cbn.
        -- rewrite bool_decide_eq_true_2; [done|]. apply elem_of_app; right.
           by apply list_elem_of_singleton.
        -- f_equal. apply bool_decide_ext. rewrite elem_of_app, list_elem_of_singleton.
           tauto.
      * intros x. rewrite elem_of_union, elem_of_singleton, elem_of_app,
          list_elem_of_singleton, Hseen. tauto.
Qed.

Lemma extract_chg_numbers_from_comment_eq (comment : string) :
  Snow.extract_chg_numbers_from_comment comment
  = first_occurrences (map upper (Re.findall Re.chg_pattern comment)).
Proof.
  unfold Snow.extract_chg_numbers_from_comment.
  destruct comment as [|c comment]; [reflexivity|]. cbn [is_empty].
  rewrite dedupe_fold by (intros x; rewrite elem_of_empty, elem_of_nil; tauto).
  cbn [app]. erewrite filter_pointwise; [apply filter_true|].
  intros y. cbn beta. rewrite bool_decide_eq_false_2; [done | apply not_elem_of_nil].
Qed.

Lemma elem_of_extract_chg_numbers_from_comment (comment x : string) :
  x ∈ Snow.extract_chg_numbers_from_comment comment
  <-> exists m, m ∈ Re.findall Re.chg_pattern comment /\ x = upper m.
Proof.
  rewrite extract_chg_numbers_from_comment_eq, elem_of_first_occurrences,
    list_elem_of_fmap.
  split; intros (m & ? & ?); exists m; tauto.
Qed.

Lemma nil_iff_no_elem {A} (l : list A) : l = [] <-> forall x, x ∉ l.
Proof.
  split; [intros -> x; apply not_elem_of_nil | apply elem_of_nil_inv].
Qed.

End Extraction.

(** X1.  [extract_chg_numbers_from_comment] ("Deduplicate while preserving
    order") returns the upper-cased matches of [CHG\d{10}] in the order of
    their first occurrence: the list has no repetition, each of its elements
    is [CHG] followed by ten digits, and it holds exactly the upper-cased
    matches. *)
Theorem extract_chg_numbers_from_comment_first_occurrences (comment : string) :
  let r := Snow.extract_chg_numbers_from_comment comment in
  r = first_occurrences (map PyStr.upper (Re.findall Re.chg_pattern comment))
  /\ NoDup r
  /\ (forall x, x ∈ r -> is_chg_number x = true)
  /\ (forall x, x ∈ r <->
        exists m, m ∈ Re.findall Re.chg_pattern comment /\ x = PyStr.upper m).
Proof.
  cbv zeta. split; [apply extract_chg_numbers_from_comment_eq|].
  split; [rewrite extract_chg_numbers_from_comment_eq; apply NoDup_first_occurrences|].
  split; [|apply elem_of_extract_chg_numbers_from_comment].
  intros x (m & Hm & ->)%elem_of_extract_chg_numbers_from_comment.
  apply findall_from_match in Hm as (s & len & Hs).
  by eapply chg_pattern_upper.
Qed.

(** X2.  The three extractions of ticket numbers agree on which tickets a
    comment names: the parser's list is a rearrangement of the connector's,
    and the validation processor's list (which can repeat a ticket) has the
    same elements, so it is empty exactly when the connector's is. *)
Theorem chg_extractions_agree (rt : Runtime) (comment : string) :
  IDExceptionParser.extracted_chg_numbers rt comment
    ≡ₚ Snow.extract_chg_numbers_from_comment comment
  /\ (forall x, x ∈ ValidationProcessor._extract_chg_numbers rt comment
                <-> x ∈ Snow.extract_chg_numbers_from_comment comment)
  /\ (ValidationProcessor._extract_chg_numbers rt comment = []
      <-> Snow.extract_chg_numbers_from_comment comment = []).
Proof.
  assert (Hv : forall x, x ∈ ValidationProcessor._extract_chg_numbers rt comment
                <-> x ∈ Snow.extract_chg_numbers_from_comment comment).
  { intros x. rewrite elem_of_extract_chg_numbers_from_comment.
    unfold ValidationProcessor._extract_chg_numbers.
    destruct comment as [|c comment]; cbn [PyStr.is_empty].
    - split; [by intros ?%elem_of_nil|]. by intros (m & ?%elem_of_nil & _).
    - rewrite list_elem_of_fmap. setoid_rewrite set_iter_elem.
      split; intros (m & ? & ?); exists m; tauto. }
  split; [|split; [exact Hv|]].
  - apply NoDup_Permutation.
    + apply set_iter_NoDup.
    + rewrite extract_chg_numbers_from_comment_eq. apply NoDup_first_occurrences.
    + intros x. unfold IDExceptionParser.extracted_chg_numbers.
      rewrite set_iter_elem, elem_of_extract_chg_numbers_from_comment, list_elem_of_fmap.
      split; intros (m & ? & ?); exists m; tauto.
  - rewrite !nil_iff_no_elem. split; intros E x Hx; apply (E x), Hv, Hx.
Qed.

(** ** The waterfall of [process_exception] *)

Section WaterfallSteps.
Context {F : Type} `{Arith F}.
Variable rt : Runtime.
Import ValidationProcessor PyStr.

(** The KB numbers step 2 tries, in order: those of the exception, then the
    one found in [patch_id]. *)
Definition kb_candidates (exc : Exception_) : list string :=
  kb_numbers exc
  ++ (if is_empty (patch_id exc) then []
      else match Re.search Re.kb_pattern (patch_id exc) with
           | Some m => [upper m]
           | None => []
           end).

Lemma first_approved_find (self : t F) (kbs : list string) :
  fst (first_approved self kbs) = List.find (Db.is_kb_approved (db self)) kbs.
Proof.
  induction kbs as [|kb kbs IH]; cbn; [done|].
  destruct (Db.is_kb_approved (db self) kb); [done|].
  destruct (first_approved self kbs); cbn in *. done.
Qed.

Lemma first_approved_split (self : t F) (pre post : list string) (kb : string) :
  (forall x, x ∈ pre -> Db.is_kb_approved (db self) x = false) ->
  Db.is_kb_approved (db self) kb = true ->
  first_approved self (pre ++ kb :: post)
  = (Some kb, map IsKbApproved (pre ++ [kb])).
Proof.
  intros Hpre Hkb. induction pre as [|x pre IH]; cbn.
  - by rewrite Hkb.
  - rewrite (Hpre x) by (by left).
    rewrite IH by (intros y Hy; apply Hpre; by right). done.
Qed.

Lemma first_approved_none (self : t F) (kbs : list string) :
  (forall x, x ∈ kbs -> Db.is_kb_approved (db self) x = false) ->
  first_approved self kbs = (None, map IsKbApproved kbs).
Proof.
  intros Hk. induction kbs as [|x kbs IH]; cbn; [done|].
  rewrite (Hk x) by (by left).
  rewrite IH by (intros y Hy; apply Hk; by right). done.
Qed.

Lemma first_approved_app (self : t F) (l l' : list string) :
  fst (first_approved self (l ++ l'))
  = match fst (first_approved self l) with
    | Some kb => Some kb
    | None => fst (first_approved self l')
    end.
Proof.
  rewrite !first_approved_find. induction l as [|x l IH]; cbn; [done|].
  destruct (Db.is_kb_approved (db self) x); [done | apply IH].
Qed.

Lemma first_approved_found (self : t F) (kbs : list string) (kb : string) :
  fst (first_approved self kbs) = Some kb ->
  kb ∈ kbs /\ Db.is_kb_approved (db self) kb = true.
Proof.
  rewrite first_approved_find. intros [Hin ?]%find_some.
  by rewrite list_elem_of_In.
Qed.

(** What a direct lookup that answers [Some] has seen. *)
Lemma direct_lookup_evidence (self : t F) (chgs : list string)
    (d : DirectLookup F) :
  _correlate_with_direct_lookup self chgs = Some d ->
  direct_is_validated d = true
  /\ chgs <> []
  /\ exists connector changes c,
       snow self = Some connector
       /\ connector chgs = Db.Returned changes
       /\ c ∈ changes
       /\ Snow.approval_status c = "approved"%string
       /\ contains "closed" (lower (Snow.state c)) = true.
Proof.
  unfold _correlate_with_direct_lookup.
  destruct (snow self) as [connector|]; [|discriminate].
  destruct chgs as [|chg chgs]; [discriminate|].
  destruct (connector (chg :: chgs)) as [changes|] eqn:Ec; [|discriminate].
  destruct (List.filter _ changes) as [|c approved] eqn:Ef; [discriminate|].
  intros [= <-]. split; [done|]. split; [done|].
  exists connector, changes, c. split; [done|]. split; [done|].
  assert (Hc : c ∈ List.filter
            (fun c => String.eqb (Snow.approval_status c) "approved"
                      && contains "closed" (lower (Snow.state c))) changes)
    by (rewrite Ef; by left).
  apply elem_of_List_filter in Hc as [Hin [E1 E2]%andb_true_iff].
  by apply String.eqb_eq in E1.
Qed.

(** [process_exception], step by step. *)
Lemma process_exception_steps (self : t F) (exc : Exception_) :
  let chg_numbers := _extract_chg_numbers rt (comment exc) in
  let notes1 :=
    match chg_numbers with
    | [] => []
    | _ => [String.append "CHG numbers found: " (repr_list chg_numbers)]
    end in
  let calls1 :=
    match chg_numbers, snow self with
    | _ :: _, Some _ => [LookupMultipleChg chg_numbers]
    | _, _ => []
    end in
  let result notes method validated conf tickets :=
    {| result_exception_type := exception_type exc;
       result_detected_at := detected_at exc;
       result_asset_group := asset_group exc;
       correlation_method := method;
       is_validated := validated;
       confidence := conf;
       matched_tickets := tickets;
       notes := notes |} in
  process_exception rt self exc
  = match _correlate_with_direct_lookup self chg_numbers with
    | Some _ =>
        (result (notes1 ++ ["Auto-validated via direct CHG lookup"%string])
           (Some "direct_chg_lookup"%string) true (of_Z 1) chg_numbers,
         calls1)
    | None =>
        let step2 :=
          if String.eqb (exception_type exc) "patches_installed"
          then first_approved self (kb_candidates exc)
          else (None, []) in
        match fst step2 with
        | Some kb =>
            (result
               (notes1 ++ [String.append "Auto-validated: "
                             (String.append kb " in WSUS approved list")])
               (Some "wsus_approved"%string) true (of_Z 1) [kb],
             calls1 ++ snd step2)
        | None =>
            (result
               (notes1 ++ ["No matching change ticket found - manual review required"%string])
               (Some "none"%string) false (of_Z 0) [],
             calls1 ++ snd step2)
        end
    end.
Proof.
  unfold process_exception, kb_candidates. cbv zeta.
  set (chgs := _extract_chg_numbers rt (comment exc)). clearbody chgs.
  destruct (_correlate_with_direct_lookup self chgs) as [d|] eqn:Ed.
  - destruct (direct_lookup_evidence _ _ _ Ed) as (Hv & Hne & connector & _ & _ & Hs & _).
    rewrite Hs. destruct chgs as [|chg chgs]; [done|]. rewrite Hv. reflexivity.
  - destruct chgs as [|chg chgs], (snow self) as [connector|];
      (destruct (String.eqb (exception_type exc) "patches_installed");
       [destruct (first_approved self _) as [[kb|] calls2]|]; reflexivity).
Qed.

End WaterfallSteps.

(** X3.  A result that [process_exception] marks as validated has
    confidence 1.0 and names what validated it: either the direct lookup
    saw, for the extracted CHG numbers, a change that is approved and whose
    state contains "closed", and the matched tickets are those numbers; or
    the exception is of type [patches_installed] and the one matched ticket
    is a KB number of the exception (or of its [patch_id]) that is in the
    approved list. *)
Theorem validated_result_has_evidence (F : Type) (A : Arith F) (rt : Runtime)
    (self : ValidationProcessor.t F) (exc : ValidationProcessor.Exception_) :
  let r := fst (ValidationProcessor.process_exception rt self exc) in
  let chg_numbers :=
    ValidationProcessor._extract_chg_numbers rt (ValidationProcessor.comment exc) in
  ValidationProcessor.is_validated r = true ->
  ValidationProcessor.confidence r = of_Z 1
  /\ ((ValidationProcessor.correlation_method r = Some "direct_chg_lookup"%string
       /\ ValidationProcessor.matched_tickets r = chg_numbers
       /\ chg_numbers <> []
       /\ exists connector changes c,
            ValidationProcessor.snow self = Some connector
            /\ connector chg_numbers = Db.Returned changes
            /\ c ∈ changes
            /\ Snow.approval_status c = "approved"%string
            /\ PyStr.contains "closed" (PyStr.lower (Snow.state c)) = true)
      \/ (ValidationProcessor.correlation_method r = Some "wsus_approved"%string
          /\ ValidationProcessor.exception_type exc = "patches_installed"%string
          /\ exists kb,
               ValidationProcessor.matched_tickets r = [kb]
               /\ kb ∈ kb_candidates exc
               /\ Db.is_kb_approved (ValidationProcessor.db self) kb = true)).
Proof.
  cbv zeta. rewrite process_exception_steps. cbv zeta.
  destruct (ValidationProcessor._correlate_with_direct_lookup self _) as [d|] eqn:Ed.
  - cbn [fst]. intros _. split; [reflexivity|]. left.
    destruct (direct_lookup_evidence _ _ _ Ed) as (_ & Hne & Hex). done.
  - destruct (String.eqb_spec (ValidationProcessor.exception_type exc)
                "patches_installed") as [Et|Et].
    + destruct (fst (ValidationProcessor.first_approved self (kb_candidates exc)))
        as [kb|] eqn:Ef; cbn [fst]; [|discriminate].
      intros _. split; [reflexivity|]. right.
      apply first_approved_found in Ef as [? ?].
      split; [reflexivity|]. split; [done|]. by exists kb.
    + cbn [fst]. discriminate.
Qed.

Lemma validated_result_has_evidence_witness :
  let r := fst (ValidationProcessor.process_exception (F:=float) Scenario.runtime
                  {| ValidationProcessor.db := ScenarioPatch.store;
                     ValidationProcessor.snow := Some ScenarioPatch.approving |}
                  ScenarioPatch.exc) in
  ValidationProcessor.is_validated r = true
  /\ ValidationProcessor.confidence r = of_Z 1.
Proof.
  split; [reflexivity|].
  refine (proj1 (validated_result_has_evidence float binary64 Scenario.runtime
                   _ ScenarioPatch.exc _)).
  reflexivity.
Defined.

(** X4.  A direct lookup that raises, or that finds no ticket, is not an
    error of [process_exception]: the result is the one a processor without
    connector gives. *)
Theorem lookup_failure_is_swallowed (F : Type) (A : Arith F) (rt : Runtime)
    (db : Db.t F) (connector : Snow.Connector)
    (exc : ValidationProcessor.Exception_) :
  let chg_numbers :=
    ValidationProcessor._extract_chg_numbers rt (ValidationProcessor.comment exc) in
  connector chg_numbers = Db.Raised \/ connector chg_numbers = Db.Returned [] ->
  fst (ValidationProcessor.process_exception rt
         {| ValidationProcessor.db := db;
            ValidationProcessor.snow := Some connector |} exc)
  = fst (ValidationProcessor.process_exception rt
           {| ValidationProcessor.db := db;
              ValidationProcessor.snow := None |} exc).
Proof.
  cbv zeta. intros Hc. rewrite !process_exception_steps. cbv zeta.
  set (chgs := ValidationProcessor._extract_chg_numbers rt _) in *. clearbody chgs.
  assert (E1 : ValidationProcessor._correlate_with_direct_lookup
                 {| ValidationProcessor.db := db;
                    ValidationProcessor.snow := Some connector |} chgs = None).
  { unfold ValidationProcessor._correlate_with_direct_lookup.
    cbn [ValidationProcessor.snow]. destruct chgs; [done|].
    destruct Hc as [-> | ->]; reflexivity. }
  assert (E2 : ValidationProcessor._correlate_with_direct_lookup
                 {| ValidationProcessor.db := db;
                    ValidationProcessor.snow := None |} chgs = None) by done.
  rewrite E1, E2.
  destruct (String.eqb _ _); [|reflexivity].
  rewrite (first_approved_store
             {| ValidationProcessor.db := db; ValidationProcessor.snow := None |}
             {| ValidationProcessor.db := db;
                ValidationProcessor.snow := Some connector |}) by done.
  destruct (fst (ValidationProcessor.first_approved _ (kb_candidates exc)));
    reflexivity.
Qed.

Lemma lookup_failure_is_swallowed_witness :
  let r := fst (ValidationProcessor.process_exception (F:=float) Scenario.runtime
                  {| ValidationProcessor.db := ScenarioPatch.store;
                     ValidationProcessor.snow := Some ScenarioPatch.failing |}
                  ScenarioPatch.exc) in
  r = fst (ValidationProcessor.process_exception Scenario.runtime
             {| ValidationProcessor.db := ScenarioPatch.store;
                ValidationProcessor.snow := None |}
             ScenarioPatch.exc)
  /\ ValidationProcessor.correlation_method r = Some "wsus_approved"%string.
Proof.
  split; [|reflexivity].
  apply (lookup_failure_is_swallowed float binary64 Scenario.runtime
           ScenarioPatch.store ScenarioPatch.failing ScenarioPatch.exc).
  left. reflexivity.
Defined.

(** X5.  When the direct lookup does not validate an exception of type
    [patches_installed], the KB numbers are tried in order (those of the
    exception, then the one of [patch_id]) and the first approved one is the
    matched ticket; no number after it is looked up. *)
Theorem wsus_step_first_approved (F : Type) (A : Arith F) (rt : Runtime)
    (self : ValidationProcessor.t F) (exc : ValidationProcessor.Exception_)
    (pre post : list string) (kb : string) :
  let chg_numbers :=
    ValidationProcessor._extract_chg_numbers rt (ValidationProcessor.comment exc) in
  ValidationProcessor._correlate_with_direct_lookup self chg_numbers = None ->
  ValidationProcessor.exception_type exc = "patches_installed"%string ->
  kb_candidates exc = pre ++ kb :: post ->
  (forall x, x ∈ pre -> Db.is_kb_approved (ValidationProcessor.db self) x = false) ->
  Db.is_kb_approved (ValidationProcessor.db self) kb = true ->
  let r := fst (ValidationProcessor.process_exception rt self exc) in
  ValidationProcessor.is_validated r = true
  /\ ValidationProcessor.confidence r = of_Z 1
  /\ ValidationProcessor.correlation_method r = Some "wsus_approved"%string
  /\ ValidationProcessor.matched_tickets r = [kb]
  /\ snd (ValidationProcessor.process_exception rt self exc)
     = match chg_numbers, ValidationProcessor.snow self with
       | _ :: _, Some _ => [ValidationProcessor.LookupMultipleChg chg_numbers]
       | _, _ => []
       end ++ map ValidationProcessor.IsKbApproved (pre ++ [kb]).
Proof.
  cbv zeta. intros Hd Et Hk Hpre Hkb.
  rewrite process_exception_steps. cbv zeta.
  rewrite Hd, Et, String.eqb_refl, Hk, (first_approved_split _ _ _ _ Hpre Hkb).
  cbn [fst snd]. done.
Qed.

Lemma wsus_step_first_approved_witness :
  let self : ValidationProcessor.t float :=
    {| ValidationProcessor.db := ScenarioPatch.store;
       ValidationProcessor.snow := Some ScenarioPatch.failing |} in
  let r := fst (ValidationProcessor.process_exception Scenario.runtime self
                  ScenarioPatch.exc) in
  ValidationProcessor.is_validated r = true
  /\ ValidationProcessor.confidence r = of_Z 1
  /\ ValidationProcessor.correlation_method r = Some "wsus_approved"%string
  /\ ValidationProcessor.matched_tickets r = ["KB5062070"%string]
  /\ snd (ValidationProcessor.process_exception Scenario.runtime self
            ScenarioPatch.exc)
     = [ValidationProcessor.LookupMultipleChg ["CHG0000338290"%string];
        ValidationProcessor.IsKbApproved "KB5062070"].
Proof.
  refine (wsus_step_first_approved float binary64 Scenario.runtime
            {| ValidationProcessor.db := ScenarioPatch.store;
               ValidationProcessor.snow := Some ScenarioPatch.failing |}
            ScenarioPatch.exc [] ["KB5062070"%string] "KB5062070" _ _ _ _ _).
  - reflexivity.
  - reflexivity.
  - reflexivity.
  - by intros x ?%elem_of_nil.
  - reflexivity.
Defined.

(** X6.  [process_exception] appends to the list of KB numbers the exception
    holds, and is not disturbed by it: processing the dictionary it has
    already processed gives the same result.  The other entries of the
    dictionary are as they were, and the list has only grown. *)
Theorem reprocessing_gives_same_result (F : Type) (A : Arith F) (rt : Runtime)
    (self : ValidationProcessor.t F) (exc : ValidationProcessor.Exception_) :
  let exc' := Batch.exception_after rt self exc in
  fst (ValidationProcessor.process_exception rt self exc')
  = fst (ValidationProcessor.process_exception rt self exc)
  /\ ValidationProcessor.exception_type exc' = ValidationProcessor.exception_type exc
  /\ ValidationProcessor.detected_at exc' = ValidationProcessor.detected_at exc
  /\ ValidationProcessor.asset_group exc' = ValidationProcessor.asset_group exc
  /\ ValidationProcessor.comment exc' = ValidationProcessor.comment exc
  /\ ValidationProcessor.patch_id exc' = ValidationProcessor.patch_id exc
  /\ ValidationProcessor.kb_numbers exc `prefix_of` ValidationProcessor.kb_numbers exc'.
Proof.
  cbv zeta. unfold Batch.exception_after.
  set (chgs := ValidationProcessor._extract_chg_numbers rt _).
  assert (Ec : match chgs, ValidationProcessor.snow self with
               | _ :: _, Some _ =>
                   ValidationProcessor._correlate_with_direct_lookup self chgs
               | _, _ => None
               end = ValidationProcessor._correlate_with_direct_lookup self chgs).
  { unfold ValidationProcessor._correlate_with_direct_lookup.
    destruct chgs, (ValidationProcessor.snow self); reflexivity. }
  rewrite Ec.
  destruct (ValidationProcessor._correlate_with_direct_lookup self chgs)
    as [d|] eqn:Ed.
  { destruct (direct_lookup_evidence _ _ _ Ed) as [-> _]. done. }
  destruct (String.eqb_spec (ValidationProcessor.exception_type exc)
              "patches_installed") as [Et|Et]; [|done].
  split; [|repeat (split; [reflexivity|]); by apply prefix_app_r].
  rewrite !process_exception_steps. cbv zeta.
  cbn [ValidationProcessor.comment ValidationProcessor.exception_type
       ValidationProcessor.detected_at ValidationProcessor.asset_group].
  fold chgs. rewrite Ed, Et, String.eqb_refl.
  unfold kb_candidates at 1.
  cbn [ValidationProcessor.kb_numbers ValidationProcessor.patch_id].
  fold (kb_candidates exc). rewrite first_approved_app.
  destruct (fst (ValidationProcessor.first_approved self (kb_candidates exc)))
    as [kb|] eqn:Ef; [reflexivity|].
  assert (En : fst (ValidationProcessor.first_approved self
                (if PyStr.is_empty (ValidationProcessor.patch_id exc) then []
                 else match Re.search Re.kb_pattern (ValidationProcessor.patch_id exc) with
                      | Some m => [PyStr.upper m]
                      | None => []
                      end)) = None).
  { unfold kb_candidates in Ef. rewrite first_approved_app in Ef.
    destruct (fst (ValidationProcessor.first_approved self
                     (ValidationProcessor.kb_numbers exc))); [discriminate | exact Ef]. }
  rewrite En. reflexivity.
Qed.

(** X7.  For a row of the Patches Installed tab as the parser builds it
    ([kb_numbers] are the KB numbers found in [patch_id]), the look into
    [patch_id] that [process_exception] makes adds nothing: the result is
    the one for the same row without [patch_id]. *)
Theorem patch_id_adds_nothing_to_parsed_rows (F : Type) (A : Arith F)
    (rt : Runtime) (self : ValidationProcessor.t F)
    (exc : ValidationProcessor.Exception_) :
  ValidationProcessor.kb_numbers exc
  = IdParser.kb_numbers (ValidationProcessor.patch_id exc) ->
  fst (ValidationProcessor.process_exception rt self exc)
  = fst (ValidationProcessor.process_exception rt self
           {| ValidationProcessor.exception_type := ValidationProcessor.exception_type exc;
              ValidationProcessor.detected_at := ValidationProcessor.detected_at exc;
              ValidationProcessor.asset_group := ValidationProcessor.asset_group exc;
              ValidationProcessor.comment := ValidationProcessor.comment exc;
              ValidationProcessor.kb_numbers := ValidationProcessor.kb_numbers exc;
              ValidationProcessor.patch_id := "" |}).
Proof.
  intros Hk. rewrite !process_exception_steps. cbv zeta.
  cbn [ValidationProcessor.comment ValidationProcessor.exception_type
       ValidationProcessor.detected_at ValidationProcessor.asset_group].
  destruct (ValidationProcessor._correlate_with_direct_lookup self _); [reflexivity|].
  destruct (String.eqb _ _); [|reflexivity].
  unfold kb_candidates.
  cbn [ValidationProcessor.kb_numbers ValidationProcessor.patch_id PyStr.is_empty].
  rewrite app_nil_r, first_approved_app.
  destruct (fst (ValidationProcessor.first_approved self
                   (ValidationProcessor.kb_numbers exc))) as [kb|] eqn:Ef;
    [reflexivity|].
  assert (En : fst (ValidationProcessor.first_approved self
                (if PyStr.is_empty (ValidationProcessor.patch_id exc) then []
                 else match Re.search Re.kb_pattern (ValidationProcessor.patch_id exc) with
                      | Some m => [PyStr.upper m]
                      | None => []
                      end)) = None).
  { destruct (PyStr.is_empty _); [reflexivity|].
    unfold Re.search.
    destruct (Re.findall Re.kb_pattern (ValidationProcessor.patch_id exc))
      as [|m ms] eqn:Em; [reflexivity|]. cbn [head].
    rewrite Hk in Ef. unfold IdParser.kb_numbers in Ef. rewrite Em in Ef.
    cbn in Ef |- *.
    destruct (Db.is_kb_approved (ValidationProcessor.db self) (PyStr.upper m));
      [discriminate | reflexivity]. }
  rewrite En. reflexivity.
Qed.

Lemma patch_id_adds_nothing_to_parsed_rows_witness :
  let self : ValidationProcessor.t float :=
    {| ValidationProcessor.db := ScenarioPatch.store;
       ValidationProcessor.snow := None |} in
  ValidationProcessor.kb_numbers ScenarioPatch.exc
  = IdParser.kb_numbers (ValidationProcessor.patch_id ScenarioPatch.exc)
  /\ fst (ValidationProcessor.process_exception Scenario.runtime self ScenarioPatch.exc)
     = fst (ValidationProcessor.process_exception Scenario.runtime self
              {| ValidationProcessor.exception_type := "patches_installed";
                 ValidationProcessor.detected_at := PyDatetime (30 * Scenario.hour);
                 ValidationProcessor.asset_group := "All_Windows, Domain Controllers";
                 ValidationProcessor.comment :=
                   "Activity from DSCADA Monthly Patching: CHG0000338290";
                 ValidationProcessor.kb_numbers := ["KB5062070"%string];
                 ValidationProcessor.patch_id := "" |}).
Proof.
  split; [reflexivity|].
  exact (patch_id_adds_nothing_to_parsed_rows float binary64 Scenario.runtime
           {| ValidationProcessor.db := ScenarioPatch.store;
              ValidationProcessor.snow := None |}
           ScenarioPatch.exc eq_refl).
Defined.

(** ** [process_batch] *)

Section BatchCounts.
Context {F : Type} `{Arith F}.
Variable rt : Runtime.
Variable self : ValidationProcessor.t F.
Import ValidationProcessor Batch.

(** Whether [process_exception] validates an exception. *)
Definition validates (exc : Exception_) : bool :=
  is_validated (fst (process_exception rt self exc)).

Definition has_type (ty : string) (exc : Exception_) : bool :=
  String.eqb (exception_type exc) ty.

(** What [by_type] holds for a type after a list of exceptions. *)
Definition type_count (ty : string) (exceptions : list Exception_)
    : option TypeCount :=
  match List.filter (has_type ty) exceptions with
  | [] => None
  | of_type =>
      Some {| validated := length (List.filter validates of_type);
              pending := length (List.filter (fun exc => negb (validates exc)) of_type) |}
  end.

Lemma filter_snoc {A} (p : A -> bool) (l : list A) (x : A) :
  List.filter p (l ++ [x]) = List.filter p l ++ (if p x then [x] else []).
Proof. by rewrite List.filter_app. Qed.

Lemma type_count_snoc_other (ty : string) (l : list Exception_) (exc : Exception_) :
  exception_type exc <> ty -> type_count ty (l ++ [exc]) = type_count ty l.
Proof.
  intros Hne. unfold type_count. rewrite filter_snoc. unfold has_type at 2.
  destruct (String.eqb_spec (exception_type exc) ty); [done|]. by rewrite app_nil_r.
Qed.

Lemma type_count_snoc_same (l : list Exception_) (exc : Exception_) :
  type_count (exception_type exc) (l ++ [exc])
  = let entry := default {| validated := 0; pending := 0 |}
                   (type_count (exception_type exc) l) in
    Some (if validates exc
          then {| validated := S (validated entry); pending := pending entry |}
          else {| validated := validated entry; pending := S (pending entry) |}).
Proof.
  unfold type_count. rewrite filter_snoc. unfold has_type at 2.
  rewrite String.eqb_refl.
  set (of_type := List.filter (has_type (exception_type exc)) l).
  set (g := fun l' : list Exception_ =>
              {| validated := length (List.filter validates l');
                 pending := length (List.filter (fun exc => negb (validates exc)) l') |}).
  assert (E1 : match of_type ++ [exc] with
               | [] => None
               | x :: r => Some (g (x :: r))
               end = Some (g (of_type ++ [exc]))) by (by destruct of_type).
  assert (E2 : default {| validated := 0; pending := 0 |}
                 (match of_type with [] => None | x :: r => Some (g (x :: r)) end)
               = g of_type) by (by destruct of_type).
  subst g. cbv beta in E1, E2. cbv zeta. rewrite E1, E2. clear E1 E2.
  rewrite !filter_snoc, !length_app. cbn [validated pending].
  destruct (validates exc); cbn [negb length]; f_equal; f_equal; lia.
Qed.

(** The state of the loop after the exceptions [done_] of a batch of [n]. *)
Definition batch_state (n : nat) (done_ : list Exception_) (s : Summary F) : Prop :=
  total s = n
  /\ results s = map (fun exc => fst (process_exception rt self exc)) done_
  /\ auto_validated s = length (List.filter validates done_)
  /\ pending_review s = length (List.filter (fun exc => negb (validates exc)) done_)
  /\ forall ty, by_type s !! ty = type_count ty done_.

Lemma batch_step_state (n : nat) (done_ : list Exception_) (s : Summary F)
    (exc : Exception_) :
  batch_state n done_ s -> batch_state n (done_ ++ [exc]) (batch_step rt self s exc).
Proof.
  intros (Ht & Hr & Ha & Hp & Hb). unfold batch_state, batch_step.
  cbn [total results auto_validated pending_review by_type].
  fold (validates exc).
  split; [done|]. split; [by rewrite Hr, map_app|].
  rewrite !filter_snoc, !length_app, Ha, Hp.
  split; [destruct (validates exc); cbn; lia|].
  split; [destruct (validates exc); cbn; lia|].
  intros ty.
  set (by_type1 := if bool_decide (exception_type exc ∈ dom (by_type s)) then _ else _).
  assert (H1 : by_type1 !! exception_type exc
               = Some (default {| validated := 0; pending := 0 |}
                         (type_count (exception_type exc) done_))).
  { subst by_type1. destruct (bool_decide _) eqn:E.
    - apply bool_decide_eq_true, elem_of_dom in E as [entry E].
      rewrite E. rewrite Hb in E. by rewrite E.
    - apply bool_decide_eq_false, not_elem_of_dom in E.
      rewrite lookup_insert_eq. rewrite Hb in E. by rewrite E. }
  assert (H2 : forall ty', ty' <> exception_type exc ->
               by_type1 !! ty' = type_count ty' done_).
  { intros ty' Hne. subst by_type1. destruct (bool_decide _); [apply Hb|].
    rewrite lookup_insert_ne by done. apply Hb. }
  destruct (decide (ty = exception_type exc)) as [->|Hne].
  - rewrite lookup_alter_eq, H1, type_count_snoc_same. cbn. by destruct (validates exc).
  - rewrite lookup_alter_ne by done. rewrite H2 by done.
    by rewrite type_count_snoc_other.
Qed.

Lemma fold_batch_state (n : nat) (todo done_ : list Exception_) (s : Summary F) :
  batch_state n done_ s ->
  batch_state n (done_ ++ todo) (fold_left (batch_step rt self) todo s).
Proof.
  revert done_ s. induction todo as [|exc todo IH]; intros done_ s Hs; cbn.
  - by rewrite app_nil_r.
  - replace (done_ ++ exc :: todo) with ((done_ ++ [exc]) ++ todo)
      by (by rewrite <- app_assoc).
    by apply IH, batch_step_state.
Qed.

Lemma process_batch_state (exceptions : list Exception_) :
  batch_state (length exceptions) exceptions (process_batch rt self exceptions).
Proof.
  unfold process_batch. apply (fold_batch_state _ exceptions []).
  unfold batch_state. cbn [total results auto_validated pending_review by_type].
  repeat (split; [reflexivity|]). intros ty. apply lookup_empty.
Qed.

Lemma filter_partition_length {A} (p : A -> bool) (l : list A) :
  (length (List.filter p l) + length (List.filter (fun x => negb (p x)) l)
   = length l)%nat.
Proof.
  induction l as [|x l IH]; cbn; [done|]. destruct (p x); cbn; lia.
Qed.

End BatchCounts.

(** X8.  The summary of [process_batch] counts every exception once: the
    results are those of [process_exception], in the order of the batch;
    [auto_validated] is the number of validated results, [pending_review]
    the number of the others, and together they are [total], the length of
    the batch. *)
Theorem process_batch_counts (F : Type) (A : Arith F) (rt : Runtime)
    (self : ValidationProcessor.t F)
    (exceptions : list ValidationProcessor.Exception_) :
  let s := Batch.process_batch rt self exceptions in
  Batch.total s = length exceptions
  /\ Batch.results s
     = map (fun exc => fst (ValidationProcessor.process_exception rt self exc))
           exceptions
  /\ Batch.auto_validated s
     = length (List.filter ValidationProcessor.is_validated (Batch.results s))
  /\ Batch.pending_review s
     = length (List.filter (fun r => negb (ValidationProcessor.is_validated r))
                           (Batch.results s))
  /\ (Batch.auto_validated s + Batch.pending_review s = Batch.total s)%nat.
Proof.
  cbv zeta. destruct (process_batch_state rt self exceptions)
    as (Ht & Hr & Ha & Hp & _).
  split; [done|]. split; [done|].
  assert (Hf : forall (p : ValidationProcessor.Result F -> bool) l,
             List.filter p (map (fun exc =>
               fst (ValidationProcessor.process_exception rt self exc)) l)
             = map (fun exc => fst (ValidationProcessor.process_exception rt self exc))
                   (List.filter (fun exc =>
                      p (fst (ValidationProcessor.process_exception rt self exc))) l)).
  { intros p l. induction l as [|x l IH]; cbn; [done|].
    destruct (p _); cbn; by rewrite IH. }
  rewrite Hr, !Hf, !length_map, Ha, Hp, Ht.
  split; [done|]. split; [done|].
  apply (filter_partition_length (validates rt self)).
Qed.

(** X9.  [by_type] of the summary splits the same counts by exception type:
    a type has an entry exactly when the batch holds an exception of that
    type, and the entry counts the validated and the other exceptions of
    that type, so its two numbers add up to the number of exceptions of the
    type. *)
Theorem process_batch_by_type (F : Type) (A : Arith F) (rt : Runtime)
    (self : ValidationProcessor.t F)
    (exceptions : list ValidationProcessor.Exception_) (ty : string) :
  let s := Batch.process_batch rt self exceptions in
  let of_type := List.filter (has_type ty) exceptions in
  (Batch.by_type s !! ty = None <-> of_type = [])
  /\ (forall entry, Batch.by_type s !! ty = Some entry ->
        Batch.validated entry = length (List.filter (validates rt self) of_type)
        /\ Batch.pending entry
           = length (List.filter (fun exc => negb (validates rt self exc)) of_type)
        /\ (Batch.validated entry + Batch.pending entry = length of_type)%nat).
Proof.
  cbv zeta. destruct (process_batch_state rt self exceptions)
    as (_ & _ & _ & _ & Hb).
  rewrite Hb. unfold type_count.
  destruct (List.filter (has_type ty) exceptions) as [|x of_type] eqn:E.
  - split; [done|]. discriminate.
  - split; [split; discriminate|].
    intros entry [= <-]. cbn [Batch.validated Batch.pending].
    split; [done|]. split; [done|].
    exact (filter_partition_length (validates rt self) (x :: of_type)).
Qed.

(** ** KB numbers: the approved list and the KB factor *)

Section KbNumbers.
Import PyStr.

(** Six or seven digits. *)
Definition is_kb_digits (s : string) : bool :=
  all_chars is_digit s
  && ((String.length s =? 6)%nat || (String.length s =? 7)%nat).

Lemma digits_6_7_take (s : string) (n : nat) :
  Re.digits_6_7 s = Some n -> is_kb_digits (take n s) = true.
Proof.
  unfold Re.digits_6_7, Re.digits_at, is_kb_digits.
  destruct ((String.length (take 7 s) =? 7)%nat && _) eqn:E7.
  - intros [= <-]. apply andb_true_iff in E7 as [->%Nat.eqb_eq ->]. done.
  - destruct ((String.length (take 6 s) =? 6)%nat && _) eqn:E6; [|discriminate].
    intros [= <-]. apply andb_true_iff in E6 as [->%Nat.eqb_eq ->]. done.
Qed.

Lemma kb_group_pattern_digits (s g : string) (len : nat) :
  Re.kb_group_pattern s = Some (len, g) -> is_kb_digits g = true.
Proof.
  unfold Re.kb_group_pattern.
  destruct (Re.starts_with_nocase "KB" s); [|discriminate].
  destruct (drop 2 s) as [|c rest]; [discriminate|].
  destruct (Re.is_sep c).
  - destruct (Re.digits_6_7 rest) as [n|] eqn:E; [|discriminate].
    intros [= <- <-]. by apply digits_6_7_take.
  - destruct (Re.digits_6_7 (String c rest)) as [n|] eqn:E; [|discriminate].
    intros [= <- <-]. by apply digits_6_7_take.
Qed.

Lemma findall_kb_digits (text g : string) :
  g ∈ Re.findall Re.kb_group_pattern text -> is_kb_digits g = true.
Proof.
  intros (s & len & Hs)%findall_from_match. by eapply kb_group_pattern_digits.
Qed.

Lemma digit_not_sep (c : ascii) : is_digit c = true -> Re.is_sep c = false.
Proof. destruct c as [[] [] [] [] [] [] [] []]; first [reflexivity | discriminate]. Qed.

(** [re.sub(r'^KB[- ]?', '', 'KB' + digits)] gives the digits back. *)
Lemma strip_kb_prefix_digits (g : string) :
  is_kb_digits g = true -> Re.strip_kb_prefix (String.append "KB" g) = g.
Proof.
  unfold is_kb_digits. intros [Hd Hl]%andb_true_iff.
  destruct g as [|c g]; [discriminate|].
  cbn [all_chars] in Hd. apply andb_true_iff in Hd as [Hc _].
  clear Hl. revert Hc.
  destruct c as [[] [] [] [] [] [] [] []]; first [reflexivity | discriminate].
Qed.

Lemma findall_nil {R} (m : string -> option (nat * R)) : Re.findall m "" = [].
Proof. reflexivity. Qed.

Lemma nonempty_true (s : gset string) (x : string) :
  x ∈ s -> CorrelationEngine.nonempty s = true.
Proof.
  intros Hx. unfold CorrelationEngine.nonempty.
  apply negb_true_iff, Nat.eqb_neq. intros E%size_empty_iff.
  rewrite E in Hx. by apply elem_of_empty in Hx.
Qed.

Lemma nonempty_false (s : gset string) :
  (forall x, x ∉ s) -> CorrelationEngine.nonempty s = false.
Proof.
  intros Hs. unfold CorrelationEngine.nonempty.
  apply negb_false_iff, Nat.eqb_eq, size_empty_iff. intros x.
  split; [intros ?; by destruct (Hs x) | by intros ?%elem_of_empty].
Qed.

(** The KB numbers of a change whose [kb_articles] came from
    [_extract_kb_articles], as [_kb_match] reads them. *)
Lemma change_kbs_of_extracted (text : string) (x : string) :
  x ∈ (list_to_set
         (map Re.strip_kb_prefix
            (elements (list_to_set (ServiceNow._extract_kb_articles text)
                         : gset string))) : gset string)
  <-> x ∈ Re.findall Re.kb_group_pattern text.
Proof.
  rewrite elem_of_list_to_set, list_elem_of_fmap.
  setoid_rewrite elem_of_elements. setoid_rewrite elem_of_list_to_set.
  unfold ServiceNow._extract_kb_articles.
  destruct text as [|c text]; cbn [is_empty].
  { rewrite findall_nil. split; [by intros (y & _ & ?%elem_of_nil)|].
    by intros ?%elem_of_nil. }
  setoid_rewrite list_elem_of_fmap. split.
  - intros (y & -> & g & -> & Hg).
    by rewrite strip_kb_prefix_digits by (by eapply findall_kb_digits).
  - intros Hx. exists (String.append "KB" x). split; [|by exists x].
    by rewrite strip_kb_prefix_digits by (by eapply findall_kb_digits).
Qed.

End KbNumbers.

(** X10.  When [check_wsus_approval] answers, the KB number it reports is
    [KB] followed by the six or seven digits of the first KB reference in
    the alert's detail, that number is in the approved list, and the
    correlation engine gives the same alert a KB factor of 1.0 against any
    change that lists no KB article. *)
Theorem check_wsus_approval_sound (F : Type) (A : Arith F) (db : Db.t F)
    (alert : Alert.t) (r : WSUSAutoValidator.Approval) :
  WSUSAutoValidator.check_wsus_approval db alert = Some r ->
  WSUSAutoValidator.auto_validated r = true
  /\ WSUSAutoValidator.validation_rule r = "wsus_approved_patch"%string
  /\ Db.is_kb_approved db (WSUSAutoValidator.kb_number r) = true
  /\ (exists digits,
        Re.search Re.kb_group_pattern (Alert.change_detail alert) = Some digits
        /\ is_kb_digits digits = true
        /\ WSUSAutoValidator.kb_number r = String.append "KB" digits)
  /\ CorrelationEngine._kb_match db (Alert.change_detail alert) None = of_Z 1
  /\ CorrelationEngine._kb_match db (Alert.change_detail alert) (Some []) = of_Z 1.
Proof.
  unfold WSUSAutoValidator.check_wsus_approval.
  destruct (Re.search Re.kb_group_pattern (Alert.change_detail alert))
    as [g|] eqn:Es; [|discriminate].
  destruct (Db.is_kb_approved db (String.append "KB" g)) eqn:Ea; [|discriminate].
  intros [= <-]. cbn [WSUSAutoValidator.auto_validated
    WSUSAutoValidator.validation_rule WSUSAutoValidator.kb_number].
  assert (Hg : g ∈ Re.findall Re.kb_group_pattern (Alert.change_detail alert)).
  { unfold Re.search in Es. destruct (Re.findall _ _); [discriminate|].
    injection Es as ->. by left. }
  split; [done|]. split; [done|]. split; [done|].
  split; [exists g; split; [done|]; split; [by eapply findall_kb_digits | done]|].
  assert (Hk : forall kbs, (kbs = None \/ kbs = Some []) ->
             CorrelationEngine._kb_match db (Alert.change_detail alert) kbs = of_Z 1).
  { intros kbs Hkbs. unfold CorrelationEngine._kb_match.
    destruct (Alert.change_detail alert) as [|c detail] eqn:Ed;
      [by apply elem_of_nil in Hg|].
    cbn [PyStr.is_empty]. rewrite <- Ed in *.
    rewrite (nonempty_true _ g) by (by apply elem_of_list_to_set). cbn [negb].
    assert (Hc : (match kbs with Some l => list_to_set l | None => ∅ end : gset string)
                 = ∅) by (destruct Hkbs as [-> | ->]; reflexivity).
    rewrite Hc, elements_empty. cbn [map].
    rewrite nonempty_false by (intros x; rewrite elem_of_list_to_set; apply not_elem_of_nil).
    cbn [negb].
    assert (He : existsb (fun kb => Db.is_kb_approved db (String.append "KB" kb))
                   (elements (list_to_set
                      (Re.findall Re.kb_group_pattern (Alert.change_detail alert))
                      : gset string)) = true).
    { apply existsb_exists. exists g. split; [|done].
      apply list_elem_of_In, elem_of_elements, elem_of_list_to_set, Hg. }
    by rewrite He. }
  split; apply Hk; [by left | by right].
Qed.

Lemma check_wsus_approval_sound_witness :
  let alert := {| Alert.asset_name := "QASASM1";
                  Alert.asset_name_normalized := "qasasm1";
                  Alert.change_category := "patch";
                  Alert.change_detail := "Installed kb-5062070 on host";
                  Alert.detected_at := PyNone |} in
  let r := {| WSUSAutoValidator.auto_validated := true;
              WSUSAutoValidator.validation_rule := "wsus_approved_patch";
              WSUSAutoValidator.kb_number := "KB5062070";
              WSUSAutoValidator.notes := "Patch KB5062070 is in WSUS approved list" |} in
  WSUSAutoValidator.check_wsus_approval (F:=float) ScenarioPatch.store alert = Some r
  /\ CorrelationEngine._kb_match (F:=float) ScenarioPatch.store
       (Alert.change_detail alert) None = of_Z 1.
Proof.
  intros alert r. split; [reflexivity|].
  exact (proj1 (proj2 (proj2 (proj2 (proj2
           (check_wsus_approval_sound float binary64 ScenarioPatch.store alert r
              eq_refl)))))).
Defined.

(** X11.  The KB articles that [_extract_kb_articles] takes from the text of
    a change are the ones [_kb_match] compares with: against a change that
    names a KB, the KB factor of an alert that names one is 1.0 when the
    two texts have a KB number in common, and 0.3 when they have none,
    however the references are written ([KB5062070], [kb 5062070],
    [KB-5062070]). *)
Theorem kb_match_of_extracted_articles (F : Type) (A : Arith F) (db : Db.t F)
    (detail text : string) :
  let alert_kbs := Re.findall Re.kb_group_pattern detail in
  let change_kbs := Re.findall Re.kb_group_pattern text in
  alert_kbs <> [] ->
  change_kbs <> [] ->
  CorrelationEngine._kb_match db detail (Some (ServiceNow._extract_kb_articles text))
  = if existsb (fun kb => bool_decide (kb ∈ change_kbs)) alert_kbs
    then of_Z 1 else lit 3 10.
Proof.
  cbv zeta. intros Ha Hc. unfold CorrelationEngine._kb_match.
  destruct detail as [|c detail'] eqn:Ed; [done|]. cbn [PyStr.is_empty].
  rewrite <- Ed in *. clear Ed.
  destruct (Re.findall Re.kb_group_pattern detail) as [|a alert_kbs] eqn:Ea; [done|].
  destruct (Re.findall Re.kb_group_pattern text) as [|k change_kbs] eqn:Ec; [done|].
  rewrite (nonempty_true _ a) by (apply elem_of_list_to_set; by left). cbn [negb].
  set (ck := list_to_set (map Re.strip_kb_prefix _) : gset string).
  assert (Hck : forall x, x ∈ ck <-> x ∈ k :: change_kbs).
  { intros x. subst ck. rewrite <- Ec. apply change_kbs_of_extracted. }
  rewrite (nonempty_true ck k) by (apply Hck; by left). cbn [negb].
  destruct (existsb _ (a :: alert_kbs)) eqn:Ex.
  - apply existsb_exists in Ex as (x & Hx%list_elem_of_In & Hxc%bool_decide_eq_true).
    rewrite (nonempty_true _ x); [done|].
    apply elem_of_intersection. split; [by apply elem_of_list_to_set | by apply Hck].
  - rewrite nonempty_false; [done|].
    intros x [Hx1 Hx2]%elem_of_intersection.
    apply elem_of_list_to_set in Hx1. apply Hck in Hx2.
    assert (existsb (fun kb => bool_decide (kb ∈ k :: change_kbs)) (a :: alert_kbs) = true);
      [|congruence].
    apply existsb_exists. exists x. split; [by apply list_elem_of_In|].
    by apply bool_decide_eq_true.
Qed.

Lemma kb_match_of_extracted_articles_witness :
  CorrelationEngine._kb_match (F:=float) ScenarioPatch.store
    "Installed kb-5062070 on host"
    (Some (ServiceNow._extract_kb_articles "Monthly patching: KB 5062070, KB5060999"))
  = of_Z 1.
Proof.
  refine (kb_match_of_extracted_articles float binary64 ScenarioPatch.store
            "Installed kb-5062070 on host"
            "Monthly patching: KB 5062070, KB5060999" _ _).
  - vm_compute. discriminate.
  - vm_compute. discriminate.
Defined.

(** ** What auto-validation requires *)

Section FactorValues.
Context {F : Type} `{Arith F}.
Import CorrelationEngine.



End FactorValues.

Section AutoValidation.
Variable rt : Runtime.
Import CorrelationEngine.
Local Open Scope Q_scope.






End AutoValidation.





(** ** Approval status and asset names of the ServiceNow connector *)

Section Approval.
Import PyStr.

Lemma lower_empty (s : string) : lower s = EmptyString -> s = EmptyString.
Proof. by destruct s. Qed.

Lemma map_approval_status_cases (s : string) :
  (s = EmptyString /\ ServiceNowPSEG._map_approval_status s = "unknown"%string)
  \/ (lower s = "approved"%string
      /\ ServiceNowPSEG._map_approval_status s = "approved"%string)
  \/ (lower s = "rejected"%string
      /\ ServiceNowPSEG._map_approval_status s = "rejected"%string)
  \/ (lower s = "cancelled"%string
      /\ ServiceNowPSEG._map_approval_status s = "cancelled"%string)
  \/ (s <> EmptyString
      /\ lower s <> "approved"%string
      /\ lower s <> "rejected"%string
      /\ lower s <> "cancelled"%string
      /\ ServiceNowPSEG._map_approval_status s = "pending"%string).
Proof.
  unfold ServiceNowPSEG._map_approval_status.
  destruct s as [|c s]; [by left|]. cbn [is_empty].
  assert (Hne : String c s <> EmptyString) by discriminate.
  remember (lower (String c s)) as k eqn:Hk. clear Hk.
  destruct (ServiceNowPSEG.approval_mapping !! k) as [v|] eqn:E.
  - apply elem_of_list_to_map_2 in E.
    repeat (apply elem_of_cons in E as [[= E1 E2] | E]);
      [..|by apply elem_of_nil in E]; subst v k; cbn [default].
    + right; left. done.
    + right; right; right; right. repeat (split; [done|]). done.
    + right; right; right; right. repeat (split; [done|]). done.
    + right; right; left. done.
    + right; right; right; left. done.
    + right; right; right; right. repeat (split; [done|]). done.
  - right; right; right; right. split; [done|].
    repeat (split; [intros Ek; rewrite Ek in E; vm_compute in E; discriminate|]).
    done.
Qed.

Lemma map_approval_status_approved (s : string) :
  ServiceNowPSEG._map_approval_status s = "approved"%string
  <-> lower s = "approved"%string.
Proof.
  destruct (map_approval_status_cases s)
    as [[-> E] | [[Hl E] | [[Hl E] | [[Hl E] | (Hn & Ha & Hr & Hc & E)]]]];
    rewrite E; split; try done; try discriminate.
  all: rewrite Hl; discriminate.
Qed.

End Approval.

(** X14.  [_map_approval_status] gives [approved] exactly for the values
    that read "approved" in any capitalisation; the empty value is
    [unknown], "rejected" and "cancelled" map to themselves, and every
    other value, known to the mapping or not, is [pending]. *)
Theorem map_approval_status_table (snow_approval : string) :
  let status := ServiceNowPSEG._map_approval_status snow_approval in
  (status = "approved"%string <-> PyStr.lower snow_approval = "approved"%string)
  /\ (status = "unknown"%string <-> snow_approval = EmptyString)
  /\ (status = "rejected"%string <-> PyStr.lower snow_approval = "rejected"%string)
  /\ (status = "cancelled"%string <-> PyStr.lower snow_approval = "cancelled"%string)
  /\ (status = "pending"%string
      <-> snow_approval <> EmptyString
          /\ PyStr.lower snow_approval <> "approved"%string
          /\ PyStr.lower snow_approval <> "rejected"%string
          /\ PyStr.lower snow_approval <> "cancelled"%string).
Proof.
  cbv zeta.
  destruct (map_approval_status_cases snow_approval)
    as [[-> E] | [[Hl E] | [[Hl E] | [[Hl E] | (Hn & Ha & Hr & Hc & E)]]]];
    rewrite E.
  - repeat split; try done; try discriminate. by intros [? _].
  - assert (snow_approval <> EmptyString) by (intros ->; discriminate).
    rewrite Hl. repeat split; try done; try discriminate. by intros (_ & ? & _).
  - assert (snow_approval <> EmptyString) by (intros ->; discriminate).
    rewrite Hl. repeat split; try done; try discriminate. by intros (_ & _ & ? & _).
  - assert (snow_approval <> EmptyString) by (intros ->; discriminate).
    rewrite Hl. repeat split; try done; try discriminate. by intros (_ & _ & _ & ?).
  - repeat split; try done; try discriminate.
Qed.

(** X15.  The direct lookup accepts the changes the connector hands over
    exactly when one of the ServiceNow records has an approval that reads
    "approved" (in any capitalisation) and a state that contains "closed";
    so it accepts every record that the connector's own
    [is_change_approved_and_closed] accepts. *)
Theorem direct_lookup_accepts (F : Type) (A : Arith F)
    (self : ValidationProcessor.t F) (connector : Snow.Connector)
    (chg_numbers : list string) (records : list (string * string)) :
  let normalized record := ServiceNowPSEG.normalize_change (fst record) (snd record) in
  ValidationProcessor.snow self = Some connector ->
  chg_numbers <> [] ->
  connector chg_numbers = Db.Returned (map normalized records) ->
  (ValidationProcessor._correlate_with_direct_lookup self chg_numbers <> None
   <-> exists state approval,
         (state, approval) ∈ records
         /\ PyStr.lower approval = "approved"%string
         /\ PyStr.contains "closed" (PyStr.lower state) = true)
  /\ (forall record,
        record ∈ records ->
        ServiceNowPSEG.is_change_approved_and_closed (Some (normalized record)) = true ->
        ValidationProcessor._correlate_with_direct_lookup self chg_numbers <> None).
Proof.
  cbv zeta. intros Hs Hne Hc.
  assert (Hiff : ValidationProcessor._correlate_with_direct_lookup self chg_numbers <> None
   <-> exists state approval,
         (state, approval) ∈ records
         /\ PyStr.lower approval = "approved"%string
         /\ PyStr.contains "closed" (PyStr.lower state) = true).
  { split.
    - destruct (ValidationProcessor._correlate_with_direct_lookup self chg_numbers)
        as [d|] eqn:Ed; [intros _|done].
      destruct (direct_lookup_evidence _ _ _ Ed)
        as (_ & _ & connector' & changes & c & Hs' & Hc' & Hin & Ha & Hcl).
      rewrite Hs in Hs'. injection Hs' as <-. rewrite Hc in Hc'. injection Hc' as <-.
      apply list_elem_of_fmap in Hin as ([state approval] & -> & Hin).
      exists state, approval. split; [done|].
      cbn [fst snd ServiceNowPSEG.normalize_change Snow.approval_status Snow.state] in *.
      by apply map_approval_status_approved in Ha.
    - intros (state & approval & Hin & Ha & Hcl).
      destruct (direct_lookup_validated self connector chg_numbers _ Hs Hne Hc)
        as (d & -> & _); [|done].
      exists (ServiceNowPSEG.normalize_change state approval).
      split; [apply list_elem_of_fmap; by exists (state, approval)|].
      cbn [ServiceNowPSEG.normalize_change Snow.approval_status Snow.state].
      split; [by apply map_approval_status_approved | done]. }
  split; [exact Hiff|].
  intros [state approval] Hin Hq. apply Hiff. exists state, approval.
  split; [done|].
  cbn [fst snd ServiceNowPSEG.is_change_approved_and_closed
       ServiceNowPSEG.normalize_change Snow.approval_status Snow.state] in Hq.
  apply andb_true_iff in Hq as [[Ha%String.eqb_eq Hcl]%andb_true_iff _].
  split; [by apply map_approval_status_approved | done].
Qed.

Lemma direct_lookup_accepts_witness :
  let self : ValidationProcessor.t float :=
    {| ValidationProcessor.db := ScenarioPatch.store;
       ValidationProcessor.snow :=
         Some (fun _ => Db.Returned
                 [ServiceNowPSEG.normalize_change "Closed Unsuccessful" "Approved"]) |} in
  ValidationProcessor._correlate_with_direct_lookup self ["CHG0000338290"%string]
  <> None.
Proof.
  intros self.
  apply (proj1 (direct_lookup_accepts float binary64 self
                  (fun _ => Db.Returned
                     [ServiceNowPSEG.normalize_change "Closed Unsuccessful" "Approved"])
                  ["CHG0000338290"%string] [("Closed Unsuccessful", "Approved")%string]
                  eq_refl ltac:(discriminate) eq_refl)).
  exists "Closed Unsuccessful"%string, "Approved"%string.
  split; [by apply list_elem_of_singleton|]. split; reflexivity.
Defined.

(** ** Normalized asset names *)

Section AssetNames.
Import PyStr PyText.

(** [r] is a contiguous part of [s]. *)
Definition is_infix (r s : string) : Prop :=
  exists pre post, s = String.append pre (String.append r post).

Lemma append_cons (c : ascii) (s t : string) :
  String.append (String c s) t = String c (String.append s t).
Proof. reflexivity. Qed.

Lemma append_nil_l (s : string) : String.append "" s = s.
Proof. reflexivity. Qed.

Lemma append_nil_r (s : string) : String.append s "" = s.
Proof. induction s as [|c s IH]; [done | by rewrite append_cons, IH]. Qed.

Lemma append_assoc (a b c : string) :
  String.append (String.append a b) c = String.append a (String.append b c).
Proof. induction a as [|x a IH]; [done | by rewrite !append_cons, IH]. Qed.

Lemma is_infix_refl (s : string) : is_infix s s.
Proof. exists ""%string, ""%string. rewrite append_nil_r. reflexivity. Qed.

Lemma is_infix_trans (a b c : string) : is_infix a b -> is_infix b c -> is_infix a c.
Proof.
  intros (p1 & q1 & ->) (p2 & q2 & ->).
  exists (String.append p2 p1), (String.append q1 q2).
  by rewrite !append_assoc.
Qed.

Lemma is_infix_cons (c : ascii) (r s : string) : is_infix r s -> is_infix r (String c s).
Proof. intros (p & q & ->). exists (String c p), q. by rewrite append_cons. Qed.

Lemma take_drop_append (n : nat) (s : string) :
  s = String.append (take n s) (drop n s).
Proof.
  revert s. induction n as [|n IH]; intros [|c s]; cbn [take drop]; try done.
  by rewrite append_cons, <- IH.
Qed.

Lemma take_infix (n : nat) (s : string) : is_infix (take n s) s.
Proof. exists ""%string, (drop n s). apply take_drop_append. Qed.

Lemma drop_infix (n : nat) (s : string) : is_infix (drop n s) s.
Proof.
  exists (take n s), ""%string. rewrite append_nil_r. apply take_drop_append.
Qed.

Lemma lstrip_infix (s : string) : is_infix (lstrip s) s.
Proof.
  induction s as [|c s IH]; cbn [lstrip]; [apply is_infix_refl|].
  destruct (is_space c); [by apply is_infix_cons | apply is_infix_refl].
Qed.

Lemma rstrip_infix (s : string) : is_infix (rstrip s) s.
Proof.
  assert (H : exists post, s = String.append (rstrip s) post).
  { induction s as [|c s [post IH]]; cbn [rstrip]; [by exists ""%string|].
    destruct (is_empty (rstrip s) && is_space c).
    - by exists (String c s).
    - exists post. by rewrite append_cons, <- IH. }
  destruct H as [post H]. by exists ""%string, post.
Qed.

Lemma strip_infix (s : string) : is_infix (strip s) s.
Proof.
  unfold strip. eapply is_infix_trans; [apply rstrip_infix | apply lstrip_infix].
Qed.

Lemma remove_suffix_infix (suffixes : list string) (s : string) :
  is_infix (ServiceNowPSEG.remove_suffix suffixes s) s.
Proof.
  induction suffixes as [|suffix rest IH]; cbn [ServiceNowPSEG.remove_suffix];
    [apply is_infix_refl|].
  destruct (endswith suffix s); [apply take_infix | apply IH].
Qed.

Lemma remove_prefix_infix (prefixes : list string) (s : string) :
  is_infix (ServiceNowPSEG.remove_prefix prefixes s) s.
Proof.
  induction prefixes as [|p rest IH]; cbn [ServiceNowPSEG.remove_prefix];
    [apply is_infix_refl|].
  destruct (String.prefix p s); [|apply IH].
  pose proof (drop_infix (String.length p) s) as Hd.
  destruct (drop (String.length p) s) as [|c s'] eqn:E; [exact Hd|].
  destruct (ServiceNowPSEG.is_joiner c); [|exact Hd].
  eapply is_infix_trans; [|exact Hd]. apply is_infix_cons, is_infix_refl.
Qed.

Lemma prefix_append (r post : string) : String.prefix r (String.append r post) = true.
Proof.
  induction r as [|c r IH]; [by destruct post|].
  rewrite append_cons. cbn [String.prefix].
  destruct (ascii_dec c c); [exact IH | done].
Qed.

Lemma contains_infix (r s : string) : is_infix r s -> contains r s = true.
Proof.
  intros (pre & post & ->). induction pre as [|c pre IH].
  - rewrite append_nil_l. destruct (String.append r post) eqn:E;
      cbn [contains]; rewrite <- E, prefix_append; reflexivity.
  - rewrite append_cons. cbn [contains]. rewrite IH. apply orb_true_r.
Qed.

Lemma normalize_asset_name_infix (name : string) :
  is_infix (ServiceNowPSEG._normalize_asset_name name) (lower name).
Proof.
  unfold ServiceNowPSEG._normalize_asset_name.
  destruct name as [|c name]; [apply is_infix_refl|]. cbn [is_empty].
  eapply is_infix_trans; [apply remove_prefix_infix|].
  eapply is_infix_trans; [apply remove_suffix_infix|].
  apply strip_infix.
Qed.

End AssetNames.

(** X16.  The name [_normalize_asset_name] gives is a contiguous part of the
    lower-cased name.  So the asset factor between an asset name that was
    only lower-cased (as the CSV import does for alerts) and the same name
    normalized by the connector is 1.0 or 0.9, unless nothing is left of
    the name. *)
Theorem normalized_asset_name_within_name (F : Type) (A : Arith F) (name : string) :
  let normalized := ServiceNowPSEG._normalize_asset_name name in
  PyStr.contains normalized (PyStr.lower name) = true
  /\ (normalized <> EmptyString ->
      CorrelationEngine._asset_similarity (F:=F) (PyStr.lower name) normalized
      = (if String.eqb (PyStr.lower name) normalized then of_Z 1 else lit 9 10)).
Proof.
  cbv zeta. pose proof (normalize_asset_name_infix name) as Hin.
  pose proof (contains_infix _ _ Hin) as Hc. split; [exact Hc|].
  intros Hne. unfold CorrelationEngine._asset_similarity.
  destruct (ServiceNowPSEG._normalize_asset_name name) as [|c n] eqn:En; [done|].
  destruct (PyStr.lower name) as [|c' n'] eqn:El.
  { destruct Hin as ([|? ?] & ? & ?); discriminate. }
  cbn [PyStr.is_empty orb].
  destruct (String.eqb (String c' n') (String c n)); [reflexivity|].
  by rewrite Hc, orb_true_r.
Qed.

(** ** The CSV parser and its correlator *)

(** X17.  [detect_exception_type] recognises each tab of the Bulk Exceptions
    export by the columns the parser itself lists for it ([COMMON_COLUMNS]
    and the tab's [TAB_COLUMNS]), and looks at nothing but the set of
    lower-cased headers: order, capitalisation and repetition of the headers
    do not matter. *)
Theorem detect_exception_type_of_tab :
  (forall ty,
     IdParser.detect_exception_type
       (map fst (IdParser.COMMON_COLUMNS ++ IdParser.TAB_COLUMNS ty)) = ty)
  /\ (forall headers headers',
        (forall h, h ∈ map PyStr.lower headers <-> h ∈ map PyStr.lower headers') ->
        IdParser.detect_exception_type headers
        = IdParser.detect_exception_type headers').
Proof.
  split.
  - intros []; vm_compute; reflexivity.
  - intros headers headers' Hh. unfold IdParser.detect_exception_type. cbv zeta.
    by rewrite !(bool_decide_ext _ _ (Hh _)).
Qed.

Section CsvCorrelator.
Context {F : Type} `{Arith F}.
Import PyStr ValidationProcessor.

Lemma filter_approved_closed_subset (changes : list Snow.Change) (c : Snow.Change) :
  c ∈ List.filter (fun c => String.eqb (Snow.approval_status c) "approved"
                            && contains "closed" (lower (Snow.state c))) changes ->
  c ∈ List.filter (fun c => String.eqb (Snow.approval_status c) "approved") changes.
Proof.
  rewrite !elem_of_List_filter. intros [? [? _]%andb_true_iff]. done.
Qed.

Lemma direct_lookup_changes (self : t F) (connector : Snow.Connector)
    (chgs : list string) (d : DirectLookup F) :
  snow self = Some connector ->
  _correlate_with_direct_lookup self chgs = Some d ->
  exists changes,
    chgs <> [] /\ connector chgs = Db.Returned changes
    /\ matched_changes d
       = List.filter (fun c => String.eqb (Snow.approval_status c) "approved"
                               && contains "closed" (lower (Snow.state c))) changes
    /\ matched_changes d <> [].
Proof.
  intros Hs. unfold _correlate_with_direct_lookup. rewrite Hs.
  destruct chgs as [|chg chgs]; [discriminate|].
  destruct (connector (chg :: chgs)) as [changes|]; [|discriminate].
  destruct (List.filter _ changes) as [|c approved] eqn:Ef; [discriminate|].
  intros [= <-]. exists changes. cbn [matched_changes]. by rewrite Ef.
Qed.

End CsvCorrelator.

(** X18.  [IDExceptionCorrelator.correlate_exception] asks for approval
    only: whenever the validation processor's direct lookup accepts the CHG
    numbers of an exception, [correlate_exception] validates the exception
    by [direct_chg_lookup] with confidence 1.0, and its matched changes
    include those of the processor.  Unlike the processor it does not catch
    a failing lookup: when the connector raises, so does
    [correlate_exception]. *)
Theorem correlate_exception_direct_lookup (F : Type) (A : Arith F)
    (self : ValidationProcessor.t F) (connector : Snow.Connector)
    (db : Db.t F) (exception : IDExceptionCorrelator.IDException) :
  let chg_numbers := IDExceptionCorrelator.extracted_chg_numbers exception in
  ValidationProcessor.snow self = Some connector ->
  (forall d,
     ValidationProcessor._correlate_with_direct_lookup self chg_numbers = Some d ->
     exists r,
       IDExceptionCorrelator.correlate_exception connector db exception
       = Db.Returned r
       /\ IDExceptionCorrelator.is_validated r = true
       /\ IDExceptionCorrelator.confidence r = of_Z 1
       /\ IDExceptionCorrelator.correlation_method r
          = Some "direct_chg_lookup"%string
       /\ forall c, c ∈ ValidationProcessor.matched_changes d ->
                    c ∈ IDExceptionCorrelator.matched_changes r)
  /\ (chg_numbers <> [] ->
      connector chg_numbers = Db.Raised ->
      IDExceptionCorrelator.correlate_exception connector db exception = Db.Raised
      /\ ValidationProcessor._correlate_with_direct_lookup self chg_numbers = None).
Proof.
  cbv zeta. intros Hs. split.
  - intros d Hd.
    destruct (direct_lookup_changes self connector _ d Hs Hd)
      as (changes & Hne & Hc & Hm & Hmne).
    unfold IDExceptionCorrelator.correlate_exception.
    destruct (IDExceptionCorrelator.extracted_chg_numbers exception)
      as [|chg chgs]; [done|].
    rewrite Hc.
    destruct (List.filter (fun c => String.eqb (Snow.approval_status c) "approved")
                changes) as [|c approved] eqn:Ef.
    + exfalso. destruct (ValidationProcessor.matched_changes d) as [|c' ?] eqn:Em;
        [done|].
      assert (Hin : c' ∈ List.filter
                (fun c => String.eqb (Snow.approval_status c) "approved") changes).
      { apply filter_approved_closed_subset. rewrite <- Hm. by left. }
      rewrite Ef in Hin. by apply elem_of_nil in Hin.
    + eexists. split; [reflexivity|].
      cbn [IDExceptionCorrelator.is_validated IDExceptionCorrelator.confidence
           IDExceptionCorrelator.correlation_method
           IDExceptionCorrelator.matched_changes].
      repeat (split; [reflexivity|]).
      intros c' Hc'. rewrite <- Ef. apply filter_approved_closed_subset.
      by rewrite <- Hm.
  - intros Hne Hr. unfold IDExceptionCorrelator.correlate_exception,
      ValidationProcessor._correlate_with_direct_lookup.
    rewrite Hs.
    destruct (IDExceptionCorrelator.extracted_chg_numbers exception)
      as [|chg chgs]; [done|].
    by rewrite Hr.
Qed.

Lemma correlate_exception_direct_lookup_witness :
  let exception :=
    {| IDExceptionCorrelator.exception_type := IdParser.PATCHES_INSTALLED;
       IDExceptionCorrelator.extracted_chg_numbers := ["CHG0000338290"%string];
       IDExceptionCorrelator.kb_numbers := Some ["KB5062070"%string] |} in
  (exists r,
     IDExceptionCorrelator.correlate_exception (F:=float) ScenarioPatch.approving
       ScenarioPatch.store exception = Db.Returned r
     /\ IDExceptionCorrelator.is_validated r = true)
  /\ IDExceptionCorrelator.correlate_exception (F:=float) ScenarioPatch.failing
       ScenarioPatch.store exception = Db.Raised.
Proof.
  intros exception. split.
  - destruct (proj1 (correlate_exception_direct_lookup float binary64
                {| ValidationProcessor.db := ScenarioPatch.store;
                   ValidationProcessor.snow := Some ScenarioPatch.approving |}
                ScenarioPatch.approving ScenarioPatch.store exception eq_refl)
              _ eq_refl) as (r & Hr & Hv & _).
    by exists r.
  - refine (proj1 (proj2 (correlate_exception_direct_lookup float binary64
                {| ValidationProcessor.db := ScenarioPatch.store;
                   ValidationProcessor.snow := Some ScenarioPatch.failing |}
                ScenarioPatch.failing ScenarioPatch.store exception eq_refl) _ eq_refl)).
    discriminate.
Defined.

(** ** Status and severity tables *)

(** X19.  [MantisConnector._map_status] answers [rejected] for every status
    name that is a part of the word "rejected", the missing name (the
    empty string) among them: the last test of the function is a substring
    test.  It answers [approved] exactly for "resolved", "closed" and
    "approved", in any capitalisation. *)
Theorem mantis_map_status_rejected (status_name : string) :
  (Mantis._map_status status_name = "rejected"%string
   <-> PyStr.contains (PyStr.lower status_name) "rejected" = true)
  /\ (Mantis._map_status status_name = "approved"%string
      <-> PyStr.lower status_name ∈ ["resolved"; "closed"; "approved"]%string)
  /\ Mantis._map_status "" = "rejected"%string.
Proof.
  unfold Mantis._map_status. cbv zeta.
  set (name := PyStr.lower status_name). split; [|split; [|reflexivity]].
  - destruct (bool_decide (name ∈ ["resolved"; "closed"; "approved"]%string)) eqn:E1.
    { split; [discriminate|]. apply bool_decide_eq_true in E1. intros Hc. exfalso.
      repeat (apply elem_of_cons in E1 as [E1 | E1]);
        [..|by apply elem_of_nil in E1]; rewrite E1 in Hc; vm_compute in Hc;
        discriminate. }
    destruct (bool_decide (name ∈ ["new"; "assigned"; "confirmed"]%string)) eqn:E2.
    { split; [discriminate|]. apply bool_decide_eq_true in E2. intros Hc. exfalso.
      repeat (apply elem_of_cons in E2 as [E2 | E2]);
        [..|by apply elem_of_nil in E2]; rewrite E2 in Hc; vm_compute in Hc;
        discriminate. }
    destruct (PyStr.contains name "rejected"); split; done.
  - destruct (bool_decide (name ∈ ["resolved"; "closed"; "approved"]%string)) eqn:E1.
    { apply bool_decide_eq_true in E1. done. }
    apply bool_decide_eq_false in E1.
    destruct (bool_decide _); [split; [discriminate | done]|].
    destruct (PyStr.contains _ _); split; first [discriminate | done].
Qed.


(** ** The approved list: import, store and lookup *)

Section Stripping.
Import PyStr PyText.

Lemma rstrip_idem (s : string) : rstrip (rstrip s) = rstrip s.
Proof.
  induction s as [|c s IH]; [done|]. cbn [rstrip].
  destruct (is_empty (rstrip s) && is_space c) eqn:E; [done|].
  cbn [rstrip]. by rewrite IH, E.
Qed.

Lemma upper_is_empty (s : string) : is_empty (upper s) = is_empty s.
Proof. by destruct s. Qed.

Lemma rstrip_upper (s : string) : rstrip (upper s) = upper (rstrip s).
Proof.
  induction s as [|c s IH]; [done|].
  change (upper (String c s)) with (String (upper_char c) (upper s)).
  cbn [rstrip]. rewrite IH, upper_is_empty, upper_char_space.
  by destruct (is_empty (rstrip s) && is_space c).
Qed.

Lemma lstrip_upper (s : string) : lstrip (upper s) = upper (lstrip s).
Proof.
  induction s as [|c s IH]; [done|].
  change (upper (String c s)) with (String (upper_char c) (upper s)).
  cbn [lstrip]. rewrite upper_char_space. by destruct (is_space c).
Qed.

Lemma strip_upper (s : string) : strip (upper s) = upper (strip s).
Proof. unfold strip. by rewrite lstrip_upper, rstrip_upper. Qed.

(** A string that does not start with whitespace. *)
Definition starts_clean (s : string) : bool :=
  match s with
  | EmptyString => true
  | String c _ => negb (is_space c)
  end.

Lemma lstrip_starts_clean (s : string) : starts_clean (lstrip s) = true.
Proof.
  induction s as [|c s IH]; [done|]. cbn [lstrip].
  destruct (is_space c) eqn:E; [done|]. cbn. by rewrite E.
Qed.

Lemma lstrip_clean (s : string) : starts_clean s = true -> lstrip s = s.
Proof.
  destruct s as [|c s]; [done|]. cbn. by intros ->%negb_true_iff.
Qed.

Lemma rstrip_starts_clean (s : string) :
  starts_clean s = true -> starts_clean (rstrip s) = true.
Proof.
  destruct s as [|c s]; [done|]. cbn [starts_clean rstrip].
  intros E. apply negb_true_iff in E. rewrite E, andb_false_r. cbn. by rewrite E.
Qed.

Lemma strip_idem (s : string) : strip (strip s) = strip s.
Proof.
  unfold strip.
  rewrite (lstrip_clean (rstrip (lstrip s)))
    by apply rstrip_starts_clean, lstrip_starts_clean.
  apply rstrip_idem.
Qed.

Lemma rstrip_cons_clean (c : ascii) (s : string) :
  is_space c = false -> rstrip (String c s) = String c (rstrip s).
Proof. intros E. cbn [rstrip]. by rewrite E, andb_false_r. Qed.

(** Text without whitespace is left as it is. *)
Lemma rstrip_no_space (s : string) :
  all_chars (fun c => negb (is_space c)) s = true -> rstrip s = s.
Proof.
  induction s as [|c s IH]; [done|]. cbn [all_chars].
  intros [Hc Hs]%andb_true_iff. apply negb_true_iff in Hc.
  by rewrite rstrip_cons_clean, IH.
Qed.

Lemma strip_no_space (s : string) :
  all_chars (fun c => negb (is_space c)) s = true -> strip s = s.
Proof.
  intros Hs. unfold strip. rewrite lstrip_clean; [by apply rstrip_no_space|].
  destruct s as [|c s]; [done|]. cbn in *. by apply andb_true_iff in Hs as [? _].
Qed.

Lemma digit_not_space (c : ascii) : is_digit c = true -> is_space c = false.
Proof. destruct c as [[] [] [] [] [] [] [] []]; first [reflexivity | discriminate]. Qed.

Lemma digits_no_space (s : string) :
  all_chars is_digit s = true -> all_chars (fun c => negb (is_space c)) s = true.
Proof.
  induction s as [|c s IH]; [done|]. cbn [all_chars].
  intros [Hc Hs]%andb_true_iff. by rewrite (digit_not_space c Hc), IH.
Qed.

Lemma upper_digits (s : string) : all_chars is_digit s = true -> upper s = s.
Proof.
  induction s as [|c s IH]; [done|]. cbn [all_chars].
  intros [Hc Hs]%andb_true_iff.
  change (upper (String c s)) with (String (upper_char c) (upper s)).
  by rewrite (upper_char_digit c Hc), IH.
Qed.

End Stripping.

Section NormalizeKb.
Import PyStr PyText.

Lemma normalize_kb_prefix (value : string) :
  value <> EmptyString ->
  String.prefix "KB" (WSUSImporter._normalize_kb value) = true.
Proof.
  unfold WSUSImporter._normalize_kb. destruct value as [|c value]; [done|].
  intros _. cbn [is_empty].
  destruct (String.prefix "KB" (upper (strip (String c value)))) eqn:E;
    cbn [negb]; [exact E|].
  apply prefix_append.
Qed.

Lemma normalize_kb_empty (value : string) :
  WSUSImporter._normalize_kb value = EmptyString <-> value = EmptyString.
Proof.
  split; [|by intros ->].
  destruct value as [|c value]; [done|]. intros E.
  pose proof (normalize_kb_prefix (String c value) ltac:(discriminate)) as Hp.
  rewrite E in Hp. discriminate.
Qed.


Lemma normalize_kb_idem (value : string) :
  WSUSImporter._normalize_kb (WSUSImporter._normalize_kb value)
  = WSUSImporter._normalize_kb value.
Proof.
  destruct value as [|c value]; [done|].
  unfold WSUSImporter._normalize_kb at 2 3. cbn [is_empty].
  set (u := upper (strip (String c value))).
  assert (Hu : upper (strip u) = u)
    by (subst u; by rewrite strip_upper, strip_idem, upper_idem).
  assert (Hl : lstrip u = u).
  { subst u. unfold strip. rewrite <- rstrip_upper. apply lstrip_clean.
    apply rstrip_starts_clean. rewrite <- lstrip_upper. apply lstrip_starts_clean. }
  clearbody u.
  destruct (String.prefix "KB" u) eqn:E; cbn [negb].
  - unfold WSUSImporter._normalize_kb.
    destruct u as [|k u']; [discriminate|]. cbn [is_empty]. rewrite Hu, E. reflexivity.
  - unfold WSUSImporter._normalize_kb.
    change (String.append "KB" u) with (String "K" (String "B" u)).
    cbn [is_empty].
    assert (Hs : strip (String "K" (String "B" u)) = String "K" (String "B" (strip u))).
    { unfold strip. cbn [lstrip]. change (is_space "K") with false. cbv iota.
      rewrite !rstrip_cons_clean by reflexivity. by rewrite Hl. }
    rewrite Hs.
    change (upper (String "K" (String "B" (strip u))))
      with (String "K" (String "B" (upper (strip u)))).
    rewrite Hu.
    assert (Hp : String.prefix "KB" (String "K" (String "B" u)) = true)
      by apply (prefix_append "KB" u).
    rewrite Hp. reflexivity.
Qed.

Lemma import_patches_eq (rows : list string) :
  WSUSImporter.import_patches rows
  = map WSUSImporter._normalize_kb
        (List.filter (fun value => negb (is_empty value)) rows).
Proof.
  unfold WSUSImporter.import_patches. induction rows as [|v rows IH]; [done|].
  cbn [map List.filter]. rewrite IH.
  destruct v as [|c v]; [reflexivity|]. cbn [is_empty negb].
  destruct (WSUSImporter._normalize_kb (String c v)) eqn:E;
    [apply (proj1 (normalize_kb_empty _)) in E; discriminate|].
  cbn [is_empty negb map]. by rewrite E.
Qed.

End NormalizeKb.

(** X21.  [_normalize_kb] gives the empty string for the empty value only;
    every other value comes out with the prefix [KB] (so [import_patches]
    drops exactly the rows without a KB number), and normalizing twice
    changes nothing. *)
Theorem normalize_kb_normal_form (value : string) (rows : list string) :
  (WSUSImporter._normalize_kb value = EmptyString <-> value = EmptyString)
  /\ (value <> EmptyString ->
      String.prefix "KB" (WSUSImporter._normalize_kb value) = true)
  /\ WSUSImporter._normalize_kb (WSUSImporter._normalize_kb value)
     = WSUSImporter._normalize_kb value
  /\ WSUSImporter.import_patches rows
     = map WSUSImporter._normalize_kb
           (List.filter (fun value => negb (PyStr.is_empty value)) rows).
Proof.
  split; [apply normalize_kb_empty|]. split; [apply normalize_kb_prefix|].
  split; [apply normalize_kb_idem | apply import_patches_eq].
Qed.

Section ApprovedList.
Context {F : Type}.

Lemma upsert_wsus_patch_eq (fault : bool) (kb_number : string) (db : Db.t F) :
  Database.upsert_wsus_patch fault kb_number db
  = if fault then (Db.Raised, db)
    else (Db.Returned tt, Database.insert_wsus_patch kb_number db).
Proof.
  unfold Database.upsert_wsus_patch, Db.connection, Db.execute. by destruct fault.
Qed.

Lemma is_kb_approved_insert (kb_number kb : string) (db : Db.t F) :
  Db.is_kb_approved (Database.insert_wsus_patch kb_number db) kb
  = String.eqb kb kb_number || Db.is_kb_approved db kb.
Proof.
  unfold Db.is_kb_approved, Database.insert_wsus_patch. cbn [Db.wsus_patches].
  destruct (String.eqb_spec kb kb_number) as [->|Hne]; cbn [orb].
  - apply bool_decide_eq_true. apply elem_of_union. left. by apply elem_of_singleton.
  - apply bool_decide_ext. rewrite elem_of_union, elem_of_singleton. tauto.
Qed.

(** The store after the patches of a list were upserted, in order. *)
Fixpoint with_patches (patches : list string) (db : Db.t F) : Db.t F :=
  match patches with
  | [] => db
  | kb :: rest => with_patches rest (Database.insert_wsus_patch kb db)
  end.

Lemma is_kb_approved_with_patches (patches : list string) (db : Db.t F) (kb : string) :
  Db.is_kb_approved (with_patches patches db) kb = true
  <-> kb ∈ patches \/ Db.is_kb_approved db kb = true.
Proof.
  revert db. induction patches as [|p patches IH]; intros db.
  - cbn. rewrite elem_of_nil. tauto.
  - cbn [with_patches].
    rewrite IH, is_kb_approved_insert, elem_of_cons, orb_true_iff, String.eqb_eq.
    tauto.
Qed.

Lemma with_patches_frame (patches : list string) (db : Db.t F) :
  Db.alerts (with_patches patches db) = Db.alerts db
  /\ Db.validations (with_patches patches db) = Db.validations db
  /\ Db.audit_log (with_patches patches db) = Db.audit_log db
  /\ Db.changes_in_window (with_patches patches db) = Db.changes_in_window db.
Proof.
  revert db. induction patches as [|p patches IH]; intros db; [done|].
  cbn [with_patches].
  destruct (IH (Database.insert_wsus_patch p db)) as (-> & -> & -> & ->). done.
Qed.

(** The loop of [sync], up to the first upsert that raises. *)
Lemma sync_loop_eq (faults : list bool) (patches : list string) (count : nat)
    (db : Db.t F) :
  WSUSImporter.sync_loop faults patches count db
  = match List.find (fun i => nth i faults false) (seq 0 (length patches)) with
    | Some k => (Db.Raised, with_patches (take k patches) db)
    | None => (Db.Returned (count + length patches)%nat, with_patches patches db)
    end.
Proof.
  revert faults count db. induction patches as [|p patches IH]; intros faults count db.
  - cbn. by rewrite Nat.add_0_r.
  - cbn [WSUSImporter.sync_loop length seq List.find]. rewrite upsert_wsus_patch_eq.
    assert (Hhd : nth 0 faults false = hd false faults) by (by destruct faults).
    rewrite Hhd. destruct (hd false faults); [reflexivity|].
    rewrite IH. rewrite <- seq_shift.
    assert (Hfind : forall l,
              List.find (fun i => nth i faults false) (map S l)
              = option_map S (List.find (fun i => nth i (tl faults) false) l)).
    { intros l. induction l as [|i l IHl]; [done|]. cbn [map List.find].
      assert (Hn : nth (S i) faults false = nth i (tl faults) false)
        by (destruct faults; [by destruct i | done]).
      rewrite Hn. destruct (nth i (tl faults) false); [done | apply IHl]. }
    rewrite Hfind.
    destruct (List.find _ (seq 0 (length patches))) as [k|]; cbn [option_map].
    + reflexivity.
    + f_equal. f_equal. lia.
Qed.

End ApprovedList.

(** X22.  [upsert_wsus_patch] and [is_kb_approved] round-trip: after the
    upsert the KB number is approved, every other number is approved
    exactly when it was before (the comparison is exact, letter case
    included), a second upsert of the same number changes nothing, and the
    other tables are untouched; when the statement raises, the store is as
    it was. *)
Theorem upsert_wsus_patch_round_trip (F : Type) (db : Db.t F) (fault : bool)
    (kb_number : string) :
  let r := Database.upsert_wsus_patch fault kb_number db in
  (fault = true -> r = (Db.Raised, db))
  /\ (fault = false ->
      fst r = Db.Returned tt
      /\ Db.is_kb_approved (snd r) kb_number = true
      /\ (forall kb, kb <> kb_number ->
            Db.is_kb_approved (snd r) kb = Db.is_kb_approved db kb)
      /\ Db.wsus_patches
           (snd (Database.upsert_wsus_patch false kb_number (snd r)))
         = Db.wsus_patches (snd r)
      /\ Db.alerts (snd r) = Db.alerts db
      /\ Db.validations (snd r) = Db.validations db
      /\ Db.audit_log (snd r) = Db.audit_log db
      /\ Db.changes_in_window (snd r) = Db.changes_in_window db).
Proof.
  cbv zeta. rewrite upsert_wsus_patch_eq. split; intros ->; [reflexivity|].
  cbn [fst snd]. split; [reflexivity|].
  split; [by rewrite is_kb_approved_insert, String.eqb_refl|].
  split.
  { intros kb Hne. rewrite is_kb_approved_insert.
    by destruct (String.eqb_spec kb kb_number). }
  split; [|done].
  rewrite upsert_wsus_patch_eq. cbn [snd Database.insert_wsus_patch Db.wsus_patches].
  apply set_eq. intros x. rewrite !elem_of_union. tauto.
Qed.

(** X23.  The loop of [WSUSSyncer.sync] commits patch by patch.  When no
    upsert raises, it counts every patch and afterwards exactly the
    patches of the list and the numbers approved before are approved.
    When the upsert of patch [k] is the first to raise, the loop raises,
    and the patches before [k] stay approved: the sync is not undone. *)
Theorem wsus_sync_commits_each_patch (F : Type) (db : Db.t F)
    (faults : list bool) (patches : list string) :
  let r := WSUSImporter.sync_loop faults patches 0 db in
  ((forall i, (i < length patches)%nat -> nth i faults false = false) ->
   fst r = Db.Returned (length patches)
   /\ forall kb, Db.is_kb_approved (snd r) kb = true
                 <-> kb ∈ patches \/ Db.is_kb_approved db kb = true)
  /\ (forall k,
        (k < length patches)%nat ->
        nth k faults false = true ->
        (forall i, (i < k)%nat -> nth i faults false = false) ->
        fst r = Db.Raised
        /\ forall kb, Db.is_kb_approved (snd r) kb = true
                      <-> kb ∈ take k patches \/ Db.is_kb_approved db kb = true)
  /\ Db.alerts (snd r) = Db.alerts db
  /\ Db.validations (snd r) = Db.validations db
  /\ Db.audit_log (snd r) = Db.audit_log db.
Proof.
  cbv zeta. rewrite sync_loop_eq. split; [|split].
  - intros Hno.
    destruct (List.find _ _) as [k|] eqn:Ef.
    { apply find_some in Ef as [Hin Hk]. apply in_seq in Hin.
      rewrite Hno in Hk by lia. discriminate. }
    cbn [fst snd]. split; [done|]. apply is_kb_approved_with_patches.
  - intros k Hk Hf Hbefore.
    destruct (List.find _ _) as [k'|] eqn:Ef.
    + assert (k' = k); [|subst k'; cbn [fst snd]; split;
                          [done | apply is_kb_approved_with_patches]].
      pose proof Ef as Ef'. apply find_some in Ef' as [Hin Hk'].
      destruct (Nat.lt_trichotomy k' k) as [Hlt | [-> | Hgt]]; [|done|].
      * rewrite Hbefore in Hk' by done. discriminate.
      * exfalso. clear Hin Hk'. revert Ef.
        assert (Hgen : forall start n, (start <= k < start + n)%nat ->
                  forall k', List.find (fun i => nth i faults false) (seq start n)
                             = Some k' -> (k' <= k)%nat).
        { intros start n. revert start. induction n as [|n IHn]; intros start Hr k'';
            [lia|]. cbn [seq List.find].
          destruct (nth start faults false) eqn:Es; [intros [= <-]; lia|].
          intros Hfind. apply (IHn (S start)); [|done].
          destruct (decide (start = k)) as [->|]; [congruence | lia]. }
        intros Ef. apply (Hgen 0%nat (length patches)) in Ef; lia.
    + exfalso. eapply find_none in Ef; [|apply in_seq; split; [lia | exact Hk]].
      cbv beta in Ef. congruence.
  - destruct (List.find _ _) as [k|]; cbn [snd].
    + destruct (with_patches_frame (take k patches) db) as (-> & -> & -> & _). done.
    + destruct (with_patches_frame patches db) as (-> & -> & -> & _). done.
Qed.

(** ** From the WSUS export to the validation of a patch *)

Section ImportedPatches.
Import PyStr PyText.

(** What [KB\d{6,7}] matches: a letter K, a letter B and the digits. *)
Lemma kb_pattern_shape (s m : string) (len : nat) :
  Re.kb_pattern s = Some (len, m) ->
  exists c1 c2 digits,
    m = String c1 (String c2 digits)
    /\ upper_char c1 = "K"%char /\ upper_char c2 = "B"%char
    /\ is_kb_digits digits = true.
Proof.
  unfold Re.kb_pattern.
  destruct (Re.starts_with_nocase "KB" s) eqn:Es; [|discriminate].
  destruct (Re.digits_6_7 (drop 2 s)) as [n|] eqn:Ed; [|discriminate].
  intros [= <- <-].
  destruct s as [|c1 [|c2 rest]]; try discriminate.
  unfold Re.starts_with_nocase, upper in Es.
  cbn [take String.length map_chars] in Es.
  apply String.eqb_eq in Es. injection Es as E1 E2.
  exists c1, c2, (take n rest). split; [reflexivity|].
  split; [exact E1|]. split; [exact E2|].
  cbn [drop] in Ed. by apply digits_6_7_take.
Qed.

Lemma kb_digits_all (digits : string) :
  is_kb_digits digits = true -> all_chars is_digit digits = true.
Proof. unfold is_kb_digits. by intros [? _]%andb_true_iff. Qed.

Lemma kb_digits_no_prefix (digits : string) :
  is_kb_digits digits = true -> String.prefix "KB" digits = false.
Proof.
  intros Hd%kb_digits_all. destruct digits as [|c digits]; [done|].
  cbn [all_chars] in Hd. apply andb_true_iff in Hd as [Hc _]. revert Hc.
  cbn [String.prefix].
  destruct c as [[] [] [] [] [] [] [] []]; first [reflexivity | discriminate].
Qed.

Lemma upper_char_not_space (c k : ascii) :
  upper_char c = k -> is_space k = false -> is_space c = false.
Proof. intros <-. by rewrite upper_char_space. Qed.

(** The three ways a WSUS export may write the KB number that a patch id
    holds: as in the patch id, in another capitalisation, or as the bare
    digits. *)
Lemma normalize_kb_of_match (s m : string) (len : nat) :
  Re.kb_pattern s = Some (len, m) ->
  WSUSImporter._normalize_kb m = upper m
  /\ WSUSImporter._normalize_kb (upper m) = upper m
  /\ WSUSImporter._normalize_kb (drop 2 m) = upper m.
Proof.
  intros (c1 & c2 & digits & -> & E1 & E2 & Hd)%kb_pattern_shape.
  pose proof (kb_digits_all _ Hd) as Hall.
  assert (Hu : upper (String c1 (String c2 digits)) = String "K" (String "B" digits)).
  { change (upper (String c1 (String c2 digits)))
      with (String (upper_char c1) (String (upper_char c2) (upper digits))).
    by rewrite E1, E2, upper_digits. }
  assert (Hs : forall a b, is_space a = false -> is_space b = false ->
             strip (String a (String b digits)) = String a (String b digits)).
  { intros a b Ha Hb. apply strip_no_space. cbn [all_chars].
    by rewrite Ha, Hb, digits_no_space. }
  assert (Hk : WSUSImporter._normalize_kb (String "K" (String "B" digits))
               = String "K" (String "B" digits)).
  { unfold WSUSImporter._normalize_kb. cbn [is_empty].
    rewrite Hs by reflexivity.
    change (upper (String "K" (String "B" digits)))
      with (String "K" (String "B" (upper digits))).
    rewrite upper_digits by done.
    assert (Hp : String.prefix "KB" (String "K" (String "B" digits)) = true)
      by apply (prefix_append "KB" digits).
    by rewrite Hp. }
  rewrite Hu. split; [|split; [exact Hk|]].
  - unfold WSUSImporter._normalize_kb. cbn [is_empty].
    rewrite Hs by (eapply upper_char_not_space; [eassumption | reflexivity]).
    rewrite Hu.
    assert (Hp : String.prefix "KB" (String "K" (String "B" digits)) = true)
      by apply (prefix_append "KB" digits).
    by rewrite Hp.
  - cbn [drop]. unfold WSUSImporter._normalize_kb.
    destruct digits as [|d ds] eqn:Edig; [discriminate|]. cbn [is_empty].
    rewrite <- Edig in *.
    rewrite strip_no_space by (by apply digits_no_space).
    rewrite upper_digits by done.
    by rewrite kb_digits_no_prefix.
Qed.

End ImportedPatches.

Section ImportedPatchValidates.
Context {F : Type} `{Arith F}.
Variable rt : Runtime.
Import ValidationProcessor.

Lemma first_approved_some (self : t F) (kbs : list string) (kb : string) :
  kb ∈ kbs -> Db.is_kb_approved (db self) kb = true ->
  exists kb', fst (first_approved self kbs) = Some kb'.
Proof.
  intros Hin Hkb. rewrite first_approved_find.
  destruct (List.find _ kbs) as [kb'|] eqn:Ef; [by exists kb'|].
  eapply find_none in Ef; [|by apply list_elem_of_In]. congruence.
Qed.

Lemma search_in_candidates (exc : Exception_) (m : string) :
  Re.search Re.kb_pattern (patch_id exc) = Some m ->
  PyStr.upper m ∈ kb_candidates exc.
Proof.
  intros Hm. unfold kb_candidates. apply elem_of_app. right.
  destruct (patch_id exc) as [|c p] eqn:Ep; [discriminate|]. cbn [PyStr.is_empty].
  rewrite Hm. by left.
Qed.

End ImportedPatchValidates.

(** X24.  From the WSUS export to an auto-validation.  Whatever way the
    export writes a KB number (as the patch id has it, in upper case, or as
    the bare digits), [_normalize_kb] gives the form that
    [process_exception] looks up; so a [patches_installed] exception whose
    patch id names a KB of the export is validated as [wsus_approved] once
    the export has been synced, when the direct lookup did not validate it
    before. *)
Theorem imported_patch_is_validated (F : Type) (A : Arith F) (rt : Runtime)
    (db : Db.t F) (snow : option Snow.Connector) (rows : list string)
    (exc : ValidationProcessor.Exception_) (m value : string) :
  let db' := snd (WSUSImporter.sync_loop [] (WSUSImporter.import_patches rows) 0 db) in
  let self := {| ValidationProcessor.db := db'; ValidationProcessor.snow := snow |} in
  let r := fst (ValidationProcessor.process_exception rt self exc) in
  ValidationProcessor.exception_type exc = "patches_installed"%string ->
  Re.search Re.kb_pattern (ValidationProcessor.patch_id exc) = Some m ->
  value ∈ rows ->
  value = m \/ value = PyStr.upper m \/ value = PyStr.drop 2 m ->
  ValidationProcessor.correlation_method r <> Some "direct_chg_lookup"%string ->
  ValidationProcessor.is_validated r = true
  /\ ValidationProcessor.confidence r = of_Z 1
  /\ ValidationProcessor.correlation_method r = Some "wsus_approved"%string.
Proof.
  intros db' self r Et Hm Hin Hv Hnd.
  assert (Hfind : exists s len, Re.kb_pattern s = Some (len, m)).
  { unfold Re.search in Hm.
    destruct (Re.findall Re.kb_pattern (ValidationProcessor.patch_id exc))
      as [|m' ms] eqn:Ef; [discriminate|]. injection Hm as ->.
    apply (findall_from_match Re.kb_pattern 0 (ValidationProcessor.patch_id exc)).
    fold (Re.findall Re.kb_pattern (ValidationProcessor.patch_id exc)).
    rewrite Ef. by left. }
  destruct Hfind as (s & len & Hs).
  destruct (normalize_kb_of_match s m len Hs) as (N1 & N2 & N3).
  assert (Hn : WSUSImporter._normalize_kb value = PyStr.upper m)
    by (destruct Hv as [-> | [-> | ->]]; assumption).
  assert (Happ : Db.is_kb_approved db' (PyStr.upper m) = true).
  { subst db'. rewrite sync_loop_eq.
    assert (Hnone : List.find (fun i => nth i [] false)
                      (seq 0 (length (WSUSImporter.import_patches rows))) = None).
    { generalize 0%nat at 1. generalize (length (WSUSImporter.import_patches rows)).
      intros n. induction n as [|n IH]; intros start; [done|]. cbn [seq List.find].
      destruct start; apply IH. }
    rewrite Hnone. cbn [snd]. apply is_kb_approved_with_patches. left.
    unfold WSUSImporter.import_patches. apply elem_of_List_filter. split.
    - rewrite <- Hn. apply list_elem_of_fmap. by exists value.
    - destruct (PyStr.upper m) eqn:Eu; [|done].
      apply kb_pattern_shape in Hs as (c1 & c2 & d & -> & _). discriminate. }
  destruct (first_approved_some self (kb_candidates exc) (PyStr.upper m))
    as [kb Hkb]; [by apply search_in_candidates | exact Happ |].
  subst r. revert Hnd. rewrite process_exception_steps. cbv zeta.
  destruct (ValidationProcessor._correlate_with_direct_lookup self
              (ValidationProcessor._extract_chg_numbers rt
                 (ValidationProcessor.comment exc)));
    [intros Hnd; exfalso; apply Hnd; reflexivity|].
  rewrite Et, String.eqb_refl, Hkb. cbn [fst]. done.
Qed.

Lemma imported_patch_is_validated_witness :
  let db' := snd (WSUSImporter.sync_loop (F:=float) []
                    (WSUSImporter.import_patches ["5060999"; " kb5062070 "]%string) 0
                    (Scenario.store [])) in
  let self := {| ValidationProcessor.db := db';
                 ValidationProcessor.snow := Some ScenarioPatch.failing |} in
  let exc :=
    {| ValidationProcessor.exception_type := "patches_installed";
       ValidationProcessor.detected_at := PyDatetime (30 * Scenario.hour);
       ValidationProcessor.asset_group := "All_Windows";
       ValidationProcessor.comment := "Monthly patching";
       ValidationProcessor.kb_numbers := [];
       ValidationProcessor.patch_id := "Update kb5060999" |} in
  ValidationProcessor.correlation_method
    (fst (ValidationProcessor.process_exception Scenario.runtime self exc))
  = Some "wsus_approved"%string.
Proof.
  intros db' self exc.
  refine (proj2 (proj2 (imported_patch_is_validated float binary64 Scenario.runtime
            (Scenario.store []) (Some ScenarioPatch.failing)
            ["5060999"; " kb5062070 "]%string exc "kb5060999" "5060999"
            eq_refl eq_refl _ _ _))).
  - by left.
  - right; right. reflexivity.
  - vm_compute. discriminate.
Defined.

(** ** What the write path leaves alone *)

Section WritePathFrame.
Context {F : Type} `{Arith F}.

Lemma set_alert_status_lookup (alert_id id : Z) (status : string) (db : Db.t F) :
  Db.alerts (Db.set_alert_status alert_id status db) !! id
  = if decide (id = alert_id)
    then (fun _ => status) <$> Db.alerts db !! id
    else Db.alerts db !! id.
Proof.
  unfold Db.set_alert_status. cbn [Db.alerts].
  destruct (decide (id = alert_id)) as [->|Hne].
  - by rewrite lookup_alter_eq.
  - by rewrite lookup_alter_ne.
Qed.

(** The three stores [correlate_and_validate] can leave. *)
Lemma correlate_and_validate_stores (rt : Runtime) (faults : CorrelationEngine.Faults)
    (alert_id : Z) (alert : Alert.t) (db : Db.t F) :
  let db' := snd (CorrelationEngine.correlate_and_validate rt faults alert_id alert db) in
  let v := validation_for rt alert_id alert db in
  db' = db
  \/ db' = Db.insert_validation v db
  \/ (auto_for rt alert db = true
      /\ db' = Db.insert_audit (alert_id, "SYSTEM", "validated")%string
                 (Db.set_alert_status alert_id "validated"
                    (Db.insert_validation v db))).
Proof.
  cbv zeta. rewrite correlate_and_validate_store.
  destruct (CorrelationEngine.create_validation_raises faults); [by left|].
  destruct (auto_for rt alert db && _) eqn:E; [|right; by left].
  apply andb_true_iff in E as [E _]. right; right. done.
Qed.

End WritePathFrame.

(** X25.  [correlate_and_validate] touches one alert only and removes
    nothing: the approved list and the changes are as before, no alert row
    appears or disappears, every alert but the processed one keeps its
    status, and the validations and the audit log are extended at their
    end, by at most one row each.  For an alert id that is not in the store
    the update changes no row at all. *)
Theorem write_path_frame (F : Type) (A : Arith F) (rt : Runtime)
    (faults : CorrelationEngine.Faults) (alert_id : Z) (alert : Alert.t)
    (db : Db.t F) :
  let db' := snd (CorrelationEngine.correlate_and_validate rt faults alert_id alert db) in
  Db.wsus_patches db' = Db.wsus_patches db
  /\ Db.changes_in_window db' = Db.changes_in_window db
  /\ dom (Db.alerts db') = dom (Db.alerts db)
  /\ (forall id, id <> alert_id -> Db.alerts db' !! id = Db.alerts db !! id)
  /\ (Db.alerts db !! alert_id = None -> Db.alerts db' = Db.alerts db)
  /\ (exists rows, Db.validations db' = Db.validations db ++ rows
                   /\ (length rows <= 1)%nat)
  /\ (exists entries, Db.audit_log db' = Db.audit_log db ++ entries
                      /\ (length entries <= 1)%nat).
Proof.
  cbv zeta.
  destruct (correlate_and_validate_stores rt faults alert_id alert db)
    as [-> | [-> | [_ ->]]].
  - repeat (split; [done|]).
    split; exists []; (split; [by rewrite app_nil_r | cbn; lia]).
  - cbn [Db.insert_validation Db.wsus_patches Db.changes_in_window Db.alerts
         Db.validations Db.audit_log].
    repeat (split; [done|]).
    split; [eexists; split; [reflexivity | cbn; lia]|].
    exists []; split; [by rewrite app_nil_r | cbn; lia].
  - cbn [Db.insert_audit Db.set_alert_status Db.insert_validation Db.wsus_patches
         Db.changes_in_window Db.alerts Db.validations Db.audit_log].
    split; [done|]. split; [done|].
    split; [apply dom_alter_L|].
    split; [intros id Hne; by rewrite lookup_alter_ne|].
    split.
    { intros Hnone. apply map_eq. intros id.
      destruct (decide (id = alert_id)) as [->|Hne].
      - by rewrite lookup_alter_eq, Hnone.
      - by rewrite lookup_alter_ne. }
    split; eexists; (split; [reflexivity | cbn; lia]).
Qed.

(** X26.  Every status [correlate_and_validate] writes is one the schema
    admits: a new row of [validations] has a status of the [CHECK]
    constraint of that table ([auto_validated] or [pending_review]), and a
    changed status of an alert is one of the [CHECK] constraint of
    [alerts] ([validated]). *)
Theorem write_path_statuses_pass_checks (F : Type) (A : Arith F) (rt : Runtime)
    (faults : CorrelationEngine.Faults) (alert_id : Z) (alert : Alert.t)
    (db : Db.t F) :
  let db' := snd (CorrelationEngine.correlate_and_validate rt faults alert_id alert db) in
  (forall v, v ∈ Db.validations db' ->
     v ∈ Db.validations db
     \/ Validation.validation_status v ∈ Database.validations_validation_status)
  /\ (forall id status, Db.alerts db' !! id = Some status ->
        Db.alerts db !! id = Some status
        \/ status ∈ Database.alerts_validation_status).
Proof.
  cbv zeta.
  assert (Hv : Validation.validation_status (validation_for rt alert_id alert db)
               ∈ Database.validations_validation_status).
  { rewrite validation_for_status. unfold Database.validations_validation_status.
    destruct (auto_for rt alert db); repeat constructor. }
  destruct (correlate_and_validate_stores rt faults alert_id alert db)
    as [-> | [-> | [_ ->]]].
  - split; intros; by left.
  - cbn [Db.insert_validation Db.alerts Db.validations].
    split; [|intros; by left].
    intros v [Hin | ->%list_elem_of_singleton]%elem_of_app; [by left | by right].
  - cbn [Db.insert_audit Db.set_alert_status Db.insert_validation
         Db.alerts Db.validations].
    split.
    + intros v [Hin | ->%list_elem_of_singleton]%elem_of_app; [by left | by right].
    + intros id status. destruct (decide (id = alert_id)) as [->|Hne].
      * rewrite lookup_alter_eq. destruct (Db.alerts db !! alert_id); [|discriminate].
        intros [= <-]. right. unfold Database.alerts_validation_status.
        repeat constructor.
      * rewrite lookup_alter_ne by done. by left.
Qed.


